(** * A shallow embedding of the honeypot core

    The development follows the Python sources under [honeypot/]:
    [filesystem.py] (the virtual filesystem), [base.py] (the event logger)
    and the services [ssh.py], [telnet.py], [ftp.py], [mysql.py], [http.py].

    Conventions.
    - A Python [str] is a [string]; every [ascii] stands for one character of
      the 8-bit range.  Case mapping and whitespace follow Python on that
      range; [upper] yields code points, since the capitals of two
      characters of the range lie outside it.
    - The bytes of a request body are a [string] as well; their decoding is
      an input of the HTTP handler.
    - A Python [int] is a [Z].
    - A [dict] whose iteration order is never observed is a [gmap]; one whose
      order is written to the wire is an association list with unique keys.
    - An exception is a value of an error type, threaded through [result].
    - Network and clock effects are explicit inputs of the step functions. *)

From Stdlib Require Import ZArith Ascii Lia Sorted.
From Stdlib Require String.
From stdpp Require Import base tactics option list strings gmap pretty.

Local Open Scope Z_scope.

(** ** Python string primitives *)

Module PyStr.

Definition ascii_eqb (a b : ascii) : bool := Ascii.eqb a b.

Definition code (c : ascii) : N := Ascii.N_of_ascii c.

(** [str.isspace] on the 8-bit range. *)
Definition isspace (c : ascii) : bool :=
  let n := code c in
  ((9 <=? n) && (n <=? 13) || (28 <=? n) && (n <=? 32)
   || (n =? 133) || (n =? 160))%N.

Definition isdigit (c : ascii) : bool :=
  let n := code c in ((48 <=? n) && (n <=? 57))%N.

Definition digit_val (c : ascii) : Z := Z.of_N (code c) - 48.

(** The double quote, the backslash, the line feed and the carriage
    return. *)
Definition dquote : ascii := Ascii.ascii_of_N 34.
Definition backslash : ascii := Ascii.ascii_of_N 92.
Definition lf : ascii := Ascii.ascii_of_N 10.
Definition cr : ascii := Ascii.ascii_of_N 13.
Definition crlf : string := String cr (String lf "").

(** [s.split(sep)] for a one-character separator: always at least one
    piece, [n] separators give [n + 1] pieces. *)
Fixpoint split (sep : ascii) (s : string) : list string :=
  match s with
  | EmptyString => [EmptyString]
  | String c s' =>
      if ascii_eqb c sep then EmptyString :: split sep s'
      else match split sep s' with
           | h :: t => String c h :: t
           | [] => [String c EmptyString]
           end
  end.

(** [sep.join(parts)] *)
Fixpoint join (sep : string) (parts : list string) : string :=
  match parts with
  | [] => ""
  | [p] => p
  | p :: rest => p +:+ sep +:+ join sep rest
  end.

(** [s.startswith(pre)] *)
Fixpoint startswith (s pre : string) {struct pre} : bool :=
  match pre with
  | EmptyString => true
  | String a pre' =>
      match s with
      | EmptyString => false
      | String b s' => ascii_eqb a b && startswith s' pre'
      end
  end.

Fixpoint lstrip_by (f : ascii -> bool) (s : string) : string :=
  match s with
  | EmptyString => ""
  | String c s' => if f c then lstrip_by f s' else s
  end.

Fixpoint rstrip_by (f : ascii -> bool) (s : string) : string :=
  match s with
  | EmptyString => ""
  | String c s' =>
      match rstrip_by f s' with
      | EmptyString => if f c then "" else String c ""
      | r => String c r
      end
  end.

Definition strip_by (f : ascii -> bool) (s : string) : string :=
  rstrip_by f (lstrip_by f s).

Fixpoint mem_char (c : ascii) (chars : string) : bool :=
  match chars with
  | EmptyString => false
  | String d rest => ascii_eqb d c || mem_char c rest
  end.

(** [s.strip(chars)], [s.rstrip(chars)] and [s.strip()] *)
Definition strip_chars (chars s : string) : string :=
  strip_by (fun c => mem_char c chars) s.
Definition rstrip_chars (chars s : string) : string :=
  rstrip_by (fun c => mem_char c chars) s.
Definition strip (s : string) : string := strip_by isspace s.

(** [s.split()]: the maximal runs of non-whitespace characters. *)
Fixpoint split_ws (s : string) : list string :=
  match s with
  | EmptyString => []
  | String c s' =>
      if isspace c then split_ws s'
      else match s' with
           | EmptyString => [String c ""]
           | String c' _ =>
               if isspace c' then String c "" :: split_ws s'
               else match split_ws s' with
                    | h :: t => String c h :: t
                    | [] => [String c ""]
                    end
           end
  end.

(** [s.split(" ", 1)] when [" " in s], as a pair. *)
Fixpoint split_once (sep : ascii) (s : string) : option (string * string) :=
  match s with
  | EmptyString => None
  | String c s' =>
      if ascii_eqb c sep then Some ("", s')
      else match split_once sep s' with
           | Some (h, t) => Some (String c h, t)
           | None => None
           end
  end.

(** Case mapping on the 8-bit range.  [lower] stays inside the range.
    [upper] does not: the sharp s becomes two letters, and the images of
    the characters 181 and 255 are U+039C and U+0178.  The result of
    [upper] is therefore a text given by its code points. *)
Definition lower_char (c : ascii) : ascii :=
  let n := code c in
  if ((65 <=? n) && (n <=? 90)
      || (192 <=? n) && (n <=? 222) && negb (n =? 215))%N
  then Ascii.ascii_of_N (n + 32) else c.

Fixpoint lower (s : string) : string :=
  match s with
  | EmptyString => ""
  | String c s' => String (lower_char c) (lower s')
  end.

Definition upper_char (c : ascii) : list N :=
  let n := code c in
  if ((97 <=? n) && (n <=? 122)
      || (224 <=? n) && (n <=? 254) && negb (n =? 247))%N
  then [(n - 32)%N]
  else if (n =? 223)%N then [83%N; 83%N]
  else if (n =? 181)%N then [924%N]
  else if (n =? 255)%N then [376%N]
  else [n].

Fixpoint upper (s : string) : list N :=
  match s with
  | EmptyString => []
  | String c s' => upper_char c ++ upper s'
  end.

(** The code points of a text of the range, and the text of the range
    that has the given code points, if there is one. *)
Fixpoint points (s : string) : list N :=
  match s with
  | EmptyString => []
  | String c s' => code c :: points s'
  end.

Fixpoint narrow (w : list N) : option string :=
  match w with
  | [] => Some ""
  | n :: w' =>
      if (n <? 256)%N then String (Ascii.ascii_of_N n) <$> narrow w'
      else None
  end.

(** [w == s] and [w in names] for an upper-cased text [w]. *)
Fixpoint points_eqb (a b : list N) : bool :=
  match a, b with
  | [], [] => true
  | x :: a', y :: b' => (x =? y)%N && points_eqb a' b'
  | _, _ => false
  end.

Definition reads (w : list N) (s : string) : bool := points_eqb w (points s).

Definition among (w : list N) (names : list string) : bool :=
  existsb (reads w) names.

Definition len (s : string) : nat := String.length s.

Fixpoint repeat_char (c : ascii) (n : nat) : string :=
  match n with
  | O => ""
  | S n' => String c (repeat_char c n')
  end.

(** [s.rjust(w, fill)] and [s.ljust(w, fill)]; the format specifications
    [{x:>w}] and [{x:<w}] are these with a blank fill. *)
Definition rjust (w : nat) (fill : ascii) (s : string) : string :=
  repeat_char fill (w - len s) +:+ s.
Definition ljust (w : nat) (fill : ascii) (s : string) : string :=
  s +:+ repeat_char fill (w - len s).

(** [s[-n:]] *)
Definition last_chars (n : nat) (s : string) : string :=
  String.substring (len s - n) n s.

(** [s[:n]] *)
Definition first_chars (n : nat) (s : string) : string :=
  String.substring 0 n s.

(** [str(n)] and [f"{n}"] for an [int]. *)
Definition str_of_int (n : Z) : string := pretty n.

(** [int(s)] in base ten.  The white space that [int] skips around the
    number is that of [str.strip] without the separators 28..31; one sign is
    allowed, single underscores may separate digits, and a text of more
    digits than the interpreter's limit (4300 unless it is reconfigured) is
    refused.  [None] stands for [ValueError]. *)
Definition int_space (c : ascii) : bool :=
  let n := code c in
  ((9 <=? n) && (n <=? 13) || (n =? 32) || (n =? 133) || (n =? 160))%N.

Fixpoint int_digits (s : string) (acc : Z) (after_digit : bool) : option Z :=
  match s with
  | EmptyString => if after_digit then Some acc else None
  | String c s' =>
      if isdigit c then int_digits s' (acc * 10 + digit_val c) true
      else if ascii_eqb c "_" then
        if after_digit then int_digits s' acc false else None
      else None
  end.

Fixpoint digit_count (s : string) : Z :=
  match s with
  | EmptyString => 0
  | String c s' => (if isdigit c then 1 else 0) + digit_count s'
  end.

Definition int_max_str_digits : Z := 4300.

Definition int_body (body : string) : option Z :=
  if int_max_str_digits <? digit_count body then None
  else int_digits body 0 false.

Definition int_of_str (s : string) : option Z :=
  match strip_by int_space s with
  | String c r =>
      if ascii_eqb c "+" then int_body r
      else if ascii_eqb c "-" then Z.opp <$> int_body r
      else int_body (String c r)
  | EmptyString => None
  end.

Definition nonempty (s : string) : bool :=
  match s with EmptyString => false | _ => true end.

Definition eqb (a b : string) : bool := String.eqb a b.

End PyStr.

(** ** base.py: the event logger *)

Module Log.
Import PyStr.

(** The values that the services hand to [json.dumps]; a number is an
    integer. *)
#[warning="-register-all"]
Inductive Json :=
| JNull
| JBool (b : bool)
| JInt (n : Z)
| JStr (s : string)
| JList (items : list Json)
| JDict (items : list (string * Json)).

(** A [dict] in insertion order: assigning to a key that is present keeps
    its position. *)
Fixpoint dict_set {V} (k : string) (v : V) (d : list (string * V))
  : list (string * V) :=
  match d with
  | [] => [(k, v)]
  | (k', v') :: rest =>
      if eqb k' k then (k, v) :: rest else (k', v') :: dict_set k v rest
  end.

Fixpoint dict_get {V} (k : string) (d : list (string * V)) : option V :=
  match d with
  | [] => None
  | (k', v') :: rest => if eqb k' k then Some v' else dict_get k rest
  end.

Definition dict_has {V} (k : string) (d : list (string * V)) : bool :=
  match dict_get k d with Some _ => true | None => false end.

(** [{**d, **extra}] *)
Definition dict_update {V} (d extra : list (string * V))
  : list (string * V) :=
  fold_left (fun acc kv => dict_set (fst kv) (snd kv) acc) extra d.

Definition hex_digit (n : N) : ascii :=
  Ascii.ascii_of_N (if (n <? 10)%N then 48 + n else 87 + n).

(** The replacement of one character inside a JSON string, with
    [ensure_ascii=False]: the quote, the backslash and the control
    characters are escaped. *)
Definition escape_char (c : ascii) : string :=
  let n := code c in
  if (n =? 34)%N then String backslash (String dquote "")
  else if (n =? 92)%N then String backslash (String backslash "")
  else if (n =? 10)%N then String backslash "n"
  else if (n =? 13)%N then String backslash "r"
  else if (n =? 9)%N then String backslash "t"
  else if (n =? 8)%N then String backslash "b"
  else if (n =? 12)%N then String backslash "f"
  else if (n <? 32)%N then
    String backslash ("u00"
      +:+ String (hex_digit (n / 16)) (String (hex_digit (n mod 16)) ""))
  else String c "".

Fixpoint escape (s : string) : string :=
  match s with
  | EmptyString => ""
  | String c s' => escape_char c +:+ escape s'
  end.

Definition quote (s : string) : string :=
  String dquote (escape s +:+ String dquote "").

(** [json.dumps(value, ensure_ascii=False)] *)
Fixpoint dumps (j : Json) : string :=
  match j with
  | JNull => "null"
  | JBool true => "true"
  | JBool false => "false"
  | JInt n => str_of_int n
  | JStr s => quote s
  | JList items => "[" +:+ join ", " (map dumps items) +:+ "]"
  | JDict items =>
      "{" +:+ join ", "
                (map (fun kv => match kv with
                                | (k, v) => quote k +:+ ": " +:+ dumps v
                                end) items)
          +:+ "}"
  end.

(** The arguments of one call of [log_event]. *)
Record Event := { event : string; details : list (string * Json) }.

(** The [payload] of [log_event]; [ts] is the reading of the clock. *)
Definition payload (ts service : string) (e : Event)
  : list (string * Json) :=
  dict_update
    [("ts", JStr ts); ("service", JStr service); ("event", JStr (event e))]
    (details e).

(** What [log_event] appends to the log file. *)
Definition log_line (ts service : string) (e : Event) : string :=
  dumps (JDict (payload ts service e)) +:+ String "010" "".

Definition opt_str (o : option string) : Json :=
  match o with Some s => JStr s | None => JNull end.

End Log.

(** ** filesystem.py *)

Module Filesystem.
Import PyStr.

(** One iteration of the loop of [normalize] over [path.split("/")]. *)
Definition normalize_step (base_parts : list string) (part : string)
  : list string :=
  if eqb part "" || eqb part "." then base_parts
  else if eqb part ".." then
    match base_parts with
    | [] => base_parts
    | _ => removelast base_parts
    end
  else base_parts ++ [part].

(** [[part for part in cwd.strip("/").split("/") if part]] *)
Definition cwd_parts (cwd : string) : list string :=
  List.filter nonempty (split "/" (strip_chars "/" cwd)).

Definition normalize (path cwd : string) : string :=
  let path := if nonempty path then path else "." in
  let base_parts := if startswith path "/" then [] else cwd_parts cwd in
  "/" +:+ join "/" (fold_left normalize_step (split "/" path) base_parts).

End Filesystem.

(** *** Nodes, resolution, listings *)

Module FsTree.
Import PyStr Filesystem.

(** The fields of a [datetime] that the listings print. *)
Record datetime := {
  dt_year : Z; dt_month : Z; dt_day : Z; dt_hour : Z; dt_minute : Z
}.

Record Meta := {
  mode : string; owner : string; group : string; modified : datetime
}.

(** A built [Node].  [children] holds the values of the dict in insertion
    order; the key of a child is its [name]. *)
#[warning="-register-all"]
Inductive Node :=
| File (name : string) (meta : Meta) (content : string)
       (size_override : option Z)
| Directory (name : string) (meta : Meta) (children : list Node).

Definition node_name (n : Node) : string :=
  match n with File nm _ _ _ => nm | Directory nm _ _ => nm end.

Definition node_meta (n : Node) : Meta :=
  match n with File _ m _ _ => m | Directory _ m _ => m end.

Definition is_dir (n : Node) : bool :=
  match n with File _ _ _ _ => false | Directory _ _ _ => true end.

(** [len(s.encode("utf-8"))]: a character below 128 takes one byte, the
    others of the range take two. *)
Fixpoint utf8_len (s : string) : Z :=
  match s with
  | EmptyString => 0
  | String c s' => (if (code c <? 128)%N then 1 else 2) + utf8_len s'
  end.

Fixpoint size (n : Node) : Z :=
  match n with
  | File _ _ content size_override =>
      match size_override with
      | Some z => z
      | None => utf8_len content
      end
  | Directory _ _ children =>
      (fix sum (l : list Node) : Z :=
         match l with
         | [] => 0
         | c :: rest => size c + sum rest
         end) children
  end.

(** [FilesystemError] and its subclass [NodeNotFound]; the argument is
    [str(exc)]. *)
Inductive FsError :=
| FilesystemError (msg : string)
| NodeNotFound (msg : string).

Definition str_exc (e : FsError) : string :=
  match e with FilesystemError m => m | NodeNotFound m => m end.

(** [isinstance(exc, FilesystemError)] holds for the subclass as well. *)
Definition is_FilesystemError (e : FsError) : bool := true.
Definition is_NodeNotFound (e : FsError) : bool :=
  match e with NodeNotFound _ => true | FilesystemError _ => false end.

Inductive result (A : Type) :=
| Ok (a : A)
| Raise (e : FsError).
Arguments Ok {A} a.
Arguments Raise {A} e.

Definition bind {A B} (r : result A) (k : A -> result B) : result B :=
  match r with Ok a => k a | Raise e => Raise e end.

Definition lookup_child (children : list Node) (name : string)
  : option Node :=
  List.find (fun c => eqb (node_name c) name) children.

(** [Node.child] *)
Definition child (self : Node) (name : string) : result Node :=
  match self with
  | File nm _ _ _ => Raise (FilesystemError (nm +:+ " is not a directory"))
  | Directory _ _ children =>
      match lookup_child children name with
      | Some c => Ok c
      | None => Raise (NodeNotFound name)
      end
  end.

(** A node reached from the root, with the chain of its [parent]
    references, nearest first. *)
Record Located := { node : Node; ancestors : list Node }.

Definition parent (l : Located) : option Located :=
  match ancestors l with
  | [] => None
  | p :: up => Some {| node := p; ancestors := up |}
  end.

(** The names collected by the loop of [get_path], which stops at the
    first node without a name. *)
Fixpoint names_upward (chain : list Node) : list string :=
  match chain with
  | [] => []
  | n :: up => if nonempty (node_name n) then node_name n :: names_upward up
               else []
  end.

Definition get_path (l : Located) : string :=
  "/" +:+ join "/" (rev (names_upward (node l :: ancestors l))).

Record FakeFilesystem := { root : Node }.

Fixpoint walk (current : Located) (parts : list string) : result Located :=
  match parts with
  | [] => Ok current
  | part :: rest =>
      bind (child (node current) part) (fun c =>
        walk {| node := c; ancestors := node current :: ancestors current |}
             rest)
  end.

Definition resolve (fs : FakeFilesystem) (path cwd : string)
  : result Located :=
  let normalized := normalize path cwd in
  let at_root := {| node := root fs; ancestors := [] |} in
  if eqb normalized "/" then Ok at_root
  else walk at_root
         (List.filter nonempty (split "/" (strip_chars "/" normalized))).

(** [sorted] on the items of the dict: by name, keys being unique. *)
Fixpoint insert_sorted (n : Node) (l : list Node) : list Node :=
  match l with
  | [] => [n]
  | m :: rest =>
      if String.leb (node_name n) (node_name m) then n :: l
      else m :: insert_sorted n rest
  end.

Definition sorted_by_name (l : list Node) : list Node :=
  fold_right insert_sorted [] l.

Definition node_children (n : Node) : list Node :=
  match n with File _ _ _ _ => [] | Directory _ _ ch => ch end.

Definition list_directory (fs : FakeFilesystem) (path cwd : string)
    (include_hidden : bool) : result (list Node) :=
  bind (resolve fs path cwd) (fun l =>
    if negb (is_dir (node l)) then
      Raise (FilesystemError (get_path l +:+ " is not a directory"))
    else
      Ok (List.filter
            (fun c => include_hidden || negb (startswith (node_name c) "."))
            (sorted_by_name (node_children (node l))))).

Definition perm_of_digit (d : ascii) : string :=
  if ascii_eqb d "0" then "---" else if ascii_eqb d "1" then "--x"
  else if ascii_eqb d "2" then "-w-" else if ascii_eqb d "3" then "-wx"
  else if ascii_eqb d "4" then "r--" else if ascii_eqb d "5" then "r-x"
  else if ascii_eqb d "6" then "rw-" else "rwx".

Fixpoint perms_of (mode : string) : string :=
  match mode with
  | EmptyString => ""
  | String d rest => perm_of_digit d +:+ perms_of rest
  end.

Definition to_unix_mode (prefix mode : string) : string :=
  prefix +:+ perms_of (rjust 3 "7" (last_chars 3 mode)).

Definition month_abbr (m : Z) : string :=
  nth (Z.to_nat (m - 1))
    ["Jan"; "Feb"; "Mar"; "Apr"; "May"; "Jun";
     "Jul"; "Aug"; "Sep"; "Oct"; "Nov"; "Dec"] "".

Definition two_digits (n : Z) : string := rjust 2 "0" (str_of_int n).

Definition format_ls_time (value : datetime) : string :=
  month_abbr (dt_month value) +:+ " "
    +:+ rjust 2 " " (str_of_int (dt_day value)) +:+ " "
    +:+ two_digits (dt_hour value) +:+ ":" +:+ two_digits (dt_minute value).

Definition name_or_slash (n : Node) : string :=
  if nonempty (node_name n) then node_name n else "/".

Definition detailed_row (type_char : string) (n : Node) (name : string)
  : string :=
  to_unix_mode type_char (mode (node_meta n)) +:+ " 1 "
    +:+ owner (node_meta n) +:+ " " +:+ group (node_meta n) +:+ " "
    +:+ rjust 6 " " (str_of_int (size n)) +:+ " "
    +:+ format_ls_time (modified (node_meta n)) +:+ " " +:+ name.

Definition describe_node (n : Node) (detailed : bool) : string :=
  if negb detailed then name_or_slash n
  else detailed_row (if is_dir n then "d" else "-") n (name_or_slash n).

Definition describe_special (n : Node) (detailed : bool) (name : string)
  : string :=
  if negb detailed then name else detailed_row "d" n name.

(** [sum(max(1, node.size // 1024) for node in nodes)] *)
Definition total_blocks (nodes : list Node) : Z :=
  fold_left (fun acc n => acc + Z.max 1 (size n / 1024)) nodes 0.

(** The [lines] that [format_ls] joins for a directory. *)
Definition ls_lines (target : Located) (nodes : list Node)
    (detailed include_hidden : bool) : list string :=
  (if detailed then ["total " +:+ str_of_int (total_blocks nodes)] else [])
  ++ (if include_hidden then
        [describe_special (node target) detailed ".";
         describe_special
           (match parent target with
            | Some p => node p
            | None => node target
            end) detailed ".."]
      else [])
  ++ map (fun n => describe_node n detailed) nodes.

Definition format_ls (fs : FakeFilesystem) (path cwd : string)
    (detailed include_hidden : bool) : result string :=
  bind (resolve fs path cwd) (fun target =>
    if is_dir (node target) then
      bind (list_directory fs path cwd include_hidden) (fun nodes =>
        Ok (join (String "010" "")
              (ls_lines target nodes detailed include_hidden)))
    else Ok (describe_node (node target) detailed)).

Definition node_content (n : Node) : string :=
  match n with File _ _ c _ => c | Directory _ _ _ => "" end.

Definition read_file (fs : FakeFilesystem) (path cwd : string)
  : result string :=
  bind (resolve fs path cwd) (fun l =>
    if is_dir (node l) then
      Raise (FilesystemError (get_path l +:+ " is a directory"))
    else Ok (node_content (node l))).

Definition ftp_row (n : Node) : string :=
  to_unix_mode (if is_dir n then "d" else "-") (mode (node_meta n))
    +:+ " 1 " +:+ ljust 8 " " (owner (node_meta n)) +:+ " "
    +:+ ljust 8 " " (group (node_meta n)) +:+ " "
    +:+ rjust 8 " " (str_of_int (size n)) +:+ " "
    +:+ format_ls_time (modified (node_meta n)) +:+ " " +:+ node_name n.

Definition format_ftp_list (fs : FakeFilesystem) (path cwd : string)
  : result (list string) :=
  bind (resolve fs path cwd) (fun target =>
    bind (if is_dir (node target)
          then list_directory fs path cwd false
          else Ok [node target])
      (fun nodes => Ok (map ftp_row nodes))).

End FsTree.

(** ** The shell of ssh.py and telnet.py *)

(** [execute_filesystem_command] and [resolve_home] are written out once per
    service in the sources; the two copies of the first differ in the prefix
    of the error messages only, the three copies of the second not at all. *)
Module Shell.
Import PyStr Filesystem FsTree.

Definition flag_in (flags args : list string) : bool :=
  existsb (fun flag => existsb (eqb flag) flags) args.

(** [args[-1] if args and not args[-1].startswith("-") else "."] *)
Definition ls_target (args : list string) : string :=
  match args with
  | [] => "."
  | _ => let l := List.last args "" in
         if negb (startswith l "-") then l else "."
  end.

Section Commands.
(** ["bash: "] in ssh.py, empty in telnet.py *)
Variable shell_name : string.

(** The body of the [try] block; [None] is Python's [None]. *)
Definition try_block (fs : FakeFilesystem) (cmd : string)
    (args : list string) (cwd home username : string)
  : result (option string * string) :=
  if eqb cmd "pwd" then Ok (Some cwd, cwd)
  else if eqb cmd "whoami" then Ok (Some username, cwd)
  else if eqb cmd "cd" then
    let target := match args with a :: _ => a | [] => home end in
    let new_cwd := normalize target cwd in
    bind (resolve fs new_cwd "/") (fun l =>
      if negb (is_dir (node l)) then
        Ok (Some (shell_name +:+ "cd: " +:+ target +:+ ": Not a directory"),
            cwd)
      else Ok (Some "", new_cwd))
  else if eqb cmd "ls" then
    let detailed := flag_in ["-l"; "-la"; "-al"] args in
    let include_hidden := flag_in ["-a"; "-la"; "-al"] args in
    bind (format_ls fs (ls_target args) cwd detailed include_hidden)
      (fun listing => Ok (Some listing, cwd))
  else if eqb cmd "cat" && negb (bool_decide (args = [])) then
    bind (read_file fs (hd "" args) cwd) (fun content =>
      Ok (Some content, cwd))
  else Ok (None, cwd).

(** The [except] clauses are tried in the order of the source. *)
Definition execute_filesystem_command (fs : FakeFilesystem)
    (command cwd home username : string)
  : result (option string * string) :=
  match split_ws command with
  | [] => Ok (Some "", cwd)
  | cmd :: args =>
      match try_block fs cmd args cwd home username with
      | Ok r => Ok r
      | Raise exc =>
          if is_FilesystemError exc then
            Ok (Some (shell_name +:+ cmd +:+ ": " +:+ str_exc exc), cwd)
          else if is_NodeNotFound exc then
            Ok (Some (shell_name +:+ cmd +:+ ": No such file or directory"),
                cwd)
          else Raise exc
      end
  end.
End Commands.

Definition resolve_home (filesystem : option FakeFilesystem)
    (desired : string) : string :=
  match filesystem with
  | None => desired
  | Some fs =>
      let resolved := normalize desired "/" in
      match resolve fs resolved "/" with
      | Ok l => if is_dir (node l) then resolved else "/"
      | Raise exc =>
          (* except (FilesystemError, NodeNotFound): pass *)
          "/"
      end
  end.

(** The user records of the ssh and telnet configurations. *)
Record User := {
  passwords : list string;
  user_home_path : option string;
  user_motd_lines : list string
}.

(** [username in users and password in users[username].get("passwords", [])] *)
Definition credentials_ok (users : gmap string User)
    (username password : string) : bool :=
  match users !! username with
  | Some u => existsb (eqb password) (passwords u)
  | None => false
  end.

End Shell.

Module Ssh.
Import PyStr FsTree.

Definition execute_filesystem_command :=
  Shell.execute_filesystem_command "bash: ".

Definition resolve_home := Shell.resolve_home.

(** [SshService.user_home] *)
Definition user_home (users : gmap string Shell.User) (username : string)
  : string :=
  match users !! username with
  | Some u => default "/" (Shell.user_home_path u)
  | None => "/"
  end.

(** [HoneySSHServer.validate_password]: the event it logs and the value
    it returns. *)
Definition validate_password (users : gmap string Shell.User)
    (peer username password : string) : Log.Event * bool :=
  let success := Shell.credentials_ok users username password in
  ({| Log.event := "login_attempt";
      Log.details := [("client", Log.JStr peer);
                      ("protocol", Log.JStr "ssh");
                      ("username", Log.JStr username);
                      ("password", Log.JStr password);
                      ("success", Log.JBool success)] |}, success).

(** The [cwd] that [HoneySSHSession.connection_made] sets. *)
Definition session_cwd (filesystem : option FakeFilesystem)
    (users : gmap string Shell.User) (username : string) : string :=
  resolve_home filesystem (user_home users username).

End Ssh.

Module Telnet.
Import PyStr FsTree.

Definition execute_filesystem_command :=
  Shell.execute_filesystem_command "".

Definition resolve_home := Shell.resolve_home.

(** One turn of the login loop of [handle_client]: the event it logs and
    whether the credentials are accepted.  Both lines are stripped by
    [prompt]. *)
Definition login_attempt (users : gmap string Shell.User)
    (peer username_line password_line : string) : Log.Event * bool :=
  let username := strip username_line in
  let password := strip password_line in
  let success := Shell.credentials_ok users username password in
  ({| Log.event := "login_attempt";
      Log.details := [("client", Log.JStr peer);
                      ("protocol", Log.JStr "telnet");
                      ("username", Log.JStr username);
                      ("password", Log.JStr password);
                      ("success", Log.JBool success)] |}, success).

(** The [home] that [handle_client] passes to [shell_session] after a
    login of [u], which becomes the first [cwd]. *)
Definition session_cwd (filesystem : option FakeFilesystem)
    (u : Shell.User) : string :=
  resolve_home filesystem (default "/" (Shell.user_home_path u)).

End Telnet.

(** ** ftp.py *)

Module Ftp.
Import PyStr Filesystem FsTree Log.

Record User := {
  passwords : list string;
  user_prompt : option string;
  welcome : option string;
  home : option string
}.

(** A value of [command_responses]: one line or a list of lines. *)
Inductive Canned :=
| One (line : string)
| Many (lines : list string).

(** The keys of ftp_config.json; [None] is an absent key. *)
Record Config := {
  users : gmap string User;
  banner : option string;
  default_home : option string;
  syst_response : option string;
  features : option (list string);
  listing : option (list string);
  command_responses : gmap string Canned
}.

Record Service := {
  config : Config;
  filesystem : option FakeFilesystem;
  host : string
}.

Definition resolve_home := Shell.resolve_home.

(** The passive listener and its one-shot future; [future_cancelled]
    records that a timed-out wait has cancelled the future. *)
Record Passive := { future_cancelled : bool }.

(** The local variables of [handle_client]. *)
Record Session := {
  username : option string;
  authed : bool;
  cwd : string;
  session_home : string;
  active_target : option (string * Z);
  passive : option Passive
}.

(** How a data transfer ends: every line is written and flushed, the
    connection to the active target is refused, or writing or flushing
    raises. *)
Inductive Transfer := Sent | ConnectFailed | WriteFailed.

(** What the network answers while one command is handled. *)
Record Env := {
  peer : string;                 (* str(peername) *)
  sockname : string;             (* local address of the control socket *)
  bound : string * Z;            (* getsockname() of a new passive listener *)
  arrival : bool;                (* a data client shows up within 10 s *)
  transfer : Transfer;
  handed : nat;                  (* lines written before a failing transfer
                                    raises *)
  exc_text : string              (* str(exc) of an exception of the runtime *)
}.

Inductive Next :=
| Continue (s : Session)
| Quit                           (* the loop is left by [break] *)
| Abort (caught : bool).         (* an exception leaves the loop *)

Record Result := {
  written : list string;         (* writes on the control connection *)
  logged : list Event;
  data : option (list string);   (* the lines written to the data writer;
                                    [None] without a data writer *)
  next : Next
}.

Definition say (texts : list string) (events : list Event) (s : Session)
  : Result :=
  {| written := texts; logged := events; data := None; next := Continue s |}.

Definition default_home_of (c : Config) : string :=
  default "/" (default_home c).

(** The state before the first command: the banner is written and [cwd]
    is the resolved [default_home]. *)
Definition connect (svc : Service) : string * Session :=
  let cwd := resolve_home (filesystem svc) (default_home_of (config svc)) in
  (default "220 (vsFTPd 3.0.3)" (banner (config svc)) +:+ crlf,
   {| username := None; authed := false; cwd := cwd; session_home := cwd;
      active_target := None; passive := None |}).

(** [decoded], [command] and [arg] of one received line. *)
Definition decode (line : string) : string := rstrip_chars crlf line.

Definition command_arg (decoded : string) : string * string :=
  match split_once " " decoded with
  | Some (command, arg) => (command, arg)
  | None => (decoded, "")
  end.

Definition command_upper (line : string) : list N :=
  upper (fst (command_arg (decode line))).

Definition member (x : string) (l : list string) : bool :=
  existsb (eqb x) l.

(** [username in users and password in users[username].get("passwords", [])] *)
Definition credentials_ok (c : Config) (username : option string)
    (password : string) : bool :=
  match username with
  | None => false
  | Some u =>
      match users c !! u with
      | Some rec => member password (passwords rec)
      | None => false
      end
  end.

(** The truth value of [username]: neither [None] nor empty. *)
Definition truthy (username : option string) : bool :=
  match username with Some u => nonempty u | None => false end.

Definition command_event (env : Env) (s : Session) (command : string)
    (more : list (string * Json)) : Event :=
  {| event := "command";
     details := [("client", JStr (peer env));
                 ("username", opt_str (username s));
                 ("command", JStr command);
                 ("cwd", JStr (cwd s))] ++ more |}.

Definition error_event (env : Env) : Event :=
  {| event := "error";
     details := [("error", JStr (exc_text env));
                 ("client", JStr (peer env))] |}.

Definition crash (texts : list string) (env : Env) : Result :=
  {| written := texts; logged := [error_event env]; data := None;
     next := Abort true |}.

Definition close_passive (s : Session) : Session :=
  {| username := username s; authed := authed s; cwd := cwd s;
     session_home := session_home s; active_target := active_target s;
     passive := None |}.

Definition do_user (svc : Service) (s : Session) (arg : string) : Result :=
  let prompt :=
    match users (config svc) !! arg with
    | Some rec => default "Please specify the password." (user_prompt rec)
    | None => "Please specify the password."
    end in
  say ["331 " +:+ prompt +:+ crlf] []
    {| username := Some arg; authed := authed s; cwd := cwd s;
       session_home := session_home s; active_target := active_target s;
       passive := passive s |}.

(** The [home] of a session after the login of the user [rec]. *)
Definition home_after_login (svc : Service) (rec : User) : string :=
  resolve_home (filesystem svc)
    (default (default_home_of (config svc)) (home rec)).

Definition do_pass (svc : Service) (env : Env) (s : Session) (arg : string)
  : Result :=
  let success := credentials_ok (config svc) (username s) arg in
  let attempt :=
    {| event := "login_attempt";
       details := [("client", JStr (peer env)); ("protocol", JStr "ftp");
                   ("username", opt_str (username s));
                   ("password", JStr arg); ("success", JBool success)] |} in
  if success && truthy (username s) then
    let rec := default {| passwords := []; user_prompt := None;
                          welcome := None; home := None |}
                 (users (config svc) !! default "" (username s)) in
    let home := home_after_login svc rec in
    say [default "230 Login successful." (welcome rec) +:+ crlf] [attempt]
      {| username := username s; authed := true; cwd := home;
         session_home := home; active_target := None; passive := None |}
  else
    say ["530 Login incorrect." +:+ crlf] [attempt]
      {| username := username s; authed := false; cwd := cwd s;
         session_home := session_home s; active_target := active_target s;
         passive := passive s |}.

(** [0 <= int(part) <= 255], false on [ValueError]. *)
Definition octet_ok (part : string) : bool :=
  match int_of_str part with
  | Some n => (0 <=? n) && (n <=? 255)
  | None => false
  end.

(** [_test_active_address] *)
Definition test_active_address (host : string) (port : Z) : bool :=
  if (port <=? 0) || (65535 <? port) then false
  else
    let parts := split "." host in
    if negb (Nat.eqb (length parts) 4) then false
    else forallb octet_ok parts.

(** [(int(parts[4]) << 8) + int(parts[5])], zero on [ValueError]. *)
Definition port_of (p1 p2 : string) : Z :=
  match int_of_str p1, int_of_str p2 with
  | Some a, Some b => Z.shiftl a 8 + b
  | _, _ => 0
  end.

Definition syntax_error : string :=
  "501 Syntax error in parameters or arguments." +:+ crlf.

Definition do_port (env : Env) (s : Session) (arg : string) : Result :=
  let parts := split "," arg in
  if Nat.eqb (length parts) 6 then
    let host := join "." (firstn 4 parts) in
    let port := port_of (nth 4 parts "") (nth 5 parts "") in
    if test_active_address host port then
      say ["200 PORT command successful." +:+ crlf]
        [command_event env s ("PORT " +:+ arg) []]
        {| username := username s; authed := authed s; cwd := cwd s;
           session_home := session_home s;
           active_target := Some (host, port); passive := None |}
    else say [syntax_error] [] s
  else say [syntax_error] [] s.

Definition do_pasv (svc : Service) (env : Env) (s : Session) : Result :=
  let pasv_host :=
    if eqb (fst (bound env)) "0.0.0.0"
    then (if nonempty (sockname env) then sockname env else "127.0.0.1")
    else fst (bound env) in
  match split "." pasv_host with
  | [h1; h2; h3; h4] =>
      let port := snd (bound env) in
      say ["227 Entering Passive Mode (" +:+ h1 +:+ "," +:+ h2 +:+ ","
             +:+ h3 +:+ "," +:+ h4 +:+ "," +:+ str_of_int (port / 256)
             +:+ "," +:+ str_of_int (port mod 256) +:+ ")." +:+ crlf] []
        {| username := username s; authed := authed s; cwd := cwd s;
           session_home := session_home s; active_target := active_target s;
           passive := Some {| future_cancelled := false |} |}
  | _ => crash [] env
  end.

Definition with_cwd (s : Session) (dir : string) : Session :=
  {| username := username s; authed := authed s; cwd := dir;
     session_home := session_home s; active_target := active_target s;
     passive := passive s |}.

Definition do_cwd (svc : Service) (env : Env) (s : Session) (arg : string)
  : Result :=
  let target := if nonempty arg then arg else session_home s in
  let changed := "250 Directory successfully changed." +:+ crlf in
  let failed := "550 Failed to change directory." +:+ crlf in
  match filesystem svc with
  | None => say [changed] [] (with_cwd s target)
  | Some fs =>
      let new_dir := normalize target (cwd s) in
      match resolve fs new_dir "/" with
      | Ok l =>
          if negb (is_dir (node l)) then say [failed] [] s
          else say [changed]
                 [command_event env (with_cwd s new_dir)
                    ("CWD " +:+ target) []]
                 (with_cwd s new_dir)
      | Raise _ => say [failed] [] s
      end
  end.

Inductive Channel := Active (target : string * Z) | PassiveChannel.

Inductive Prepared :=
| Ready (c : Channel)
| NoChannel (texts : list string) (s : Session)   (* [None] is returned *)
| Cancelled.                      (* waiting on a cancelled future raises *)

Definition timed_out : string :=
  "425 Passive data connection timed out." +:+ crlf.

(** [_prepare_data_channel]: what it writes on the control connection and
    what it returns. *)
Definition prepare_data_channel (env : Env) (s : Session) : Prepared :=
  match active_target s with
  | Some target => Ready (Active target)
  | None =>
      match passive s with
      | Some p =>
          if future_cancelled p then Cancelled
          else if arrival env then Ready PassiveChannel
          else NoChannel [timed_out]
                 {| username := username s; authed := authed s;
                    cwd := cwd s; session_home := session_home s;
                    active_target := active_target s;
                    passive := Some {| future_cancelled := true |} |}
      | None => NoChannel [] s
      end
  end.

Definition use_first : string := "425 Use PORT or PASV first." +:+ crlf.

(** The one-shot channel is given up after the transfer. *)
Definition consume (c : Channel) (s : Session) : Session :=
  match c with
  | Active _ =>
      {| username := username s; authed := authed s; cwd := cwd s;
         session_home := session_home s; active_target := None;
         passive := passive s |}
  | PassiveChannel => close_passive s
  end.

(** [_send_data]: [Some b] is its return value, [None] an exception that
    it lets through. *)
Definition send_data (env : Env) (c : Channel) : option bool :=
  match c, transfer env with
  | _, Sent => Some true
  | Active _, ConnectFailed => Some false
  | Active _, WriteFailed => None
  | PassiveChannel, _ => Some false
  end.

(** The lines that [_send_data] writes to the data writer before it
    returns or raises: all of them when the transfer succeeds, none when
    the connection to the active target is refused, and the first
    [handed env] of them when a write or the flush raises. *)
Definition handed_lines (env : Env) (c : Channel) (lines : list string)
  : option (list string) :=
  match c, transfer env with
  | _, Sent => Some lines
  | Active _, ConnectFailed => None
  | _, _ => Some (firstn (handed env) lines)
  end.

Definition opening : string := "150 Opening data connection." +:+ crlf.
Definition complete : string := "226 Transfer complete." +:+ crlf.
Definition no_connection : string :=
  "425 Could not establish connection." +:+ crlf.

(** The part of LIST, NLST and RETR that follows a successful lookup. *)
Definition transfer_lines (env : Env) (c : Channel) (s : Session)
    (lines : list string) (done : Event) : Result :=
  match send_data env c with
  | Some true =>
      {| written := [opening; complete]; logged := [done];
         data := handed_lines env c lines; next := Continue (consume c s) |}
  | Some false =>
      {| written := [opening; no_connection]; logged := [];
         data := handed_lines env c lines; next := Continue (consume c s) |}
  | None =>
      {| written := [opening]; logged := [error_event env];
         data := handed_lines env c lines; next := Abort true |}
  end.

Definition default_listing : list string :=
  ["-rw-r--r--    1 ftp      ftp          531 Jan 01 12:00 README";
   "drwxr-xr-x    2 ftp      ftp         4096 Jan 01 12:00 pub"].

(** [[line.split()[-1] for line in listing]]; [None] is [IndexError]. *)
Fixpoint last_tokens (lines : list string) : option (list string) :=
  match lines with
  | [] => Some []
  | line :: rest =>
      match split_ws line, last_tokens rest with
      | [], _ => None
      | _, None => None
      | tokens, Some r => Some (List.last tokens "" :: r)
      end
  end.

(** LIST, NLST and XNLST; [cmd] is one of these three, a text of the
    range. *)
Definition do_list (svc : Service) (env : Env) (s : Session)
    (cmd : list N) (arg : string) : Result :=
  match prepare_data_channel env s with
  | Cancelled => {| written := []; logged := []; data := None;
                    next := Abort false |}
  | NoChannel texts s' => say (texts ++ [use_first]) [] s'
  | Ready c =>
      let target_path := if nonempty arg then arg else "." in
      let listing :=
        match filesystem svc with
        | Some fs => format_ftp_list fs target_path (cwd s)
        | None => Ok (default default_listing (listing (config svc)))
        end in
      match listing with
      | Ok rows =>
          let payload := if among cmd ["NLST"; "XNLST"]
                         then last_tokens rows else Some rows in
          match payload with
          | Some lines =>
              transfer_lines env c s lines
                (command_event env s
                   (strip (default "" (narrow cmd) +:+ " " +:+ target_path))
                   [])
          | None => crash [] env
          end
      | Raise _ =>
          say ["550 Failed to list directory." +:+ crlf] [] (consume c s)
      end
  end.

(** [str.splitlines] on the 8-bit range. *)
Definition is_linebreak (c : ascii) : bool :=
  let n := code c in
  ((10 <=? n) && (n <=? 13) || (28 <=? n) && (n <=? 30) || (n =? 133))%N.

Fixpoint splitlines (s : string) : list string :=
  match s with
  | EmptyString => []
  | String c s' =>
      if is_linebreak c then
        EmptyString ::
          match s' with
          | String c' s'' =>
              if ascii_eqb c cr && ascii_eqb c' lf then splitlines s''
              else splitlines s'
          | EmptyString => []
          end
      else match splitlines s' with
           | h :: t => String c h :: t
           | [] => [String c ""]
           end
  end.

Definition do_retr (svc : Service) (env : Env) (s : Session) (arg : string)
  : Result :=
  match prepare_data_channel env s with
  | Cancelled => {| written := []; logged := []; data := None;
                    next := Abort false |}
  | NoChannel texts s' => say (texts ++ [use_first]) [] s'
  | Ready c =>
      match filesystem svc with
      | None => say ["550 File unavailable." +:+ crlf] [] s
      | Some fs =>
          if negb (nonempty arg) then
            say ["501 Missing filename." +:+ crlf] [] s
          else
            match read_file fs arg (cwd s) with
            | Ok content =>
                transfer_lines env c s (splitlines content)
                  (command_event env s ("RETR " +:+ arg)
                     [("size", JInt (utf8_len content))])
            | Raise exc =>
                if is_NodeNotFound exc then
                  say ["550 File not found." +:+ crlf] [] (consume c s)
                else
                  say ["550 File unavailable." +:+ crlf] [] (consume c s)
            end
      end
  end.

(** [default_responses.get(command_upper, ...)]: a key of the
    configuration is a text of the range. *)
Definition canned (c : Config) (cmd : list N) : option Canned :=
  match narrow cmd with
  | Some key => command_responses c !! key
  | None => None
  end.

Definition do_other (svc : Service) (env : Env) (s : Session)
    (cmd : list N) (decoded : string) : Result :=
  let texts :=
    match canned (config svc) cmd with
    | Some (One line) => [line +:+ crlf]
    | Some (Many lines) => map (fun entry => entry +:+ crlf) lines
    | None => ["502 Command not implemented." +:+ crlf]
    end in
  say texts [command_event env s decoded []] s.

Definition please_login : string :=
  "530 Please login with USER and PASS." +:+ crlf.

(** One turn of the loop of [handle_client] on a received line. *)
Definition step (svc : Service) (env : Env) (s : Session) (line : string)
  : Result :=
  let decoded := decode line in
  let arg := snd (command_arg decoded) in
  let cmd := command_upper line in
  if reads cmd "USER" then do_user svc s arg
  else if reads cmd "PASS" then do_pass svc env s arg
  else if negb (authed s) && negb (among cmd ["USER"; "PASS"; "QUIT"; "NOOP"])
  then say [please_login] [] s
  else if reads cmd "SYST" then
    say [default "215 UNIX Type: L8" (syst_response (config svc)) +:+ crlf]
      [] s
  else if among cmd ["PWD"; "XPWD"] then
    say ["257 " +:+ String dquote (cwd s +:+ String dquote
           " is the current directory") +:+ crlf]
      [command_event env s "PWD" []] s
  else if reads cmd "TYPE" then
    if negb (nonempty arg) || among (upper arg) ["I"; "A"]
    then say ["200 Switching to Binary mode." +:+ crlf] [] s
    else say ["504 Command not implemented for that parameter." +:+ crlf]
           [] s
  else if reads cmd "FEAT" then
    say (map (fun entry => entry +:+ crlf)
           (default ["211-Features:"; " UTF8"; " SIZE"; "211 End"]
              (features (config svc)))) [] s
  else if reads cmd "PORT" then do_port env s arg
  else if reads cmd "PASV" then do_pasv svc env s
  else if reads cmd "CWD" then do_cwd svc env s arg
  else if among cmd ["LIST"; "NLST"; "XNLST"] then do_list svc env s cmd arg
  else if reads cmd "RETR" then do_retr svc env s arg
  else if reads cmd "NOOP" then say ["200 NOOP ok." +:+ crlf] [] s
  else if reads cmd "QUIT" then
    {| written := ["221 Goodbye." +:+ crlf]; logged := []; data := None;
       next := Quit |}
  else do_other svc env s cmd decoded.

(** The loop of [handle_client] over the lines that arrive; an empty read
    is the end of the stream. *)
Fixpoint run (svc : Service) (s : Session) (inputs : list (Env * string))
  : list Result :=
  match inputs with
  | [] => []
  | (env, line) :: rest =>
      if nonempty line then
        let r := step svc env s line in
        r :: match next r with
             | Continue s' => run svc s' rest
             | _ => []
             end
      else []
  end.

End Ftp.

(** ** mysql.py *)

Module Mysql.
Import PyStr Log.

(** The keys of mysql_config.json; [command_responses] keeps the items of
    the JSON object in order. *)
Record Config := {
  handshake_banner : option string;
  greeting_lines : option (list string);
  prompt : option string;
  command_responses : list (string * string);
  default_response : option string;
  farewell : option string
}.

Definition default_error : string :=
  "ERROR 1064 (42000): You have an error in your SQL syntax; "
  +:+ "check the manual that corresponds to your MySQL server version for the right syntax to use near '' at line 1".

(** [{key.lower(): value for key, value in ...items()}]: a later item
    replaces an earlier one with the same lowered key. *)
Definition lowered (c : Config) : gmap string string :=
  fold_left (fun m kv => <[lower (fst kv) := snd kv]> m)
    (command_responses c) ∅.

Inductive Next := Continue | Break.

Record Result := {
  written : list string;
  logged : list Event;
  next : Next
}.

Definition command_event (peer command response : string) : Event :=
  {| event := "command";
     details := [("client", JStr peer); ("command", JStr command);
                 ("response", JStr response)] |}.

Definition nl : string := String lf "".

(** One turn of the loop of [handle_client]: the prompt is written, then
    [data] is read; an empty read ends the session. *)
Definition turn (c : Config) (peer data : string) : Result :=
  let shown := default "mysql> " (prompt c) in
  if negb (nonempty data) then
    {| written := [shown]; logged := []; next := Break |}
  else
    let command := strip data in
    if negb (nonempty command) then
      {| written := [shown]; logged := []; next := Continue |}
    else
      let lower_command := lower command in
      match lowered c !! lower_command with
      | None =>
          if existsb (eqb lower_command) ["quit"; "exit"] then
            {| written := [shown; default "Bye" (farewell c) +:+ nl];
               logged := [command_event peer command "BYE"];
               next := Break |}
          else
            let response := default default_error (default_response c) in
            {| written := [shown; response +:+ nl];
               logged := [command_event peer command
                            (first_chars 160 response)];
               next := Continue |}
      | Some response =>
          {| written := [shown; response +:+ nl];
             logged := [command_event peer command
                          (first_chars 160 response)];
             next := Continue |}
      end.

End Mysql.

(** ** http.py *)

Module Http.
Import PyStr Log FsTree.

(** A route of the configuration; [None] is an absent key. *)
Record Route := {
  r_method : option string;
  r_path : option string;
  r_status : option Z;
  r_body : option string;
  r_body_file : option string;
  r_response_headers : option (list (string * string))
}.

Record Config := {
  server_header : option string;
  default_status : option Z;
  default_headers : list (string * string);
  routes : list Route;
  not_found : option Route
}.

Definition server_header_of (c : Config) : string :=
  default "Apache/2.4.52 (Ubuntu)" (server_header c).

Definition default_status_of (c : Config) : Z :=
  default 404 (default_status c).

Definition status_text (status : Z) : string :=
  match status with
  | 200 => "OK" | 201 => "Created" | 202 => "Accepted"
  | 204 => "No Content" | 301 => "Moved Permanently" | 302 => "Found"
  | 400 => "Bad Request" | 401 => "Unauthorized" | 403 => "Forbidden"
  | 404 => "Not Found" | 405 => "Method Not Allowed"
  | 500 => "Internal Server Error" | 502 => "Bad Gateway"
  | 503 => "Service Unavailable"
  | _ => "Unknown"
  end.

(** The truth value of a route as a [dict]: some key is present. *)
Definition route_truthy (r : Route) : bool :=
  match r with
  | {| r_method := None; r_path := None; r_status := None; r_body := None;
       r_body_file := None; r_response_headers := None |} => false
  | _ => true
  end.

Definition route_matches (r : Route) (method path : string) : bool :=
  points_eqb (upper (default "GET" (r_method r))) (upper method)
  && match r_path r with Some p => eqb p path | None => false end.

(** [match_route]: the first route that matches. *)
Definition match_route (c : Config) (method path : string) : option Route :=
  List.find (fun r => route_matches r method path) (routes c).

Section WithFiles.
(** The text files next to the configuration; [None] makes [open]
    raise. *)
Variable files : string -> option string.

(** [resolve_body]: the body and its length in bytes. *)
Definition resolve_body (r : Route) : option (string * Z) :=
  match r_body r, r_body_file r with
  | Some body, _ => Some (body, utf8_len body)
  | None, Some file =>
      match files file with
      | Some content => Some (content, utf8_len content)
      | None => None
      end
  | None, None => Some ("", 0)
  end.

Definition setdefault (k v : string) (d : list (string * string))
  : list (string * string) :=
  if dict_has k d then d else dict_set k v d.

(** The status, the body with its length and the headers before the
    mandatory ones are set: from a route, and without one. *)
Definition route_source (c : Config) (r : Route)
  : option (Z * (string * Z) * list (string * string)) :=
  match resolve_body r with
  | Some body =>
      Some (default (default_status_of c) (r_status r), body,
            dict_update (default_headers c)
              (default [] (r_response_headers r)))
  | None => None
  end.

Definition fallback_source (c : Config)
  : option (Z * (string * Z) * list (string * string)) :=
  let status := default_status_of c in
  let generated := str_of_int status +:+ " " +:+ status_text status
                     +:+ String lf "" in
  match not_found c with
  | Some nf =>
      if route_truthy nf then
        match resolve_body nf with
        | Some body =>
            Some (status, body,
                  dict_update (default_headers c)
                    (default [] (r_response_headers nf)))
        | None => None
        end
      else Some (status, (generated, utf8_len generated), default_headers c)
  | None => Some (status, (generated, utf8_len generated), default_headers c)
  end.

Record Response := {
  status_line : string;
  headers : list (string * string);
  body : string
}.

(** [build_response] before the final concatenation; [date] is the
    value of [http_date()], [None] an exception of [resolve_body]. *)
Definition build_parts (c : Config) (route : option Route)
    (version date : string) : option Response :=
  let source :=
    match route with
    | Some r => if route_truthy r then route_source c r
                else fallback_source c
    | None => fallback_source c
    end in
  match source with
  | Some (status, (body_content, length), headers) =>
      let headers := setdefault "Content-Type" "text/html; charset=utf-8"
                       headers in
      let headers := setdefault "Connection" "close" headers in
      let headers := dict_set "Server" (server_header_of c) headers in
      let headers := dict_set "Date" date headers in
      let headers := dict_set "Content-Length" (str_of_int length)
                       headers in
      Some {| status_line := version +:+ " " +:+ str_of_int status +:+ " "
                               +:+ status_text status +:+ crlf;
              headers := headers;
              body := body_content |}
  | None => None
  end.

Definition header_blob (headers : list (string * string)) : string :=
  join "" (map (fun kv => fst kv +:+ ": " +:+ snd kv +:+ crlf) headers).

Definition render (r : Response) : string :=
  status_line r +:+ header_blob (headers r) +:+ crlf +:+ body r.

Definition build_response (c : Config) (route : option Route)
    (method path version date : string) : option string :=
  render <$> build_parts c route version date.

(** The answer of [handle_client] to a well-formed request line. *)
Definition respond (c : Config) (method path version date : string)
  : option string :=
  build_response c (match_route c method path) method path version date.

End WithFiles.

End Http.

(** ** Statements and fixtures of the properties *)

Module NormalizeSpec.
Import PyStr Filesystem.

(** A component that [normalize] emits: non-empty, free of the separator
    and neither of the two dot names. *)
Definition plain (p : string) : Prop :=
  nonempty p = true /\ mem_char "/" p = false /\ p <> "." /\ p <> "..".

End NormalizeSpec.

Module ShellFixtures.
Import PyStr Filesystem FsTree.

Definition epoch : datetime :=
  {| dt_year := 2024; dt_month := 4; dt_day := 10; dt_hour := 0; dt_minute := 0 |}.

Definition root_meta : Meta :=
  {| mode := "0755"; owner := "root"; group := "root"; modified := epoch |}.

Definition file_meta : Meta :=
  {| mode := "0644"; owner := "root"; group := "root"; modified := epoch |}.

(** A root holding one file and an empty directory. *)
Definition small_fs : FakeFilesystem :=
  {| root := Directory "" root_meta
       [File "readme.md" file_meta ("hi" +:+ String "010" "") None;
        Directory "etc" root_meta []] |}.

End ShellFixtures.

Module ListingSpec.
Import PyStr Filesystem FsTree NormalizeSpec.

(** The first line of a text: what precedes its first line feed. *)
Definition first_line (s : string) : string := hd "" (split "010" s).

(** The block count of one entry and its sum over a list of entries. *)
Definition blocks (n : Node) : Z := Z.max 1 (size n / 1024).

Definition sum_blocks (l : list Node) : Z :=
  fold_right (fun n acc => blocks n + acc) 0 l.

(** The entries of a directory that a listing shows. *)
Definition shown (include_hidden : bool) (children : list Node) : list Node :=
  List.filter (fun c => include_hidden || negb (startswith (node_name c) "."))
    children.

End ListingSpec.

Module ListingFixtures.
Import PyStr Filesystem FsTree NormalizeSpec ListingSpec ShellFixtures.

Definition hidden_fs : FakeFilesystem :=
  {| root := Directory "" root_meta [File ".profile" file_meta "x" None] |}.

End ListingFixtures.

Module FtpFixtures.
Import PyStr Filesystem FsTree Log Ftp ShellFixtures.

Definition anonymous : User :=
  {| passwords := ["anonymous"]; user_prompt := None; welcome := None;
     home := Some "/etc" |}.

Definition ftp_config : Config :=
  {| users := {["ftp" := anonymous]}; banner := None; default_home := None;
     syst_response := None; features := None; listing := None;
     command_responses := ∅ |}.

Definition ftp_service : Service :=
  {| config := ftp_config; filesystem := Some small_fs; host := "0.0.0.0" |}.

Definition quiet : Env :=
  {| peer := "('10.0.0.9', 40000)"; sockname := "10.0.0.1";
     bound := ("0.0.0.0", 50000); arrival := false; transfer := Sent;
     handed := 0; exc_text := "" |}.

Definition logged_in : Session :=
  {| username := Some "ftp"; authed := true; cwd := "/etc";
     session_home := "/etc"; active_target := None; passive := None |}.

Definition line (s : string) : Env * string := (quiet, s +:+ crlf).

End FtpFixtures.

Module FtpDataFixtures.
Import PyStr Filesystem FsTree Log Ftp ShellFixtures FtpFixtures.

Definition pending : Session :=
  {| username := Some "ftp"; authed := true; cwd := "/etc";
     session_home := "/etc"; active_target := None;
     passive := Some {| future_cancelled := false |} |}.

End FtpDataFixtures.

Module FtpAuthSpec.
Import PyStr Filesystem FsTree Log Ftp ShellFixtures FtpFixtures.

(** The commands that the login gate lets through. *)
Definition exempt (cmd : list N) : bool :=
  among cmd ["USER"; "PASS"; "QUIT"; "NOOP"].

(** A PASS that logs in: the stored user name is known, non-empty, and the
    password is one of its passwords. *)
Definition pass_succeeds (svc : Service) (s : Session) (line : string)
  : bool :=
  reads (command_upper line) "PASS"
  && credentials_ok (config svc) (username s)
       (snd (command_arg (decode line)))
  && truthy (username s).

(** From session [s] on, every command outside the exempt ones is answered
    by the 530 line and leaves the session as it is, up to the first PASS
    that logs in. *)
Fixpoint locked_out (svc : Service) (s : Session)
    (inputs : list (Env * string)) : Prop :=
  match inputs with
  | [] => True
  | (env, line) :: rest =>
      let r := step svc env s line in
      (exempt (command_upper line) = false ->
       written r = [please_login] /\ next r = Continue s)
      /\ match next r with
         | Continue s' =>
             if pass_succeeds svc s line then authed s' = true
             else authed s' = false /\ locked_out svc s' rest
         | _ => True
         end
  end.

End FtpAuthSpec.

Module HomeSpec.
Import PyStr Filesystem FsTree NormalizeSpec ShellFixtures.

(** The path, read from the root, names an existing directory. *)
Definition is_directory_at (fs : FakeFilesystem) (path : string) : bool :=
  match resolve fs path "/" with
  | Ok l => is_dir (node l)
  | Raise _ => false
  end.

(** The working directory that a session starts in. *)
Definition expected_home (fs : FakeFilesystem) (desired : string) : string :=
  if is_directory_at fs desired then normalize desired "/" else "/".

End HomeSpec.

Module MysqlSpec.
Import PyStr Log Mysql.

Definition plain_config : Config :=
  {| handshake_banner := None; greeting_lines := None; prompt := None;
     command_responses := [("show databases;", "Database")];
     default_response := Some "ERROR"; farewell := None |}.

Definition shadowing_config : Config :=
  {| handshake_banner := None; greeting_lines := None; prompt := None;
     command_responses := [("QUIT", "Query OK")];
     default_response := None; farewell := None |}.

(** The line, stripped and lowered, is [quit] or [exit]. *)
Definition is_quit (data : string) : bool :=
  existsb (eqb (lower (strip data))) ["quit"; "exit"].

End MysqlSpec.

Module HttpSpec.
Import PyStr Log FsTree Http.

Definition no_files : string -> option string := fun _ => None.

Definition site : Config :=
  {| server_header := Some "nginx/1.18.0"; default_status := None;
     default_headers := [("X-Powered-By", "PHP/7.4")];
     routes := [{| r_method := Some "get"; r_path := Some "/";
                   r_status := Some 200; r_body := Some "X";
                   r_body_file := None; r_response_headers := None |}];
     not_found := None |}.

(** A [not_found] route is configured: the key is present and its value
    is not the empty object. *)
Definition not_found_configured (c : Config) : bool :=
  match not_found c with Some nf => route_truthy nf | None => false end.

(** A route is declared for a request when its path is the path of the
    request and its method, [GET] for a route that names none, is the
    method of the request up to letter case. *)
Definition declared_for (method path : string) (r : Route) : Prop :=
  r_path r = Some path
  /\ upper (default "GET" (r_method r)) = upper method.

(** The stricter reading: the pair of the route is the pair of the
    request. *)
Definition declared_exactly (method path : string) (r : Route) : Prop :=
  r_path r = Some path /\ r_method r = Some method.

(** Three routes on one path. *)
Definition shop : Config :=
  {| server_header := None; default_status := None;
     default_headers := [];
     routes := [{| r_method := Some "POST"; r_path := Some "/a";
                   r_status := Some 201; r_body := Some "made";
                   r_body_file := None; r_response_headers := None |};
                {| r_method := None; r_path := Some "/a";
                   r_status := None; r_body := Some "first";
                   r_body_file := None;
                   r_response_headers := Some [("X-Route", "1")] |};
                {| r_method := Some "GET"; r_path := Some "/a";
                   r_status := Some 200; r_body := Some "second";
                   r_body_file := None; r_response_headers := None |}];
     not_found := None |}.

End HttpSpec.

(** ** A reader of JSON texts *)

Module JsonReader.
Import PyStr Log.

(** The insignificant white space of JSON. *)
Definition is_ws (c : ascii) : bool :=
  let n := code c in ((n =? 32) || (n =? 9) || (n =? 10) || (n =? 13))%N.

Definition skip_ws (s : string) : string := lstrip_by is_ws s.

Definition hex_value (c : ascii) : option N :=
  let n := code c in
  if ((48 <=? n) && (n <=? 57))%N then Some (n - 48)%N
  else if ((97 <=? n) && (n <=? 102))%N then Some (n - 87)%N
  else if ((65 <=? n) && (n <=? 70))%N then Some (n - 55)%N
  else None.

(** The character that a backslash and one letter stand for. *)
Definition escaped (e : ascii) : option ascii :=
  if ascii_eqb e dquote then Some dquote
  else if ascii_eqb e backslash then Some backslash
  else if ascii_eqb e "/" then Some "/"%char
  else if ascii_eqb e "n" then Some lf
  else if ascii_eqb e "r" then Some cr
  else if ascii_eqb e "t" then Some (Ascii.ascii_of_N 9)
  else if ascii_eqb e "b" then Some (Ascii.ascii_of_N 8)
  else if ascii_eqb e "f" then Some (Ascii.ascii_of_N 12)
  else None.

(** The characters of a string up to its closing quote, and the text
    behind the quote.  A control character must be escaped; a [\u] escape
    must name a character of the 8-bit range. *)
Fixpoint read_chars (s : string) : option (string * string) :=
  match s with
  | EmptyString => None
  | String c r =>
      if ascii_eqb c dquote then Some ("", r)
      else if ascii_eqb c backslash then
        match r with
        | EmptyString => None
        | String e r' =>
            if ascii_eqb e "u" then
              match r' with
              | String h3 (String h2 (String h1 (String h0 r''))) =>
                  match hex_value h3, hex_value h2, hex_value h1,
                        hex_value h0 with
                  | Some x3, Some x2, Some x1, Some x0 =>
                      let n := (((x3 * 16 + x2) * 16 + x1) * 16 + x0)%N in
                      if (n <? 256)%N then
                        match read_chars r'' with
                        | Some (t, rest) =>
                            Some (String (Ascii.ascii_of_N n) t, rest)
                        | None => None
                        end
                      else None
                  | _, _, _, _ => None
                  end
              | _ => None
              end
            else
              match escaped e with
              | Some x =>
                  match read_chars r' with
                  | Some (t, rest) => Some (String x t, rest)
                  | None => None
                  end
              | None => None
              end
        end
      else if (code c <? 32)%N then None
      else
        match read_chars r with
        | Some (t, rest) => Some (String c t, rest)
        | None => None
        end
  end.

(** [s] without the prefix [pre], if it starts with it. *)
Fixpoint strip_prefix (pre s : string) {struct pre} : option string :=
  match pre with
  | EmptyString => Some s
  | String p pre' =>
      match s with
      | String c s' => if ascii_eqb c p then strip_prefix pre' s' else None
      | EmptyString => None
      end
  end.

Fixpoint read_digits (s : string) (acc : Z) : Z * string :=
  match s with
  | String c r =>
      if isdigit c then read_digits r (acc * 10 + digit_val c) else (acc, s)
  | EmptyString => (acc, s)
  end.

(** An integer without a leading zero. *)
Definition read_natural (s : string) : option (Z * string) :=
  match s with
  | String c r =>
      if ascii_eqb c "0" then
        match r with
        | String d _ => if isdigit d then None else Some (0, r)
        | EmptyString => Some (0, r)
        end
      else if isdigit c then Some (read_digits s 0)
      else None
  | EmptyString => None
  end.

Definition read_number (s : string) : option (Z * string) :=
  match s with
  | String c r =>
      if ascii_eqb c "-" then
        match read_natural r with
        | Some (n, rest) => Some (- n, rest)
        | None => None
        end
      else read_natural s
  | EmptyString => None
  end.

(** [null], [true], [false] or an integer. *)
Definition read_atom (s : string) : option (Json * string) :=
  match strip_prefix "null" s with
  | Some rest => Some (JNull, rest)
  | None =>
      match strip_prefix "true" s with
      | Some rest => Some (JBool true, rest)
      | None =>
          match strip_prefix "false" s with
          | Some rest => Some (JBool false, rest)
          | None =>
              match read_number s with
              | Some (n, rest) => Some (JInt n, rest)
              | None => None
              end
          end
      end
  end.

(** A value at the head of the text, with the text behind it; the items
    of an array after its bracket, and the members of an object after its
    brace.  The nesting that [fuel] allows is bounded by the length of the
    text. *)
Fixpoint read_value (fuel : nat) (s : string) : option (Json * string) :=
  match fuel with
  | O => None
  | S fuel' =>
      match skip_ws s with
      | EmptyString => None
      | String c r =>
          if ascii_eqb c dquote then
            match read_chars r with
            | Some (t, rest) => Some (JStr t, rest)
            | None => None
            end
          else if ascii_eqb c "[" then
            match skip_ws r with
            | EmptyString => None
            | String d rest =>
                if ascii_eqb d "]" then Some (JList [], rest)
                else match read_items fuel' r with
                     | Some (items, rest') => Some (JList items, rest')
                     | None => None
                     end
            end
          else if ascii_eqb c "{" then
            match skip_ws r with
            | EmptyString => None
            | String d rest =>
                if ascii_eqb d "}" then Some (JDict [], rest)
                else match read_members fuel' r with
                     | Some (members, rest') => Some (JDict members, rest')
                     | None => None
                     end
            end
          else read_atom (String c r)
      end
  end
with read_items (fuel : nat) (s : string) : option (list Json * string) :=
  match fuel with
  | O => None
  | S fuel' =>
      match read_value fuel' s with
      | Some (v, rest) =>
          match skip_ws rest with
          | EmptyString => None
          | String d rest' =>
              if ascii_eqb d "]" then Some ([v], rest')
              else if ascii_eqb d "," then
                match read_items fuel' rest' with
                | Some (vs, rest'') => Some (v :: vs, rest'')
                | None => None
                end
              else None
          end
      | None => None
      end
  end
with read_members (fuel : nat) (s : string)
  : option (list (string * Json) * string) :=
  match fuel with
  | O => None
  | S fuel' =>
      match skip_ws s with
      | EmptyString => None
      | String q r =>
          if ascii_eqb q dquote then
            match read_chars r with
            | Some (k, rest) =>
                match skip_ws rest with
                | EmptyString => None
                | String d rest1 =>
                    if ascii_eqb d ":" then
                      match read_value fuel' rest1 with
                      | Some (v, rest2) =>
                          match skip_ws rest2 with
                          | EmptyString => None
                          | String d' rest3 =>
                              if ascii_eqb d' "}" then Some ([(k, v)], rest3)
                              else if ascii_eqb d' "," then
                                match read_members fuel' rest3 with
                                | Some (more, rest4) =>
                                    Some ((k, v) :: more, rest4)
                                | None => None
                                end
                              else None
                          end
                      | None => None
                      end
                    else None
                end
            | None => None
            end
          else None
      end
  end.

(** The value that a JSON text denotes: [None] when the text is no value
    followed by white space only. *)
Definition loads (s : string) : option Json :=
  match read_value (S (String.length s)) s with
  | Some (v, rest) =>
      match skip_ws rest with
      | EmptyString => Some v
      | String _ _ => None
      end
  | None => None
  end.

End JsonReader.

Module JsonText.
Import PyStr Log JsonReader.

(** The text behind a number does not go on with a digit. *)
Definition ends (rest : string) : Prop :=
  match rest with
  | EmptyString => True
  | String c _ => isdigit c = false
  end.

(** The first character of a value is no white space and closes no
    container. *)
Definition opens (c : ascii) : Prop :=
  is_ws c = false /\ ascii_eqb c "]" = false /\ ascii_eqb c "}" = false.

(** One member of an object as [dumps] writes it. *)
Definition member_text (kv : string * Json) : string :=
  match kv with (k, v) => quote k +:+ ": " +:+ dumps v end.

(** The fuel that reading a value takes. *)
Fixpoint weight (j : Json) : nat :=
  match j with
  | JList items => S (fold_right (fun x n => S (weight x + n)) O items)
  | JDict items => S (fold_right (fun kv n => S (weight (snd kv) + n)) O items)
  | _ => 1
  end.

(** What reading the value [j] in front of [rest] gives. *)
Definition reads_back (j : Json) : Prop :=
  forall fuel s rest,
    (weight j <= fuel)%nat -> ends rest ->
    skip_ws s = dumps j +:+ rest ->
    read_value fuel s = Some (j, rest).

End JsonText.

Module LogSpec.
Import PyStr Log JsonReader NormalizeSpec ListingSpec.

(** The text holds no line feed. *)
Definition one_line (s : string) : Prop := mem_char lf s = false.

(** The line is the text of one JSON object, held on one line and closed
    by a line feed, and the object has each of the keys. *)
Definition record_with (keys : list string) (line : string) : Prop :=
  exists text members,
    line = text +:+ String lf ""
    /\ one_line text
    /\ loads text = Some (JDict members)
    /\ Forall (fun k => exists v, In (k, v) members) keys.

(** Whatever the clock reads and whichever service logs it, the record of
    the event has the keys of every record and those of a login attempt. *)
Definition login_keys (e : Event) : Prop :=
  forall ts service,
    record_with
      ["ts"; "service"; "event"; "username"; "password"; "success"]
      (log_line ts service e).

End LogSpec.

Module PortSpec.
Import PyStr.

(** The text is an integer of [lo..hi], as [int] reads it. *)
Definition integer_between (lo hi : Z) (part : string) : Prop :=
  exists n, int_of_str part = Some n /\ lo <= n <= hi.

(** An argument that announces the host and the port: six parts between
    commas, the first four integers of 0..255, the last two integers [p1]
    and [p2] with [p1 * 256 + p2] in (0, 65535]. *)
Definition announces (arg host : string) (port : Z) : Prop :=
  exists h1 h2 h3 h4 p1 p2 a b,
    split "," arg = [h1; h2; h3; h4; p1; p2]
    /\ Forall (integer_between 0 255) [h1; h2; h3; h4]
    /\ int_of_str p1 = Some a /\ int_of_str p2 = Some b
    /\ port = a * 256 + b /\ 0 < port <= 65535
    /\ host = h1 +:+ "." +:+ h2 +:+ "." +:+ h3 +:+ "." +:+ h4.

End PortSpec.

Module PathSpec.
Import PyStr Filesystem FsTree.

(** The list that [normalize] joins. *)
Definition normalize_parts (path cwd : string) : list string :=
  fold_left normalize_step
    (split "/" (if nonempty path then path else "."))
    (if startswith (if nonempty path then path else ".") "/" then []
     else cwd_parts cwd).

(** A path component: non-empty and free of the separator. *)
Definition solid (p : string) : Prop :=
  nonempty p = true /\ mem_char "/" p = false.

(** The components of [cwd] hold neither [.] nor [..]. *)
Definition clean_cwd (cwd : string) : Prop :=
  Forall (fun p => p <> "." /\ p <> "..") (cwd_parts cwd).

(** The order of a listing: by name. *)
Definition name_le (a b : Node) : Prop :=
  String.leb (node_name a) (node_name b) = true.

(** The entries that a listing shows. *)
Definition visible (include_hidden : bool) (c : Node) : bool :=
  include_hidden || negb (startswith (node_name c) ".").

(** One of the four characters of a permission text. *)
Definition perm_char (c : ascii) : bool :=
  existsb (ascii_eqb c) ["r"; "w"; "x"; "-"]%char.

Fixpoint all_chars (f : ascii -> bool) (s : string) : bool :=
  match s with
  | EmptyString => true
  | String c s' => f c && all_chars f s'
  end.

End PathSpec.

Module FtpMoreFixtures.
Import PyStr Filesystem FsTree Log Ftp ShellFixtures FtpFixtures.

(** A logged-in session after an accepted PORT. *)
Definition with_target : Session :=
  {| username := Some "ftp"; authed := true; cwd := "/etc";
     session_home := "/etc"; active_target := Some ("10.0.0.9", 1025);
     passive := None |}.

Definition after_transfer : Session :=
  {| username := Some "ftp"; authed := true; cwd := "/etc";
     session_home := "/etc"; active_target := None; passive := None |}.

Definition fresh : Session := snd (connect ftp_service).

(** The passive listener is bound to an address of the host. *)
Definition listening : Env :=
  {| peer := ""; sockname := ""; bound := ("192.168.1.7", 50000);
     arrival := false; transfer := Sent; handed := 0; exc_text := "" |}.

(** A data client connects to the passive listener, and the transfer
    breaks after one line. *)
Definition broken : Env :=
  {| peer := "('10.0.0.9', 40000)"; sockname := "10.0.0.1";
     bound := ("0.0.0.0", 50000); arrival := true; transfer := WriteFailed;
     handed := 1; exc_text := "" |}.

End FtpMoreFixtures.

Module NameSpec.
Import PyStr Filesystem FsTree PathSpec.

(** A name that survives [line.split()[-1]]: non-empty and without
    whitespace. *)
Definition one_token (name : string) : Prop :=
  nonempty name = true /\ all_chars (fun c => negb (isspace c)) name = true.

End NameSpec.

Module MysqlKeys.
Import PyStr Log Mysql.

(** The key under which an item of [command_responses] is stored. *)
Definition lower_key (kv : string * string) : string := lower (fst kv).

End MysqlKeys.

(** ** http.py: request handling, error replies, TLS versions *)

Module HttpServer.
Import PyStr Log FsTree Http.

(** [read_headers]: the lines up to the first blank one (or the end of the
    stream) are split at their first colon; key and value are stripped, a
    repeated key keeps its first position and takes the later value.  The
    result is the headers and the lines that are left. *)
Fixpoint read_headers (lines : list string) (headers : list (string * string))
  : list (string * string) * list string :=
  match lines with
  | [] => (headers, [])
  | line :: rest =>
      if existsb (eqb line) [crlf; String lf ""; ""] then (headers, rest)
      else match split_once ":" line with
           | Some (key, value) =>
               read_headers rest (dict_set (strip key) (strip value) headers)
           | None => read_headers rest headers
           end
  end.

(** [x or y] on two header lookups: the first that is present and not
    empty. *)
Definition content_length (headers : list (string * string))
  : option string :=
  match dict_get "Content-Length" headers with
  | Some v => if nonempty v then Some v else dict_get "content-length" headers
  | None => dict_get "content-length" headers
  end.

(** [send_error]: the bytes it writes. *)
Definition send_error (c : Config) (status : Z) (version date : string)
  : string :=
  let body := str_of_int status +:+ " " +:+ status_text status +:+ crlf in
  let headers :=
    [("Content-Type", "text/plain; charset=utf-8");
     ("Content-Length", str_of_int (Z.of_nat (len body)));
     ("Connection", "close");
     ("Server", server_header_of c);
     ("Date", date)] in
  (version +:+ " " +:+ str_of_int status +:+ " " +:+ status_text status
     +:+ crlf)
  +:+ header_blob headers +:+ crlf +:+ body.

(** A route as the dict that the configuration holds. *)
Definition route_json (r : Route) : Json :=
  JDict
    (flat_map (fun kv => match snd kv with
                         | Some j => [(fst kv, j)]
                         | None => []
                         end)
       [("method", JStr <$> r_method r);
        ("path", JStr <$> r_path r);
        ("status", JInt <$> r_status r);
        ("body", JStr <$> r_body r);
        ("body_file", JStr <$> r_body_file r);
        ("response_headers",
         (fun h => JDict (map (fun kv => (fst kv, JStr (snd kv))) h))
           <$> r_response_headers r)]).

Definition headers_json (h : list (string * string)) : Json :=
  JDict (map (fun kv => (fst kv, JStr (snd kv))) h).

Record Handled := {
  response : option string;        (* what is written to the client *)
  events : list Event
}.

Definition error_event (peer exc_text : string) : Event :=
  {| event := "error";
     details := [("error", JStr exc_text); ("client", JStr peer)] |}.

Section WithFiles.
Variable files : string -> option string.
(** [data.decode("utf-8", "ignore")] on the bytes of a request body. *)
Variable decode_body : string -> string.

(** [read_body] on the bytes that follow the headers, one [ascii] a byte:
    [readexactly] returns the first [size] of them, or all when there are
    fewer, and [None] is the [ValueError] that it raises for a negative
    size. *)
Definition read_body (headers : list (string * string)) (stream : string)
  : option string :=
  match content_length headers with
  | Some length =>
      if nonempty length then
        match int_of_str length with
        | Some size =>
            if size <? 0 then None
            else Some (decode_body (first_chars (Z.to_nat size) stream))
        | None => Some ""
        end
      else Some ""
  | None => Some ""
  end.

(** [handle_client] on the request line, the lines after it and the
    bytes after the headers.  [exc_text] is the text of the exception,
    if one is raised. *)
Definition handle_client (c : Config) (peer request_line : string)
    (lines : list string) (stream date exc_text : string) : Handled :=
  if negb (nonempty request_line) then {| response := None; events := [] |}
  else
    match split_ws (strip request_line) with
    | [method; path; version] =>
        let headers := fst (read_headers lines []) in
        match read_body headers stream with
        | None => {| response := None; events := [error_event peer exc_text] |}
        | Some body =>
            let route := match_route c method path in
            match build_response files c route method path version date with
            | None =>
                {| response := None; events := [error_event peer exc_text] |}
            | Some text =>
                {| response := Some text;
                   events :=
                     [{| event := "request";
                         details :=
                           [("client", JStr peer); ("method", JStr method);
                            ("path", JStr path); ("version", JStr version);
                            ("headers", headers_json headers);
                            ("body_preview", JStr (first_chars 200 body));
                            ("route",
                             match route with
                             | Some r => route_json r
                             | None => JNull
                             end)] |}] |}
            end
        end
    | _ =>
        {| response := Some (send_error c 400 "HTTP/1.0" date);
           events := [] |}
    end.

End WithFiles.

(** The protocol versions of [ssl.TLSVersion], with their numbers. *)
Inductive TLSVersion := TLSv1 | TLSv1_1 | TLSv1_2 | TLSv1_3.

Definition tls_number (v : TLSVersion) : Z :=
  match v with
  | TLSv1 => 769 | TLSv1_1 => 770 | TLSv1_2 => 771 | TLSv1_3 => 772
  end.

Definition version_map (name : string) : option TLSVersion :=
  if eqb name "TLSv1.0" then Some TLSv1
  else if eqb name "TLSv1.1" then Some TLSv1_1
  else if eqb name "TLSv1.2" then Some TLSv1_2
  else if eqb name "TLSv1.3" then Some TLSv1_3
  else None.

(** [[version_map[v] for v in tls_versions if v in version_map]] *)
Definition allowed_versions (tls_versions : option (list string))
  : list TLSVersion :=
  omap version_map (default ["TLSv1.2"; "TLSv1.3"] tls_versions).

Definition tls_min (a b : TLSVersion) : TLSVersion :=
  if tls_number b <? tls_number a then b else a.
Definition tls_max (a b : TLSVersion) : TLSVersion :=
  if tls_number a <? tls_number b then b else a.

(** The [minimum_version] and [maximum_version] that [build_ssl_context]
    sets; [None] when it sets none. *)
Definition tls_bounds (tls_versions : option (list string))
  : option (TLSVersion * TLSVersion) :=
  match allowed_versions tls_versions with
  | [] => None
  | v :: rest => Some (fold_left tls_min rest v, fold_left tls_max rest v)
  end.

End HttpServer.

Module HttpSpec2.
Import PyStr Log FsTree Http HttpServer.

(** The value that [build_response] falls back on for a header. *)
Definition builtin_header (k : string) : option string :=
  if eqb k "Content-Type" then Some "text/html; charset=utf-8"
  else if eqb k "Connection" then Some "close"
  else None.

(** The headers that [build_response] always sets itself. *)
Definition mandatory (k : string) : bool :=
  existsb (eqb k) ["Server"; "Date"; "Content-Length"].

Definition tls_le (a b : TLSVersion) : Prop := tls_number a <= tls_number b.

End HttpSpec2.

(** ** runtime.py and run_honeypot.py *)

Module Runtime.
Import PyStr FsTree.

Definition SERVICE_MAP : list string :=
  ["ssh"; "telnet"; "ftp"; "http"; "https"; "mysql"].

Definition FILESYSTEM_SERVICES : list string := ["ssh"; "telnet"; "ftp"].

Definition known (names : list string) (name : string) : bool :=
  existsb (eqb name) names.

(** [parse_services_argument]: [None] asks for discovery. *)
Definition parse_services_argument (value : string) : option (list string) :=
  if negb (nonempty value) || eqb (lower value) "auto" then None
  else
    match List.filter nonempty (map strip (split "," value)) with
    | [] => None
    | selected => Some selected
    end.

(** What the runtime finds on the disk: the files that exist in the
    configuration directory, the filesystem that [FakeFilesystem] builds
    from filesystem.json ([None]: it raises), and whether the constructor
    of a service returns. *)
Record Disk := {
  file_exists : string -> bool;
  filesystem_json : option FakeFilesystem;
  constructs : string -> bool
}.

Inductive Failure :=
| Unsupported (invalid : list string)        (* ValueError *)
| Missing (path : string)                    (* FileNotFoundError *)
| Raised (name : string).                    (* raised while building *)

Definition config_file (name : string) : string := name +:+ "_config.json".

(** [determine_service_names] *)
Definition determine_service_names (disk : Disk)
    (requested : option (list string)) : Failure + list string :=
  match requested with
  | Some (first :: others) =>
      let normalized := map lower (first :: others) in
      match List.filter (fun name => negb (known SERVICE_MAP name))
              normalized with
      | [] => inr normalized
      | invalid => inl (Unsupported invalid)
      end
  | _ =>
      inr (List.filter (fun name => file_exists disk (config_file name))
             SERVICE_MAP)
  end.

(** A service as [load_services] builds it. *)
Record Loaded := {
  service_name : string;
  service_filesystem : option FakeFilesystem
}.

(** The loop of [load_services] over the names. *)
Fixpoint build (disk : Disk) (filesystem : option FakeFilesystem)
    (names : list string) : Failure + list Loaded :=
  match names with
  | [] => inr []
  | name :: rest =>
      if negb (file_exists disk (config_file name))
      then inl (Missing (config_file name))
      else if negb (constructs disk name) then inl (Raised name)
      else
        match build disk filesystem rest with
        | inl e => inl e
        | inr services =>
            inr ({| service_name := name;
                    service_filesystem :=
                      if known FILESYSTEM_SERVICES name then filesystem
                      else None |} :: services)
        end
  end.

(** [load_services]: the list [self.services] that it leaves. *)
Definition load_services (disk : Disk) (requested : option (list string))
  : Failure + list Loaded :=
  match determine_service_names disk requested with
  | inl e => inl e
  | inr names =>
      if existsb (known FILESYSTEM_SERVICES) names then
        if negb (file_exists disk "filesystem.json")
        then inl (Missing "filesystem.json")
        else match filesystem_json disk with
             | None => inl (Raised "filesystem.json")
             | Some fs => build disk (Some fs) names
             end
      else build disk None names
  end.

End Runtime.

(** ** telnet.py and ssh.py: the sessions *)

Module Prompt.
Import PyStr.

(** [s.replace(old, new)] for a pattern of one character. *)
Fixpoint replace_char (old : ascii) (new s : string) : string :=
  match s with
  | EmptyString => ""
  | String c s' =>
      if ascii_eqb c old then new +:+ replace_char old new s'
      else String c (replace_char old new s')
  end.

(** [prompt.replace("~", cwd if cwd != home else "~")] *)
Definition prompt_label (prompt cwd home : string) : string :=
  replace_char "~" (if negb (eqb cwd home) then cwd else "~") prompt.

(** A stream of lines: [readline] past the end returns the empty line. *)
Definition readline (inputs : list string) : string * list string :=
  match inputs with
  | [] => ("", [])
  | line :: rest => (line, rest)
  end.

(** The event that both shells log for a command. *)
Definition command_event (username command response : string)
  : Log.Event :=
  {| Log.event := "command";
     Log.details := [("username", Log.JStr username);
                     ("command", Log.JStr command);
                     ("response", Log.JStr (first_chars 120 response))] |}.

End Prompt.

Module TelnetSession.
Import PyStr Filesystem FsTree Log Prompt.

(** The keys of telnet_config.json; [None] is an absent key. *)
Record Config := {
  banner : option string;
  login_prompt : option string;
  password_prompt : option string;
  shell_prompt : option string;
  motd : option (list string);
  fake_commands : gmap string string;
  users : gmap string Shell.User;
  max_attempts : option Z;
  failure_message : option string;
  unknown_command : option string
}.

Record Service := {
  config : Config;
  filesystem : option FakeFilesystem
}.

(** What a connection leaves behind: the texts written to the client, the
    events logged, and the exception that ended it, if one did. *)
Record Trace := {
  written : list string;
  logged : list Event;
  raised : option FsError
}.

Definition emit (texts : list string) (events : list Event) (t : Trace)
  : Trace :=
  {| written := texts ++ written t;
     logged := events ++ logged t;
     raised := raised t |}.

Definition silence : Trace :=
  {| written := []; logged := []; raised := None |}.

(** [shell_session]: the loop over the lines that arrive.  An empty read
    ends it. *)
Fixpoint shell_session (svc : Service) (prompt username home cwd : string)
    (inputs : list string) : Trace :=
  let label := prompt_label prompt cwd home in
  match inputs with
  | [] => emit [label] [] silence
  | data :: rest =>
      if negb (nonempty data) then emit [label] [] silence
      else
        let command := strip data in
        if existsb (eqb (lower command)) ["exit"; "quit"; "logout"] then
          emit [label; "logout" +:+ crlf] [] silence
        else if eqb command "" then
          emit [label] [] (shell_session svc prompt username home cwd rest)
        else
          let outcome :=
            match fake_commands (config svc) !! command with
            | Some response => Ok (Some response, cwd)
            | None =>
                match filesystem svc with
                | Some fs =>
                    Telnet.execute_filesystem_command fs command cwd home
                      username
                | None => Ok (None, cwd)
                end
            end in
          match outcome with
          | Ok (response, cwd') =>
              let response :=
                match response with
                | Some r => r
                | None => default "bash: command not found"
                            (unknown_command (config svc))
                end in
              emit (label :: if nonempty response then [response +:+ crlf]
                             else [])
                [command_event username command response]
                (shell_session svc prompt username home cwd' rest)
          | Raise exc =>
              {| written := [label]; logged := []; raised := Some exc |}
          end
  end.

(** The [for] loop of [handle_client] over the attempts that are left,
    followed by what comes after it.  [prompt] writes its message, reads a
    line and, without echo, writes a line break. *)
Fixpoint login_loop (svc : Service) (peer : string) (attempts : nat)
    (inputs : list string) : Trace :=
  match attempts with
  | O => emit ["Connection closed by foreign host." +:+ crlf] [] silence
  | S attempts' =>
      let (username_line, inputs) := readline inputs in
      let (password_line, inputs) := readline inputs in
      let asked := [default "login: " (login_prompt (config svc));
                    default "Password: " (password_prompt (config svc));
                    crlf] in
      let (attempt, success) :=
        Telnet.login_attempt (users (config svc)) peer username_line
          password_line in
      let failed :=
        emit (asked
              ++ [default "Login incorrect" (failure_message (config svc))
                  +:+ crlf])
          [attempt]
          (login_loop svc peer attempts' inputs) in
      match users (config svc) !! strip username_line with
      | Some record =>
          if success then
            let home := Telnet.session_cwd (filesystem svc) record in
            emit (asked
                  ++ map (fun line => line +:+ crlf)
                       (default [] (motd (config svc))))
              [attempt]
              (shell_session svc (default "$ " (shell_prompt (config svc)))
                 (strip username_line) home home inputs)
          else failed
      | None => failed
      end
  end.

(** [handle_client]: an exception is logged after everything else. *)
Definition handle_client (svc : Service) (peer : string)
    (inputs : list string) : Trace :=
  let t :=
    emit (match banner (config svc) with
          | Some b => if nonempty b then [b +:+ crlf] else []
          | None => []
          end) []
      (login_loop svc peer
         (Z.to_nat (default 3 (max_attempts (config svc)))) inputs) in
  match raised t with
  | Some exc =>
      {| written := written t;
         logged := logged t
                   ++ [{| event := "error";
                          details := [("error", JStr (str_exc exc));
                                      ("client", JStr peer)] |}];
         raised := None |}
  | None => t
  end.

End TelnetSession.

Module SshSession.
Import PyStr Filesystem FsTree Log Prompt.

(** The keys of ssh_config.json that the session reads. *)
Record Config := {
  shell_prompt : option string;
  fake_commands : gmap string string;
  users : gmap string Shell.User
}.

Record Service := {
  config : Config;
  filesystem : option FakeFilesystem
}.

(** The attributes of [HoneySSHSession]; the channel is the one that
    [connection_made] stored. *)
Record Session := {
  username : string;
  buffer : string;
  cwd : string;
  home : string
}.

(** What the session does to the outside, in order: [channel.write],
    [channel.exit] and [log_event]. *)
Inductive Effect :=
| Write (text : string)
| Exit (status : Z)
| Logged (e : Event).

(** [SshService.user_motd] *)
Definition user_motd (users : gmap string Shell.User) (name : string)
  : list string :=
  match users !! name with
  | Some u => Shell.user_motd_lines u
  | None => []
  end.

(** [HoneySSHSession.__init__] followed by [connection_made] *)
Definition connection_made (svc : Service) (name : string)
  : Session * list Effect :=
  let start := Ssh.session_cwd (filesystem svc) (users (config svc)) name in
  ({| username := name; buffer := ""; cwd := start; home := start |},
   map (fun line => Write (line +:+ crlf))
     (user_motd (users (config svc)) name)).

(** [_write_prompt] *)
Definition write_prompt (svc : Service) (s : Session) : list Effect :=
  [Write (prompt_label
            (default "root@honeypot:~# " (shell_prompt (config svc)))
            (cwd s) (home s))].

Definition userspace_default_response (command : string) : string :=
  "bash: " +:+ command +:+ ": command not found".

Definition set_cwd (s : Session) (c : string) : Session :=
  {| username := username s; buffer := buffer s; cwd := c;
     home := home s |}.

Definition set_buffer (s : Session) (b : string) : Session :=
  {| username := username s; buffer := b; cwd := cwd s; home := home s |}.

(** [_handle_command] *)
Definition handle_command (svc : Service) (s : Session) (command : string)
  : Session * list Effect :=
  let command := strip command in
  if existsb (eqb command) ["exit"; "logout"; "quit"] then
    (s, [Write (String.append "logout" (String lf "")); Exit 0])
  else if eqb command "" then (s, write_prompt svc s)
  else
    let outcome :=
      match fake_commands (config svc) !! command with
      | Some response => Ok (Some response, cwd s)
      | None =>
          match filesystem svc with
          | Some fs =>
              Ssh.execute_filesystem_command fs command (cwd s) (home s)
                (username s)
          | None => Ok (None, cwd s)
          end
      end in
    match outcome with
    | Ok (response, cwd') =>
        let response :=
          match response with
          | Some r => r
          | None => userspace_default_response command
          end in
        let s' := set_cwd s cwd' in
        (s',
         (if nonempty response then [Write (response +:+ crlf)] else [])
         ++ [Logged (command_event (username s) command response)]
         ++ write_prompt svc s')
    | Raise exc =>
        (s,
         [Write ("Internal error: " +:+ str_exc exc +:+ crlf);
          Logged {| event := "error";
                    details := [("error", JStr (str_exc exc));
                                ("username", JStr (username s))] |}]
         ++ write_prompt svc s)
    end.

(** The [while] loop of [data_received]; every turn shortens the buffer,
    so its length bounds the number of turns. *)
Fixpoint drain (svc : Service) (turns : nat) (s : Session)
  : Session * list Effect :=
  match turns with
  | O => (s, [])
  | S turns' =>
      if mem_char cr (buffer s) || mem_char lf (buffer s) then
        let sep := if mem_char lf (buffer s) then lf else cr in
        match split_once sep (buffer s) with
        | Some (line, rest) =>
            let line := rstrip_chars (String cr "") line in
            let (s', out) := handle_command svc (set_buffer s rest) line in
            let (s'', out') := drain svc turns' s' in
            (s'', out ++ out')
        | None => (s, [])
        end
      else (s, [])
  end.

(** [data_received] *)
Definition data_received (svc : Service) (s : Session) (data : string)
  : Session * list Effect :=
  let s := set_buffer s (buffer s +:+ data) in
  drain svc (String.length (buffer s)) s.

End SshSession.

Module RuntimeFixtures.
Import PyStr FsTree Runtime ShellFixtures.

(** A configuration directory with filesystem.json and the configurations
    of ssh and http. *)
Definition two_services : Disk :=
  {| file_exists := fun path =>
       existsb (eqb path)
         ["filesystem.json"; "ssh_config.json"; "http_config.json"];
     filesystem_json := Some small_fs;
     constructs := fun _ => true |}.

End RuntimeFixtures.

Module SessionSpec.
Import PyStr Filesystem FsTree Log Prompt.

(** The lines that [attempts] turns of the login loop read, in pairs. *)
Fixpoint read_pairs (attempts : nat) (inputs : list string)
  : list (string * string) :=
  match attempts with
  | O => []
  | S attempts' =>
      let (username_line, inputs) := readline inputs in
      let (password_line, inputs) := readline inputs in
      (username_line, password_line) :: read_pairs attempts' inputs
  end.

(** The lines of a telnet shell before the end of the input and before the
    first line that asks to leave. *)
Fixpoint live (inputs : list string) : list string :=
  match inputs with
  | [] => []
  | data :: rest =>
      if negb (nonempty data) then []
      else if existsb (eqb (lower (strip data))) ["exit"; "quit"; "logout"]
      then []
      else data :: live rest
  end.

Definition event_field (key : string) (e : Event) : option Json :=
  dict_get key (details e).

(** The buffer of the ssh session holds no line break. *)
Definition no_line_break (s : string) : Prop :=
  mem_char cr s = false /\ mem_char lf s = false.

(** An effect of the ssh session that logs nothing but a command. *)
Definition orderly (e : SshSession.Effect) : Prop :=
  match e with
  | SshSession.Logged ev => event ev = "command"
  | _ => True
  end.

End SessionSpec.

Module TelnetFixtures.
Import PyStr FsTree Prompt TelnetSession ShellFixtures.

(** A telnet service with one account and two attempts. *)
Definition telnet_config : Config :=
  {| banner := Some "Welcome";
     login_prompt := None;
     password_prompt := None;
     shell_prompt := None;
     motd := None;
     fake_commands := {["uname" := "Linux"]};
     users := {["root" := {| Shell.passwords := ["toor"];
                             Shell.user_home_path := Some "/etc";
                             Shell.user_motd_lines := [] |}]};
     max_attempts := Some 2;
     failure_message := None;
     unknown_command := None |}.

Definition telnet_service : Service :=
  {| config := telnet_config; filesystem := Some small_fs |}.

Definition wrong_logins : list string :=
  ["root" +:+ crlf; "root" +:+ crlf; "admin" +:+ crlf; "toor" +:+ crlf;
   "root" +:+ crlf; "toor" +:+ crlf].

End TelnetFixtures.

Module SshFixtures.
Import PyStr FsTree Prompt SshSession ShellFixtures.

Definition ssh_config : Config :=
  {| shell_prompt := None;
     fake_commands := {["uname" := "Linux"]};
     users := {["root" := {| Shell.passwords := ["toor"];
                             Shell.user_home_path := Some "/etc";
                             Shell.user_motd_lines := ["Last login"] |}]} |}.

Definition ssh_service : Service :=
  {| config := ssh_config; filesystem := Some small_fs |}.

(** The session of [root] after [connection_made]. *)
Definition opened : Session := fst (connection_made ssh_service "root").

(** The text of the buffer after its last line feed. *)
Definition pending (b : string) : string := List.last (split lf b) "".

End SshFixtures.

(* ================================================================== *)
(** * Properties *)

Module PyStrFacts.
Import PyStr.

Lemma ascii_eqb_eq a b : ascii_eqb a b = true <-> a = b.
Proof. apply Ascii.eqb_eq. Qed.

Lemma ascii_eqb_neq a b : ascii_eqb a b = false <-> a <> b.
Proof. apply Ascii.eqb_neq. Qed.

Lemma eqb_eq a b : eqb a b = true <-> a = b.
Proof. apply String.eqb_eq. Qed.

Lemma eqb_neq a b : eqb a b = false <-> a <> b.
Proof. apply String.eqb_neq. Qed.

Lemma points_eqb_eq a b : points_eqb a b = true <-> a = b.
Proof.
  revert b. induction a as [|x a IH]; intros [|y b]; cbn [points_eqb];
    try (split; [discriminate|discriminate]); [tauto|].
  rewrite andb_true_iff, N.eqb_eq, IH. split; [intros [-> ->]|intros [= -> ->]]; auto.
Qed.

Lemma reads_eq w s : reads w s = true <-> w = points s.
Proof. apply points_eqb_eq. Qed.

Lemma code_inj a b : code a = code b -> a = b.
Proof.
  unfold code. intros H.
  rewrite <- (Ascii.ascii_N_embedding a), <- (Ascii.ascii_N_embedding b).
  congruence.
Qed.

Lemma points_inj a b : points a = points b -> a = b.
Proof.
  revert b. induction a as [|c a IH]; intros [|d b]; cbn [points];
    try discriminate; [reflexivity|].
  intros [= Hc Hr]. f_equal; [apply code_inj, Hc | apply IH, Hr].
Qed.

(** On texts of the range the comparisons are those of the texts. *)
Lemma reads_points a b : reads (points a) b = eqb a b.
Proof.
  destruct (eqb a b) eqn:E.
  - apply eqb_eq in E. subst b. apply reads_eq. reflexivity.
  - destruct (reads (points a) b) eqn:R; [|reflexivity].
    apply reads_eq, points_inj in R. apply eqb_neq in E. contradiction.
Qed.

Lemma among_points a names :
  among (points a) names = existsb (eqb a) names.
Proof.
  unfold among. induction names as [|n names IH]; [reflexivity|].
  cbn [existsb]. rewrite reads_points, IH. reflexivity.
Qed.

Lemma narrow_points a : narrow (points a) = Some a.
Proof.
  induction a as [|c a IH]; [reflexivity|]. cbn [points narrow].
  assert ((code c <? 256)%N = true) as ->.
  { apply N.ltb_lt. unfold code. apply Ascii.N_ascii_bounded. }
  rewrite IH. cbn. unfold code. rewrite Ascii.ascii_N_embedding. reflexivity.
Qed.

Ltac known_command :=
  cbv zeta; rewrite ?reads_points, ?among_points, ?narrow_points.

Lemma among_cases w names :
  among w names = true -> exists name, In name names /\ w = points name.
Proof.
  unfold among. intros H. apply List.existsb_exists in H as (name & Hin & Hr).
  exists name. split; [exact Hin|]. apply reads_eq, Hr.
Qed.

End PyStrFacts.

Module NormalizeFacts.
Import PyStr PyStrFacts Filesystem.
Export NormalizeSpec.

Lemma split_nonnil sep s : split sep s <> [].
Proof.
  destruct s as [|c s]; simpl; [discriminate|].
  destruct (ascii_eqb c sep); [discriminate|].
  destruct (split sep s); discriminate.
Qed.

Lemma split_sep_free sep s :
  Forall (fun p => mem_char sep p = false) (split sep s).
Proof.
  induction s as [|c s IH]; simpl.
  - repeat constructor.
  - destruct (ascii_eqb c sep) eqn:E.
    + constructor; [reflexivity|exact IH].
    + destruct (split sep s) as [|h t]; inversion IH; subst.
      * repeat constructor. simpl. rewrite E. reflexivity.
      * constructor; [|assumption]. simpl. rewrite E. assumption.
Qed.

Lemma split_cons_free sep c s :
  ascii_eqb c sep = false ->
  split sep (String c s) =
    match split sep s with h :: t => String c h :: t | [] => [String c ""] end.
Proof. intros E. simpl. rewrite E. reflexivity. Qed.

Lemma split_app_free sep p s :
  mem_char sep p = false ->
  split sep (p +:+ String sep s) = p :: split sep s.
Proof.
  induction p as [|c p IH]; simpl; intros H.
  - rewrite (proj2 (ascii_eqb_eq sep sep) eq_refl). reflexivity.
  - apply orb_false_iff in H as [Hc Hp]. rewrite Hc.
    rewrite (IH Hp). reflexivity.
Qed.

Lemma split_free sep p : mem_char sep p = false -> split sep p = [p].
Proof.
  induction p as [|c p IH]; simpl; intros H; [reflexivity|].
  apply orb_false_iff in H as [Hc Hp]. rewrite Hc, (IH Hp). reflexivity.
Qed.

Lemma split_join sep parts :
  parts <> [] ->
  Forall (fun p => mem_char sep p = false) parts ->
  split sep (join (String sep "") parts) = parts.
Proof.
  induction parts as [|p rest IH]; intros Hne Hall; [congruence|].
  inversion Hall as [|? ? Hp Hrest]; subst.
  destruct rest as [|q rest'].
  - simpl. apply split_free, Hp.
  - change (join (String sep "") (p :: q :: rest'))
      with (p +:+ String sep (join (String sep "") (q :: rest'))).
    rewrite (split_app_free _ _ _ Hp), IH; [reflexivity|discriminate|assumption].
Qed.

Lemma Forall_removelast {A} (P : A -> Prop) (l : list A) :
  Forall P l -> Forall P (removelast l).
Proof.
  induction 1 as [|x l Hx Hl IH]; simpl; [constructor|].
  destruct l; [constructor|]. constructor; assumption.
Qed.

Lemma normalize_step_plain base part :
  Forall plain base -> mem_char "/" part = false ->
  Forall plain (normalize_step base part).
Proof.
  intros Hb Hp. unfold normalize_step.
  destruct (eqb part "") eqn:E1; simpl; [assumption|].
  destruct (eqb part ".") eqn:E2; simpl; [assumption|].
  destruct (eqb part "..") eqn:E3.
  - destruct base; [assumption|]. apply Forall_removelast, Hb.
  - apply Forall_app; split; [assumption|]. constructor; [|constructor].
    apply eqb_neq in E1, E2, E3. repeat split; try assumption.
    destruct part; [congruence|reflexivity].
Qed.

Lemma fold_normalize_plain parts : forall base,
  Forall plain base -> Forall (fun p => mem_char "/" p = false) parts ->
  Forall plain (fold_left normalize_step parts base).
Proof.
  induction parts as [|p parts IH]; simpl; intros base Hb Hp; [assumption|].
  inversion Hp; subst. apply IH; [|assumption].
  apply normalize_step_plain; assumption.
Qed.

Lemma normalize_step_append base part :
  plain part -> normalize_step base part = base ++ [part].
Proof.
  intros (Hne & _ & Hd & Hdd). unfold normalize_step.
  assert (eqb part "" = false) as ->
    by (apply eqb_neq; destruct part; [discriminate|congruence]).
  apply eqb_neq in Hd, Hdd. rewrite Hd, Hdd. reflexivity.
Qed.

Lemma fold_normalize_append parts : forall base,
  Forall plain parts -> fold_left normalize_step parts base = base ++ parts.
Proof.
  induction parts as [|p parts IH]; simpl; intros base H.
  - symmetry. apply app_nil_r.
  - inversion H; subst. rewrite normalize_step_append by assumption.
    rewrite IH by assumption. rewrite <- app_assoc. reflexivity.
Qed.

(** The parts that [normalize] joins are plain as soon as the ones taken
    from [cwd] are. *)
Lemma normalize_parts_plain path cwd :
  Forall (fun p => p <> "." /\ p <> "..") (cwd_parts cwd) ->
  exists parts, Forall plain parts /\ normalize path cwd = "/" +:+ join "/" parts.
Proof.
  intros Hcwd. unfold normalize. eexists; split; [|reflexivity].
  apply fold_normalize_plain; [|apply split_sep_free].
  destruct (startswith _ "/"); [constructor|].
  unfold cwd_parts in *.
  pose proof (split_sep_free "/" (strip_chars "/" cwd)) as Hfree.
  induction Hfree as [|p l Hp Hl IH]; simpl in *; [constructor|].
  destruct (nonempty p) eqn:E; [|apply IH, Hcwd].
  inversion Hcwd; subst. constructor; [|apply IH; assumption].
  unfold plain. tauto.
Qed.

(** An absolute path ignores [cwd]. *)
Lemma normalize_absolute rest cwd :
  normalize (String "/" rest) cwd
  = "/" +:+ join "/" (fold_left normalize_step (split "/" rest) []).
Proof. reflexivity. Qed.

(** A path built from plain parts is a fixed point of [normalize]. *)
Lemma normalize_plain parts cwd :
  Forall plain parts ->
  normalize ("/" +:+ join "/" parts) cwd = "/" +:+ join "/" parts.
Proof.
  intros H.
  change ("/" +:+ join "/" parts) with (String "/" (join "/" parts)).
  rewrite normalize_absolute. f_equal.
  destruct parts as [|p parts]; [reflexivity|].
  rewrite split_join.
  - rewrite (fold_normalize_append (p :: parts) [] H). reflexivity.
  - discriminate.
  - eapply Forall_impl; [exact H|]. intros ? (_ & ? & _); assumption.
Qed.

End NormalizeFacts.

Module Claims_normalize.
Import PyStr Filesystem NormalizeFacts.

Example normalize_ex1 : normalize "../b/./c" "/a/x" = "/a/b/c".
Proof. reflexivity. Qed.

Example normalize_ex2 : normalize "" "/a//b/" = "/a/b".
Proof. reflexivity. Qed.

Example normalize_ex3 : normalize "/../.." "/a" = "/".
Proof. reflexivity. Qed.

(** C4, as stated, fails: [normalize] keeps the dot components of [cwd],
    and the second pass removes them. *)
Lemma C4_counterexample :
  ~ (forall path cwd : string,
       normalize (normalize path cwd) "/" = normalize path cwd).
Proof.
  intros H. specialize (H "x" "/a/../b"). vm_compute in H. discriminate.
Qed.

(** C4, amended: for every path and every cwd none of whose components is
    [.] or [..], normalising the result again from the root returns the
    same path. *)
Theorem C4_normalize_idempotent (path cwd : string) :
  Forall (fun p => p <> "." /\ p <> "..") (cwd_parts cwd) ->
  normalize (normalize path cwd) "/" = normalize path cwd.
Proof.
  intros Hcwd.
  destruct (normalize_parts_plain path cwd Hcwd) as (parts & Hplain & ->).
  apply normalize_plain, Hplain.
Qed.

Lemma C4_normalize_idempotent_witness :
  Forall (fun p => p <> "." /\ p <> "..") (cwd_parts "/home/user")
  /\ normalize (normalize "../x/./y" "/home/user") "/"
     = normalize "../x/./y" "/home/user".
Proof.
  assert (Forall (fun p : string => p <> "." /\ p <> "..")
            (cwd_parts "/home/user")) as H.
  { repeat constructor; discriminate. }
  split; [exact H | exact (C4_normalize_idempotent "../x/./y" "/home/user" H)].
Defined.

End Claims_normalize.

Module Claims_shell.
Import PyStr Filesystem FsTree.
Export ShellFixtures.

Example cat_existing :
  Ssh.execute_filesystem_command small_fs "cat readme.md" "/" "/" "root"
  = Ok (Some ("hi" +:+ String "010" ""), "/").
Proof. reflexivity. Qed.

Example cd_existing :
  Ssh.execute_filesystem_command small_fs "cd etc" "/" "/" "root"
  = Ok (Some "", "/etc").
Proof. reflexivity. Qed.

Example ls_la_root :
  Ssh.execute_filesystem_command small_fs "ls -la /" "/" "/" "root"
  = Ok (Some (join (String "010" "")
      ["total 2";
       "drwxr-xr-x 1 root root      3 Apr 10 00:00 .";
       "drwxr-xr-x 1 root root      3 Apr 10 00:00 ..";
       "drwxr-xr-x 1 root root      0 Apr 10 00:00 etc";
       "-rw-r--r-- 1 root root      3 Apr 10 00:00 readme.md"]), "/").
Proof. vm_compute. reflexivity. Qed.

(** A missing child raises [NodeNotFound], and the first [except] clause,
    written for the base class, answers with the bare exception text. *)
Lemma cat_missing_general shell_name fs command p cwd home username name :
  split_ws command = ["cat"; p] ->
  read_file fs p cwd = Raise (NodeNotFound name) ->
  Shell.execute_filesystem_command shell_name fs command cwd home username
  = Ok (Some (shell_name +:+ "cat: " +:+ name), cwd).
Proof.
  intros Hsplit Hread. unfold Shell.execute_filesystem_command.
  rewrite Hsplit. unfold Shell.try_block.
  change (eqb "cat" "pwd") with false. change (eqb "cat" "whoami") with false.
  change (eqb "cat" "cd") with false. change (eqb "cat" "ls") with false.
  cbn. rewrite Hread. reflexivity.
Qed.

Lemma cd_missing_general shell_name fs command p cwd home username name :
  split_ws command = ["cd"; p] ->
  resolve fs (normalize p cwd) "/" = Raise (NodeNotFound name) ->
  Shell.execute_filesystem_command shell_name fs command cwd home username
  = Ok (Some (shell_name +:+ "cd: " +:+ name), cwd).
Proof.
  intros Hsplit Hres. unfold Shell.execute_filesystem_command.
  rewrite Hsplit. unfold Shell.try_block.
  change (eqb "cd" "pwd") with false. change (eqb "cd" "whoami") with false.
  cbn. rewrite Hres. reflexivity.
Qed.

(** C1: evaluation at the failing inputs.  For a path whose first missing
    component is [nope], [cat] and [cd] answer [bash: cat: nope] and
    [bash: cd: nope] over SSH, [cat: nope] and [cd: nope] over Telnet: the
    text [No such file or directory] is never produced. *)
Theorem C1_missing_path_response :
  Ssh.execute_filesystem_command small_fs "cat nope" "/" "/" "root"
    = Ok (Some "bash: cat: nope", "/")
  /\ Ssh.execute_filesystem_command small_fs "cd nope" "/" "/" "root"
    = Ok (Some "bash: cd: nope", "/")
  /\ Telnet.execute_filesystem_command small_fs "cat nope" "/" "/" "root"
    = Ok (Some "cat: nope", "/")
  /\ Telnet.execute_filesystem_command small_fs "cd nope" "/" "/" "root"
    = Ok (Some "cd: nope", "/")
  /\ resolve small_fs "nope" "/" = Raise (NodeNotFound "nope").
Proof. repeat split; reflexivity. Qed.

End Claims_shell.

Module ListingFacts.
Import PyStr PyStrFacts Filesystem FsTree NormalizeFacts.
Export ListingSpec.

Lemma shown_all children : shown true children = children.
Proof.
  unfold shown. induction children as [|c l IH]; simpl; [reflexivity|].
  f_equal. exact IH.
Qed.

Lemma pretty_N_char_isdigit x : isdigit (pretty_N_char x) = true.
Proof.
  unfold pretty_N_char. repeat case_match; reflexivity.
Qed.

Lemma mem_char_cons c d s :
  mem_char c (String d s) = ascii_eqb d c || mem_char c s.
Proof. reflexivity. Qed.

Lemma digit_differs c d :
  isdigit c = false -> isdigit d = true -> ascii_eqb d c = false.
Proof.
  intros Hc Hd. apply ascii_eqb_neq. intros ->. congruence.
Qed.

Lemma pretty_N_go_free c x : forall s,
  isdigit c = false ->
  mem_char c (pretty_N_go x s) = mem_char c s.
Proof.
  induction (N.lt_wf_0 x) as [x _ IH]; intros s Hc.
  destruct (decide (x = 0%N)) as [->|Hx].
  - rewrite pretty_N_go_0. reflexivity.
  - rewrite pretty_N_go_step by lia.
    rewrite IH by (try apply N.div_lt; try assumption; lia).
    rewrite mem_char_cons, (digit_differs c _ Hc (pretty_N_char_isdigit _)).
    reflexivity.
Qed.

Lemma pretty_N_free c (x : N) :
  isdigit c = false -> mem_char c (pretty x) = false.
Proof.
  intros Hc. unfold pretty, pretty_N. case_decide.
  - rewrite mem_char_cons, (digit_differs c "0" Hc eq_refl). reflexivity.
  - rewrite pretty_N_go_free by assumption. reflexivity.
Qed.

(** The decimal text of an integer holds digits and at most a sign. *)
Lemma str_of_int_free c n :
  isdigit c = false -> c <> "-"%char -> mem_char c (str_of_int n) = false.
Proof.
  intros Hc Hm. unfold str_of_int, pretty, pretty_Z.
  destruct n as [|p|p].
  - rewrite mem_char_cons, (digit_differs c "0" Hc eq_refl). reflexivity.
  - apply (pretty_N_free c (N.pos p) Hc).
  - change ("-" +:+ ?r) with (String "-" r). rewrite mem_char_cons.
    rewrite (proj2 (ascii_eqb_neq "-" c)) by congruence.
    apply (pretty_N_free c (N.pos p) Hc).
Qed.

Lemma mem_char_app c a b :
  mem_char c (a +:+ b) = mem_char c a || mem_char c b.
Proof.
  induction a as [|d a IH]; simpl; [reflexivity|].
  rewrite IH. apply orb_assoc.
Qed.

Lemma first_line_join h rest :
  mem_char "010" h = false ->
  first_line (join (String "010" "") (h :: rest)) = h.
Proof.
  intros Hh. unfold first_line. destruct rest as [|r rest].
  - simpl join. rewrite split_free by assumption. reflexivity.
  - change (join (String "010" "") (h :: r :: rest))
      with (h +:+ String "010" (join (String "010" "") (r :: rest))).
    rewrite split_app_free by assumption. reflexivity.
Qed.

Lemma insert_sorted_perm n l : Permutation (insert_sorted n l) (n :: l).
Proof.
  induction l as [|m l IH]; simpl; [reflexivity|].
  destruct (String.leb _ _); [reflexivity|].
  rewrite IH. apply perm_swap.
Qed.

Lemma sorted_by_name_perm l : Permutation (sorted_by_name l) l.
Proof.
  induction l as [|n l IH]; simpl; [reflexivity|].
  rewrite insert_sorted_perm, IH. reflexivity.
Qed.

Lemma filter_perm {A} (f : A -> bool) (l l' : list A) :
  Permutation l l' -> Permutation (List.filter f l) (List.filter f l').
Proof.
  induction 1 as [|x l l' _ IH|x y l|l l' l'' _ IH1 _ IH2]; simpl.
  - reflexivity.
  - destruct (f x); [constructor|]; exact IH.
  - destruct (f x), (f y); try reflexivity. apply perm_swap.
  - etransitivity; eassumption.
Qed.

Lemma sum_blocks_perm l l' : Permutation l l' -> sum_blocks l = sum_blocks l'.
Proof.
  induction 1; simpl; lia.
Qed.

Lemma total_blocks_from nodes : forall acc,
  fold_left (fun acc n => acc + Z.max 1 (size n / 1024)) nodes acc
  = acc + sum_blocks nodes.
Proof.
  induction nodes as [|n l IH]; simpl; intros acc; [lia|].
  rewrite IH. unfold blocks. lia.
Qed.

Lemma total_blocks_sum nodes : total_blocks nodes = sum_blocks nodes.
Proof. unfold total_blocks. rewrite total_blocks_from. lia. Qed.

(** What [list_directory] returns for a resolved directory. *)
Lemma list_directory_dir fs path cwd include_hidden target :
  resolve fs path cwd = Ok target -> is_dir (node target) = true ->
  list_directory fs path cwd include_hidden
  = Ok (shown include_hidden (sorted_by_name (node_children (node target)))).
Proof.
  intros Hres Hdir. unfold list_directory. rewrite Hres. simpl.
  rewrite Hdir. reflexivity.
Qed.

End ListingFacts.

Module Claims_listing.
Import PyStr Filesystem FsTree NormalizeFacts ListingFacts Claims_shell.
Export ListingFixtures.

Example ls_l_hidden :
  format_ls hidden_fs "/" "/" true false = Ok "total 0".
Proof. vm_compute. reflexivity. Qed.

(** C7, as stated, fails: a plain [ls -l] leaves the hidden children out
    of the total. *)
Lemma C7_counterexample :
  ~ (forall fs path cwd include_hidden target,
       resolve fs path cwd = Ok target -> is_dir (node target) = true ->
       exists out,
         format_ls fs path cwd true include_hidden = Ok out
         /\ first_line out
            = "total " +:+ str_of_int (sum_blocks (node_children (node target)))).
Proof.
  intros H.
  destruct (H hidden_fs "/" "/" false
              {| node := root hidden_fs; ancestors := [] |}
              eq_refl eq_refl) as (out & Hout & Hline).
  vm_compute in Hout. inversion Hout; subst out.
  vm_compute in Hline. discriminate.
Qed.

(** C7, amended: for every directory listed in detailed mode the first
    output line is [total N], where [N] is the sum of
    [max(1, size // 1024)] over the children that the listing shows: all
    of them when hidden entries are included, and those whose name does
    not start with a dot otherwise. *)
Theorem C7_total_line fs path cwd include_hidden target :
  resolve fs path cwd = Ok target -> is_dir (node target) = true ->
  exists out,
    format_ls fs path cwd true include_hidden = Ok out
    /\ first_line out
       = "total " +:+ str_of_int
           (sum_blocks (shown include_hidden (node_children (node target)))).
Proof.
  intros Hres Hdir. unfold format_ls. rewrite Hres. simpl. rewrite Hdir.
  rewrite (list_directory_dir _ _ _ _ _ Hres Hdir). simpl.
  eexists; split; [reflexivity|]. unfold ls_lines.
  cbv iota. rewrite total_blocks_sum.
  rewrite (sum_blocks_perm _ (shown include_hidden (node_children (node target))))
    by (apply filter_perm, sorted_by_name_perm).
  change ([?x] ++ ?r) with (x :: r). simpl app at 1.
  apply first_line_join. rewrite mem_char_app.
  rewrite str_of_int_free by (reflexivity || discriminate). reflexivity.
Qed.

Lemma C7_total_line_witness :
  resolve small_fs "/" "/" = Ok {| node := root small_fs; ancestors := [] |}
  /\ is_dir (root small_fs) = true
  /\ exists out,
       format_ls small_fs "/" "/" true true = Ok out
       /\ first_line out
          = "total " +:+ str_of_int
              (sum_blocks (shown true (node_children (root small_fs)))).
Proof.
  split; [reflexivity|]. split; [reflexivity|].
  exact (C7_total_line small_fs "/" "/" true
           {| node := root small_fs; ancestors := [] |} eq_refl eq_refl).
Defined.

End Claims_listing.

Module Claims_ftp_examples.
Import PyStr Filesystem FsTree Log Ftp Claims_shell.
Export FtpFixtures.

Example login_then_pwd :
  map written (run ftp_service (snd (connect ftp_service))
                 [line "USER ftp"; line "PASS anonymous"; line "PWD"])
  = [["331 Please specify the password." +:+ crlf];
     ["230 Login successful." +:+ crlf];
     ["257 " +:+ String dquote ("/etc" +:+ String dquote
        " is the current directory") +:+ crlf]].
Proof. vm_compute. reflexivity. Qed.

Example pasv_reply :
  written (step ftp_service quiet logged_in ("PASV" +:+ crlf))
  = ["227 Entering Passive Mode (10,0,0,1,195,80)." +:+ crlf].
Proof. vm_compute. reflexivity. Qed.

Example port_then_list :
  map written (run ftp_service logged_in
                 [line "PORT 10,0,0,9,4,1"; line "NLST /"])
  = [["200 PORT command successful." +:+ crlf];
     ["150 Opening data connection." +:+ crlf;
      "226 Transfer complete." +:+ crlf]]
  /\ map data (run ftp_service logged_in
                 [line "PORT 10,0,0,9,4,1"; line "NLST /"])
     = [None; Some ["etc"; "readme.md"]].
Proof. vm_compute. split; reflexivity. Qed.

End Claims_ftp_examples.

Module Claims_ftp_data.
Import PyStr PyStrFacts Filesystem FsTree Log Ftp Claims_shell Claims_ftp_examples.
Export FtpDataFixtures.

Example list_passive_served :
  written (step ftp_service
             {| peer := ""; sockname := ""; bound := ("", 0);
                arrival := true; transfer := Sent; handed := 0;
                exc_text := "" |}
             pending ("LIST" +:+ crlf))
  = [opening; complete].
Proof. vm_compute. reflexivity. Qed.

Example list_without_channel :
  written (step ftp_service quiet logged_in ("LIST" +:+ crlf)) = [use_first].
Proof. vm_compute. reflexivity. Qed.

Lemma member_cases cmd :
  among cmd ["LIST"; "NLST"; "XNLST"; "RETR"] = true ->
  cmd = points "LIST" \/ cmd = points "NLST" \/ cmd = points "XNLST"
  \/ cmd = points "RETR".
Proof.
  unfold among. cbn [existsb]. intros H.
  repeat (apply orb_true_iff in H as [H|H]);
    try (apply reads_eq in H; tauto). discriminate.
Qed.

(** When the wait on the passive listener times out, [_prepare_data_channel]
    writes its own 425 line and returns [None]; the caller then adds the
    line meant for a session without any channel, and leaves the listener
    in place. *)
Lemma passive_timeout_general svc env s line :
  authed s = true -> active_target s = None ->
  passive s = Some {| future_cancelled := false |} ->
  arrival env = false ->
  among (command_upper line) ["LIST"; "NLST"; "XNLST"; "RETR"] = true ->
  written (step svc env s line) = [timed_out; use_first]
  /\ exists s', next (step svc env s line) = Continue s'
                /\ passive s' = Some {| future_cancelled := true |}.
Proof.
  intros Hauth Hact Hpas Harr Hcmd. apply member_cases in Hcmd.
  assert (prepare_data_channel env s
          = NoChannel [timed_out]
              {| username := username s; authed := authed s; cwd := cwd s;
                 session_home := session_home s;
                 active_target := active_target s;
                 passive := Some {| future_cancelled := true |} |}) as Hprep.
  { unfold prepare_data_channel. rewrite Hact, Hpas. simpl. rewrite Harr.
    reflexivity. }
  unfold step. rewrite Hauth.
  destruct Hcmd as [-> | [-> | [-> | ->]]]; cbn -[prepare_data_channel];
    unfold do_list, do_retr; rewrite Hprep; cbn; eauto.
Qed.

(** C2: evaluation at the failing input.  With a passive listener pending
    and no data client within the wait, LIST (and likewise NLST and RETR)
    is answered by two 425 lines, and the listener stays in the session
    state. *)
Theorem C2_passive_timeout :
  let r := step ftp_service quiet pending ("LIST" +:+ crlf) in
  written r = ["425 Passive data connection timed out." +:+ crlf;
               "425 Use PORT or PASV first." +:+ crlf]
  /\ exists s', next r = Continue s'
                /\ passive s' = Some {| future_cancelled := true |}.
Proof. vm_compute. split; [reflexivity|]. eexists; split; reflexivity. Qed.

Example retr_passive_timeout :
  written (step ftp_service quiet pending ("RETR /readme.md" +:+ crlf))
  = [timed_out; use_first].
Proof. vm_compute. reflexivity. Qed.

End Claims_ftp_data.

Module Claims_ftp_auth.
Import PyStr PyStrFacts Filesystem FsTree Log Ftp Claims_shell Claims_ftp_examples.
Export FtpAuthSpec.

Lemma step_pass svc env s line :
  command_upper line = points "PASS" ->
  step svc env s line = do_pass svc env s (snd (command_arg (decode line))).
Proof. intros H. unfold step. rewrite H. reflexivity. Qed.

Lemma step_gate svc env s line :
  authed s = false -> exempt (command_upper line) = false ->
  step svc env s line = say [please_login] [] s.
Proof.
  intros Hauth Hex. unfold step. unfold exempt in Hex.
  assert (reads (command_upper line) "USER" = false
          /\ reads (command_upper line) "PASS" = false) as [-> ->].
  { unfold among in Hex. cbn [existsb] in Hex.
    apply orb_false_iff in Hex as [H1 Hex].
    apply orb_false_iff in Hex as [H2 _]. auto. }
  rewrite Hauth, Hex. reflexivity.
Qed.

Lemma exempt_cases cmd :
  exempt cmd = true ->
  cmd = points "USER" \/ cmd = points "PASS" \/ cmd = points "QUIT"
  \/ cmd = points "NOOP".
Proof.
  unfold exempt, among. cbn [existsb]. intros H.
  repeat (apply orb_true_iff in H as [H|H]);
    try (apply reads_eq in H; tauto). discriminate.
Qed.

Lemma do_pass_outcome svc env s arg :
  exists s', next (do_pass svc env s arg) = Continue s'
    /\ authed s' = credentials_ok (config svc) (username s) arg
                   && truthy (username s).
Proof.
  unfold do_pass.
  destruct (credentials_ok _ _ _ && truthy _); eexists; split; reflexivity.
Qed.

(** Without a login the session stays unauthenticated, whatever arrives,
    until a PASS with accepted credentials. *)
Lemma locked_out_holds svc inputs : forall s,
  authed s = false -> locked_out svc s inputs.
Proof.
  induction inputs as [|[env line] rest IH]; intros s Hauth; [exact I|].
  cbn [locked_out]. split.
  { intros Hex. rewrite (step_gate _ _ _ _ Hauth Hex). split; reflexivity. }
  unfold pass_succeeds.
  destruct (exempt (command_upper line)) eqn:Hex.
  - apply exempt_cases in Hex as [H | [H | [H | H]]].
    + unfold step. rewrite H. cbn. split; [assumption|]. apply IH. assumption.
    + rewrite (step_pass _ _ _ _ H), H.
      destruct (do_pass_outcome svc env s (snd (command_arg (decode line))))
        as (s' & -> & Hs').
      change (reads (points "PASS") "PASS") with true. cbn [andb].
      destruct (credentials_ok _ _ _ && truthy _); [assumption|].
      split; [assumption|]. apply IH, Hs'.
    + unfold step. rewrite H, Hauth. cbn. exact I.
    + unfold step. rewrite H, Hauth. cbn. split; [assumption|].
      apply IH, Hauth.
  - rewrite (step_gate _ _ _ _ Hauth Hex). cbn [next say].
    assert (reads (command_upper line) "PASS" = false) as ->.
    { unfold exempt, among in Hex. cbn [existsb] in Hex.
      apply orb_false_iff in Hex as [_ Hex].
      apply orb_false_iff in Hex as [H2 _]. exact H2. }
    cbn [andb]. split; [assumption|]. apply IH, Hauth.
Qed.

(** C9: a PASS whose credentials are not accepted is answered by
    [530 Login incorrect.] and leaves the session unauthenticated, whatever
    its state was; from then on every command other than USER, PASS, QUIT
    and NOOP is answered by [530 Please login with USER and PASS.], until
    a PASS that logs in. *)
Theorem C9_failed_pass_locks svc env s line inputs :
  command_upper line = points "PASS" ->
  pass_succeeds svc s line = false ->
  exists s',
    step svc env s line
    = {| written := ["530 Login incorrect." +:+ crlf];
         logged := logged (step svc env s line);
         data := None; next := Continue s' |}
    /\ authed s' = false
    /\ locked_out svc s' inputs.
Proof.
  intros Hcmd Hfail. unfold pass_succeeds in Hfail. rewrite Hcmd in Hfail.
  change (reads (points "PASS") "PASS") with true in Hfail. cbn [andb] in Hfail.
  rewrite (step_pass _ _ _ _ Hcmd). unfold do_pass. rewrite Hfail.
  eexists; split; [reflexivity|]. split; [reflexivity|].
  apply locked_out_holds. reflexivity.
Qed.

Lemma C9_failed_pass_locks_witness :
  command_upper ("PASS wrong" +:+ crlf) = points "PASS"
  /\ pass_succeeds ftp_service logged_in ("PASS wrong" +:+ crlf) = false
  /\ exists s',
       step ftp_service quiet logged_in ("PASS wrong" +:+ crlf)
       = {| written := ["530 Login incorrect." +:+ crlf];
            logged := logged (step ftp_service quiet logged_in
                                ("PASS wrong" +:+ crlf));
            data := None; next := Continue s' |}
       /\ authed s' = false
       /\ locked_out ftp_service s' [line "PWD"; line "LIST"; line "NOOP"].
Proof.
  split; [reflexivity|]. split; [reflexivity|].
  exact (C9_failed_pass_locks ftp_service quiet logged_in
           ("PASS wrong" +:+ crlf) [line "PWD"; line "LIST"; line "NOOP"]
           eq_refl eq_refl).
Defined.

Example relogin_after_failure :
  map written (run ftp_service logged_in
                 [line "PASS wrong"; line "PWD"; line "syst";
                  line "PASS anonymous"; line "SYST"])
  = [["530 Login incorrect." +:+ crlf]; [please_login]; [please_login];
     ["230 Login successful." +:+ crlf]; ["215 UNIX Type: L8" +:+ crlf]].
Proof. vm_compute. reflexivity. Qed.

End Claims_ftp_auth.

Module Claims_home.
Import PyStr PyStrFacts Filesystem FsTree NormalizeFacts Claims_shell.
Export HomeSpec.

Lemma normalize_twice_from_root path :
  normalize (normalize path "/") "/" = normalize path "/".
Proof.
  destruct (normalize_parts_plain path "/") as (parts & Hplain & ->).
  - constructor.
  - apply normalize_plain, Hplain.
Qed.

Lemma resolve_normalized fs path :
  resolve fs (normalize path "/") "/" = resolve fs path "/".
Proof. unfold resolve. rewrite normalize_twice_from_root. reflexivity. Qed.

Lemma resolve_home_attached fs desired :
  Shell.resolve_home (Some fs) desired = expected_home fs desired.
Proof.
  unfold Shell.resolve_home, expected_home, is_directory_at.
  rewrite resolve_normalized.
  destruct (resolve fs desired "/") as [l|e]; reflexivity.
Qed.

Example home_is_directory : Ssh.resolve_home (Some small_fs) "/etc/../etc/" = "/etc".
Proof. reflexivity. Qed.

Example home_is_file : Telnet.resolve_home (Some small_fs) "/readme.md" = "/".
Proof. reflexivity. Qed.

Example home_is_missing : Ftp.resolve_home (Some small_fs) "/home/ftp" = "/".
Proof. reflexivity. Qed.

Example home_below_file : Ftp.resolve_home (Some small_fs) "/readme.md/x" = "/".
Proof. reflexivity. Qed.


End Claims_home.

Module Claims_mysql.
Import PyStr PyStrFacts Log Mysql.
Export MysqlSpec.

Example canned_reply :
  written (turn plain_config "peer" ("SHOW Databases;" +:+ nl))
  = ["mysql> "; "Database" +:+ nl].
Proof. vm_compute. reflexivity. Qed.

Example quit_closes :
  turn plain_config "peer" ("  Quit " +:+ nl)
  = {| written := ["mysql> "; "Bye" +:+ nl];
       logged := [command_event "peer" "Quit" "BYE"]; next := Break |}.
Proof. vm_compute. reflexivity. Qed.

(** C3, as stated, fails: the table of canned responses is consulted
    first, so a configured [quit] entry is answered like any other and the
    session goes on. *)
Lemma C3_counterexample :
  ~ (forall (c : Config) (peer data : string),
       is_quit data = true ->
       written (turn c peer data)
       = [default "mysql> " (prompt c); default "Bye" (farewell c) +:+ nl]
       /\ next (turn c peer data) = Break).
Proof.
  intros H.
  destruct (H shadowing_config "peer" ("quit" +:+ nl) eq_refl) as [Hw _].
  vm_compute in Hw. discriminate.
Qed.

Lemma strip_nonempty data :
  nonempty (strip data) = true -> nonempty data = true.
Proof. destruct data; [discriminate|reflexivity]. Qed.

(** C3, amended: a received line equal case-insensitively to [quit] or
    [exit] (after stripping) makes the server write the configured farewell
    and a newline and close the connection, unless [command_responses] has a
    key equal to the line case-insensitively: then the configured response
    is written and the session goes on, as for any other line.  A line that
    is not quit or exit is answered from [command_responses] or with
    [default_response]. *)
Theorem C3_quit_closes (c : Config) (peer data : string) :
  nonempty (strip data) = true ->
  let t := turn c peer data in
  match lowered c !! lower (strip data) with
  | Some response =>
      written t = [default "mysql> " (prompt c); response +:+ nl]
      /\ next t = Continue
  | None =>
      if is_quit data then
        written t
        = [default "mysql> " (prompt c); default "Bye" (farewell c) +:+ nl]
        /\ next t = Break
      else
        written t
        = [default "mysql> " (prompt c);
           default default_error (default_response c) +:+ nl]
        /\ next t = Continue
  end.
Proof.
  intros Hcmd. cbv zeta. unfold is_quit, turn.
  rewrite (strip_nonempty _ Hcmd), Hcmd. cbn [negb].
  destruct (lowered c !! lower (strip data)) as [response|].
  - split; reflexivity.
  - destruct (existsb _ _); split; reflexivity.
Qed.

Lemma C3_quit_closes_witness :
  nonempty (strip ("EXIT" +:+ nl)) = true
  /\ written (turn plain_config "peer" ("EXIT" +:+ nl))
     = ["mysql> "; "Bye" +:+ nl]
  /\ next (turn plain_config "peer" ("EXIT" +:+ nl)) = Break.
Proof.
  split; [reflexivity|].
  exact (C3_quit_closes plain_config "peer" ("EXIT" +:+ nl) eq_refl).
Defined.

Example quit_entry_answered :
  turn shadowing_config "peer" ("quit" +:+ nl)
  = {| written := ["mysql> "; "Query OK" +:+ nl];
       logged := [command_event "peer" "quit" "Query OK"];
       next := Continue |}.
Proof. vm_compute. reflexivity. Qed.

End Claims_mysql.

Module DictFacts.
Import PyStr PyStrFacts Log.

Section Dict.
Context {V : Type}.
Implicit Types (d : list (string * V)) (k : string) (v : V).

Lemma dict_get_set_eq k v d : dict_get k (dict_set k v d) = Some v.
Proof.
  induction d as [|[k' v'] d IH]; simpl.
  - rewrite (proj2 (eqb_eq k k) eq_refl). reflexivity.
  - destruct (eqb k' k) eqn:E; simpl.
    + rewrite (proj2 (eqb_eq k k) eq_refl). reflexivity.
    + rewrite E. exact IH.
Qed.

Lemma dict_get_set_ne k k' v d :
  k <> k' -> dict_get k (dict_set k' v d) = dict_get k d.
Proof.
  intros Hne. induction d as [|[k0 v0] d IH]; simpl.
  - rewrite (proj2 (eqb_neq k' k)) by congruence. reflexivity.
  - destruct (eqb k0 k') eqn:E; simpl.
    + apply eqb_eq in E. subst k0.
      rewrite (proj2 (eqb_neq k' k)) by congruence. reflexivity.
    + destruct (eqb k0 k); [reflexivity|exact IH].
Qed.

Lemma dict_has_set k k' v d :
  dict_has k d = true -> dict_has k (dict_set k' v d) = true.
Proof.
  unfold dict_has. intros H.
  destruct (String.eqb_spec k k') as [->|Hne].
  - rewrite dict_get_set_eq. reflexivity.
  - rewrite dict_get_set_ne by assumption. exact H.
Qed.

Lemma dict_has_update k d extra :
  dict_has k d = true -> dict_has k (dict_update d extra) = true.
Proof.
  unfold dict_update. revert d.
  induction extra as [|[k' v'] extra IH]; simpl; intros d H; [exact H|].
  apply IH, dict_has_set, H.
Qed.

Lemma dict_has_update_new k v d extra :
  dict_get k extra = Some v -> dict_has k (dict_update d extra) = true.
Proof.
  unfold dict_update. revert d.
  induction extra as [|[k' v'] extra IH]; simpl; intros d H; [discriminate|].
  destruct (eqb k' k) eqn:E.
  - apply eqb_eq in E. subst k'.
    apply (dict_has_update k (dict_set k v' d) extra).
    unfold dict_has. rewrite dict_get_set_eq. reflexivity.
  - apply IH, H.
Qed.
End Dict.

End DictFacts.

Module RouteFacts.
Import PyStr PyStrFacts Log FsTree Http DictFacts.
Export HttpSpec.

Lemma route_matches_declared r method path :
  route_matches r method path = true <-> declared_for method path r.
Proof.
  unfold route_matches, declared_for. rewrite andb_true_iff, points_eqb_eq.
  destruct (r_path r) as [p|].
  - rewrite eqb_eq. split; intros [H1 H2]; split; congruence.
  - split; [intros [_ H]; discriminate | intros [H _]; discriminate].
Qed.

Lemma find_none_forall {A} (f : A -> bool) (P : A -> Prop) l :
  (forall x, f x = true <-> P x) ->
  List.find f l = None <-> Forall (fun x => ~ P x) l.
Proof.
  intros Hf. induction l as [|y l IH]; cbn [List.find].
  - split; [constructor|reflexivity].
  - destruct (f y) eqn:E.
    + split; [discriminate|]. intros H. inversion H; subst.
      apply Hf in E. contradiction.
    + rewrite IH. split.
      * intros H. constructor; [|exact H].
        intros HP. apply Hf in HP. congruence.
      * intros H. inversion H; assumption.
Qed.

Lemma find_some_first {A} (f : A -> bool) (P : A -> Prop) l x :
  (forall x, f x = true <-> P x) ->
  List.find f l = Some x
  <-> exists before after,
        l = before ++ x :: after /\ P x /\ Forall (fun y => ~ P y) before.
Proof.
  intros Hf. induction l as [|y l IH]; cbn [List.find].
  - split; [discriminate|]. intros (before & after & H & _).
    destruct before; discriminate H.
  - destruct (f y) eqn:E.
    + split.
      * intros [= <-]. exists [], l. split; [reflexivity|].
        split; [apply Hf, E|constructor].
      * intros (before & after & Hl & Hx & Hb).
        destruct before as [|z before].
        -- injection Hl as -> _. reflexivity.
        -- injection Hl as -> _. inversion Hb; subst.
           apply Hf in E. contradiction.
    + rewrite IH. split.
      * intros (before & after & -> & Hx & Hb).
        exists (y :: before), after. split; [reflexivity|].
        split; [exact Hx|]. constructor; [|exact Hb].
        intros HP. apply Hf in HP. congruence.
      * intros (before & after & Hl & Hx & Hb).
        destruct before as [|z before].
        -- injection Hl as -> _. apply Hf in Hx. congruence.
        -- injection Hl as -> ->. inversion Hb; subst.
           exists before, after. auto.
Qed.

Lemma match_route_none c method path :
  match_route c method path = None
  <-> Forall (fun r => ~ declared_for method path r) (routes c).
Proof.
  apply find_none_forall. intros r. apply route_matches_declared.
Qed.

Lemma match_route_first c method path route :
  match_route c method path = Some route
  <-> exists before after,
        routes c = before ++ route :: after
        /\ declared_for method path route
        /\ Forall (fun r => ~ declared_for method path r) before.
Proof.
  apply find_some_first. intros r. apply route_matches_declared.
Qed.

Lemma join_concat l : join "" l = String.concat "" l.
Proof.
  induction l as [|x l IH]; [reflexivity|].
  destruct l as [|y l]; [reflexivity|].
  change (join "" (x :: y :: l)) with (x +:+ "" +:+ join "" (y :: l)).
  rewrite IH. reflexivity.
Qed.

Lemma header_blob_lines hs :
  header_blob hs
  = String.concat ""
      (map (fun kv => fst kv +:+ ": " +:+ snd kv +:+ crlf) hs).
Proof. apply join_concat. Qed.

Lemma append_assoc3 (a b c : string) : (a +:+ b) +:+ c = a +:+ (b +:+ c).
Proof.
  induction a as [|x a IH]; [reflexivity|].
  change ((String x a +:+ b) +:+ c) with (String x ((a +:+ b) +:+ c)).
  rewrite IH. reflexivity.
Qed.

Section Headers.
Implicit Types (d : list (string * string)) (k v : string).

Lemma In_dict_set k v d : In (k, v) (dict_set k v d).
Proof.
  induction d as [|[k' v'] d IH]; cbn [dict_set]; [left; reflexivity|].
  destruct (eqb k' k); [left; reflexivity|right; exact IH].
Qed.

Lemma In_dict_set_other k v k' v' d :
  k' <> k -> In (k', v') d -> In (k', v') (dict_set k v d).
Proof.
  intros Hne. induction d as [|[k0 v0] d IH]; cbn [dict_set];
    [intros []|].
  intros [H|H].
  - injection H as -> ->.
    rewrite (proj2 (eqb_neq k' k) Hne). left; reflexivity.
  - destruct (eqb k0 k); right; [exact H|apply IH, H].
Qed.

Lemma keys_dict_set k v d x :
  In x (map fst (dict_set k v d)) -> x = k \/ In x (map fst d).
Proof.
  induction d as [|[k0 v0] d IH]; cbn [dict_set map fst In].
  - intros [H|[]]; auto.
  - destruct (eqb k0 k) eqn:E; cbn [map fst In].
    + intros [H|H]; auto.
    + intros [H|H]; [auto|]. destruct (IH H); auto.
Qed.

Lemma NoDup_dict_set k v d :
  List.NoDup (map fst d) -> List.NoDup (map fst (dict_set k v d)).
Proof.
  induction d as [|[k0 v0] d IH]; cbn [dict_set map fst]; intros H.
  - constructor; [intros []|constructor].
  - apply List.NoDup_cons_iff in H as [Hfresh Hrest].
    destruct (eqb k0 k) eqn:E; cbn [map fst].
    + apply eqb_eq in E. subst k0.
      apply List.NoDup_cons_iff. auto.
    + apply List.NoDup_cons_iff. split; [|apply IH, Hrest].
      intros Hin. apply keys_dict_set in Hin as [Hk|Hin]; [|auto].
      apply eqb_neq in E. congruence.
Qed.

Lemma NoDup_setdefault k v d :
  List.NoDup (map fst d) -> List.NoDup (map fst (setdefault k v d)).
Proof.
  unfold setdefault. destruct (dict_has k d); [auto|apply NoDup_dict_set].
Qed.

Lemma NoDup_dict_update d extra :
  List.NoDup (map fst d) -> List.NoDup (map fst (dict_update d extra)).
Proof.
  unfold dict_update. revert d.
  induction extra as [|[k v] extra IH]; intros d H; [exact H|].
  cbn [fold_left fst snd]. apply IH, NoDup_dict_set, H.
Qed.

(** The headers that [build_response] sends, from the ones it starts
    from. *)
Lemma sent_headers_keys base server date length :
  List.NoDup (map fst base) ->
  List.NoDup
    (map fst
       (dict_set "Content-Length" length
          (dict_set "Date" date
             (dict_set "Server" server
                (setdefault "Connection" "close"
                   (setdefault "Content-Type" "text/html; charset=utf-8"
                      base)))))).
Proof.
  intros H. repeat apply NoDup_dict_set. repeat apply NoDup_setdefault.
  exact H.
Qed.

End Headers.

End RouteFacts.

Module Claims_http.
Import PyStr PyStrFacts Log FsTree Http DictFacts RouteFacts.
Export HttpSpec.

Example route_hit :
  respond no_files site "GET" "/" "HTTP/1.1" "now"
  = Some ("HTTP/1.1 200 OK" +:+ crlf
          +:+ "X-Powered-By: PHP/7.4" +:+ crlf
          +:+ "Content-Type: text/html; charset=utf-8" +:+ crlf
          +:+ "Connection: close" +:+ crlf
          +:+ "Server: nginx/1.18.0" +:+ crlf
          +:+ "Date: now" +:+ crlf
          +:+ "Content-Length: 1" +:+ crlf +:+ crlf +:+ "X").
Proof. vm_compute. reflexivity. Qed.

Example route_miss :
  respond no_files site "GET" "/nope" "HTTP/1.0" "now"
  = Some ("HTTP/1.0 404 Not Found" +:+ crlf
          +:+ "X-Powered-By: PHP/7.4" +:+ crlf
          +:+ "Content-Type: text/html; charset=utf-8" +:+ crlf
          +:+ "Connection: close" +:+ crlf
          +:+ "Server: nginx/1.18.0" +:+ crlf
          +:+ "Date: now" +:+ crlf
          +:+ "Content-Length: 14" +:+ crlf +:+ crlf
          +:+ "404 Not Found" +:+ String lf "").
Proof. vm_compute. reflexivity. Qed.

Lemma fallback_generated c :
  not_found_configured c = false ->
  default_status_of c = 404 ->
  fallback_source no_files c
  = Some (404, ("404 Not Found" +:+ String lf "", 14), default_headers c)
  /\ forall files, fallback_source files c = fallback_source no_files c.
Proof.
  unfold not_found_configured, fallback_source. intros Hnf ->.
  destruct (not_found c) as [nf|]; [rewrite Hnf|]; split; reflexivity.
Qed.

(** C6, as stated, fails when matching is read as exact on the pair: the
    methods are compared in upper case, so a route declared with the
    method [get] answers a [GET] request although the pairs differ. *)
Lemma C6_counterexample :
  ~ (forall (files : string -> option string) (c : Config)
            (method path version date : string),
       Forall (fun r => ~ declared_exactly method path r) (routes c) ->
       not_found_configured c = false ->
       default_status_of c = 404 ->
       exists rest,
         respond files c method path version date
         = Some (version +:+ " 404 Not Found" +:+ crlf +:+ rest)).
Proof.
  intros H.
  destruct (H no_files site "GET" "/" "HTTP/1.1" "now") as [rest Hrest];
    [|reflexivity|reflexivity|].
  - repeat constructor. intros [_ Hm]. discriminate Hm.
  - vm_compute in Hrest. discriminate Hrest.
Qed.

(** C6: when no route is declared for the request, methods being compared
    without regard to letter case and a route without a method standing
    for [GET], when no [not_found] route is configured and
    [default_status] is 404, the answer is the status line
    [<version> 404 Not Found], one line [key: value] for each header, an
    empty line and the body [404 Not Found] with a line feed.  Among the
    headers are [Content-Length] with 14 and [Server] with the configured
    [server_header], and no header is sent twice when [default_headers]
    names none twice. *)
Theorem C6_route_miss (files : string -> option string) (c : Config)
    (method path version date : string) :
  Forall (fun r => ~ declared_for method path r) (routes c) ->
  not_found_configured c = false ->
  default_status_of c = 404 ->
  exists hs : list (string * string),
    respond files c method path version date
    = Some (version +:+ " 404 Not Found" +:+ crlf
            +:+ String.concat ""
                  (map (fun kv => fst kv +:+ ": " +:+ snd kv +:+ crlf) hs)
            +:+ crlf +:+ "404 Not Found" +:+ String lf "")
    /\ In ("Content-Length", "14") hs
    /\ In ("Server", server_header_of c) hs
    /\ (List.NoDup (map fst (default_headers c)) ->
        List.NoDup (map fst hs)).
Proof.
  intros Hnone Hnf Hstatus. apply match_route_none in Hnone.
  destruct (fallback_generated c Hnf Hstatus) as [Hsrc Hfiles].
  unfold respond, build_response, build_parts. rewrite Hnone.
  rewrite Hfiles, Hsrc. cbn [fmap option_fmap option_map].
  eexists. split; [|split; [|split]].
  - unfold render. cbn [status_line headers body].
    rewrite header_blob_lines, !append_assoc3. reflexivity.
  - apply In_dict_set.
  - apply In_dict_set_other; [discriminate|].
    apply In_dict_set_other; [discriminate|]. apply In_dict_set.
  - apply sent_headers_keys.
Qed.

Lemma C6_route_miss_witness :
  Forall (fun r => ~ declared_for "GET" "/nope" r) (routes site)
  /\ not_found_configured site = false
  /\ default_status_of site = 404
  /\ exists hs,
       respond no_files site "GET" "/nope" "HTTP/1.0" "now"
       = Some ("HTTP/1.0" +:+ " 404 Not Found" +:+ crlf
               +:+ String.concat ""
                     (map (fun kv => fst kv +:+ ": " +:+ snd kv +:+ crlf)
                        hs)
               +:+ crlf +:+ "404 Not Found" +:+ String lf "")
       /\ In ("Content-Length", "14") hs
       /\ In ("Server", server_header_of site) hs
       /\ (List.NoDup (map fst (default_headers site)) ->
           List.NoDup (map fst hs)).
Proof.
  assert (Forall (fun r => ~ declared_for "GET" "/nope" r) (routes site))
    as Hnone by (repeat constructor; intros [Hp _]; discriminate Hp).
  split; [exact Hnone|]. split; [reflexivity|]. split; [reflexivity|].
  exact (C6_route_miss no_files site "GET" "/nope" "HTTP/1.0" "now"
           Hnone eq_refl eq_refl).
Defined.

End Claims_http.

Module LogFacts.
Import PyStr PyStrFacts Log NormalizeFacts ListingFacts DictFacts.
Export LogSpec.

Lemma one_line_app a b : one_line a -> one_line b -> one_line (a +:+ b).
Proof.
  unfold one_line. intros Ha Hb. rewrite mem_char_app, Ha, Hb. reflexivity.
Qed.

Lemma escape_char_one_line c : one_line (escape_char c).
Proof.
  unfold one_line.
  destruct c as [[] [] [] [] [] [] [] []]; vm_compute; reflexivity.
Qed.

Lemma escape_one_line s : one_line (escape s).
Proof.
  induction s as [|c s IH]; [reflexivity|].
  simpl. apply one_line_app; [apply escape_char_one_line|exact IH].
Qed.

Lemma quote_one_line s : one_line (quote s).
Proof.
  unfold quote. change (String dquote ?r) with (String dquote "" +:+ r).
  apply one_line_app; [reflexivity|].
  apply one_line_app; [apply escape_one_line|reflexivity].
Qed.

Lemma join_one_line sep parts :
  one_line sep -> Forall one_line parts -> one_line (join sep parts).
Proof.
  intros Hsep. induction 1 as [|p rest Hp Hrest IH]; [reflexivity|].
  destruct rest as [|q rest]; [exact Hp|].
  change (join sep (p :: q :: rest)) with (p +:+ sep +:+ join sep (q :: rest)).
  repeat apply one_line_app; assumption.
Qed.

Lemma str_of_int_one_line n : one_line (str_of_int n).
Proof. apply str_of_int_free; [reflexivity|discriminate]. Qed.

(** [json.dumps] never emits a line feed: inside a string it is escaped. *)
Lemma dumps_one_line : forall j, one_line (dumps j).
Proof.
  fix IH 1. intros [| [] | n | s | items | items]; try reflexivity.
  - apply str_of_int_one_line.
  - apply quote_one_line.
  - cbn [dumps]. apply one_line_app; [reflexivity|].
    apply one_line_app; [|reflexivity].
    apply join_one_line; [reflexivity|].
    induction items as [|a l IHl]; constructor; [apply IH|exact IHl].
  - cbn [dumps]. apply one_line_app; [reflexivity|].
    apply one_line_app; [|reflexivity].
    apply join_one_line; [reflexivity|].
    induction items as [|[k v] l IHl]; constructor; [|exact IHl].
    apply one_line_app; [apply quote_one_line|].
    apply one_line_app; [reflexivity|apply IH].
Qed.

(** The three fixed keys survive the merge of the details. *)
Lemma payload_fixed_keys ts service e :
  dict_has "ts" (payload ts service e) = true
  /\ dict_has "service" (payload ts service e) = true
  /\ dict_has "event" (payload ts service e) = true.
Proof.
  unfold payload. repeat split; apply dict_has_update; reflexivity.
Qed.

End LogFacts.

Module JsonFacts.
Import PyStr PyStrFacts Log JsonReader JsonText NormalizeFacts ListingFacts
  DictFacts LogFacts.

Lemma app_assoc_str (a b c : string) : (a +:+ b) +:+ c = a +:+ (b +:+ c).
Proof.
  induction a as [|x a IH]; [reflexivity|].
  change ((String x a +:+ b) +:+ c) with (String x ((a +:+ b) +:+ c)).
  rewrite IH. reflexivity.
Qed.

Lemma app_length_str (a b : string) :
  String.length (a +:+ b) = (String.length a + String.length b)%nat.
Proof.
  induction a as [|c a IH]; [reflexivity|].
  change (String c a +:+ b) with (String c (a +:+ b)).
  cbn [String.length]. rewrite IH. reflexivity.
Qed.

Lemma append_empty (a : string) : a +:+ "" = a.
Proof.
  induction a as [|x a IH]; [reflexivity|].
  change (String x a +:+ "") with (String x (a +:+ "")). rewrite IH.
  reflexivity.
Qed.

(** *** Strings *)

Lemma read_chars_escape_char c t :
  read_chars (escape_char c +:+ t)
  = match read_chars t with
    | Some (u, rest) => Some (String c u, rest)
    | None => None
    end.
Proof.
  destruct c as [[] [] [] [] [] [] [] []]; reflexivity.
Qed.

Lemma read_chars_escape s rest :
  read_chars (escape s +:+ String dquote rest) = Some (s, rest).
Proof.
  induction s as [|c s IH]; [reflexivity|].
  cbn [escape]. rewrite app_assoc_str, read_chars_escape_char, IH.
  reflexivity.
Qed.

Lemma quote_app s rest :
  quote s +:+ rest = String dquote (escape s +:+ String dquote rest).
Proof.
  unfold quote.
  change (String dquote (escape s +:+ String dquote "") +:+ rest)
    with (String dquote ((escape s +:+ String dquote "") +:+ rest)).
  rewrite app_assoc_str. reflexivity.
Qed.

(** *** Numbers *)

Lemma read_digits_ends rest acc : ends rest -> read_digits rest acc = (acc, rest).
Proof. destruct rest as [|c r]; [reflexivity|]. cbn. intros ->. reflexivity. Qed.

Lemma digit_val_pretty d :
  (d < 10)%N -> digit_val (pretty_N_char d) = Z.of_N d.
Proof.
  intros H.
  assert (d = 0 \/ d = 1 \/ d = 2 \/ d = 3 \/ d = 4 \/ d = 5 \/ d = 6
          \/ d = 7 \/ d = 8 \/ d = 9)%N as Hd by lia.
  repeat (destruct Hd as [->|Hd]; [reflexivity|]). subst. reflexivity.
Qed.

Lemma read_digits_pretty_go x :
  (0 < x)%N ->
  exists p, forall s acc,
      read_digits (pretty_N_go x s) acc
      = read_digits s (acc * p + Z.of_N x).
Proof.
  induction (N.lt_wf_0 x) as [x _ IH]. intros Hpos.
  assert (forall s acc,
             read_digits (String (pretty_N_char (x mod 10)) s) acc
             = read_digits s (acc * 10 + Z.of_N (x mod 10))) as Hlast.
  { intros s acc. cbn [read_digits].
    rewrite pretty_N_char_isdigit.
    rewrite digit_val_pretty by (apply N.mod_lt; lia).
    reflexivity. }
  destruct (decide (x < 10)%N) as [Hsmall|Hbig].
  - exists 10. intros s acc. rewrite pretty_N_go_step by assumption.
    rewrite (N.div_small x 10 Hsmall), pretty_N_go_0, Hlast.
    rewrite (N.mod_small x 10 Hsmall). reflexivity.
  - destruct (IH (x / 10)%N) as [p Hp].
    + apply N.div_lt; lia.
    + apply N.div_str_pos. lia.
    + exists (p * 10). intros s acc.
      rewrite pretty_N_go_step by assumption. rewrite Hp, Hlast. f_equal.
      rewrite (N.div_mod x 10) at 3 by lia.
      rewrite N2Z.inj_add, N2Z.inj_mul. change (Z.of_N 10) with 10. lia.
Qed.

(** The first digit of a positive number is not a zero. *)
Lemma pretty_go_head x :
  (0 < x)%N ->
  exists d, (0 < d < 10)%N
            /\ forall s, exists t, pretty_N_go x s = String (pretty_N_char d) t.
Proof.
  induction (N.lt_wf_0 x) as [x _ IH]. intros Hpos.
  destruct (decide (x < 10)%N) as [Hsmall|Hbig].
  - exists x. split; [lia|]. intros s. exists s.
    rewrite pretty_N_go_step by assumption.
    rewrite (N.div_small x 10 Hsmall), pretty_N_go_0.
    rewrite (N.mod_small x 10 Hsmall). reflexivity.
  - destruct (IH (x / 10)%N) as (d & Hd & Hhead).
    + apply N.div_lt; lia.
    + apply N.div_str_pos. lia.
    + exists d. split; [exact Hd|]. intros s.
      rewrite pretty_N_go_step by assumption. apply Hhead.
Qed.

Lemma pretty_go_app x : forall s rest,
  pretty_N_go x s +:+ rest = pretty_N_go x (s +:+ rest).
Proof.
  induction (N.lt_wf_0 x) as [x _ IH]. intros s rest.
  destruct (decide (x = 0%N)) as [->|Hx].
  - rewrite !pretty_N_go_0. reflexivity.
  - rewrite (pretty_N_go_step x s), (pretty_N_go_step x (s +:+ rest)) by lia.
    rewrite IH by (apply N.div_lt; lia). reflexivity.
Qed.

Lemma nonzero_digit d :
  (0 < d < 10)%N ->
  ascii_eqb (pretty_N_char d) "0" = false
  /\ ascii_eqb (pretty_N_char d) "-" = false.
Proof.
  intros H.
  assert (d = 1 \/ d = 2 \/ d = 3 \/ d = 4 \/ d = 5 \/ d = 6 \/ d = 7
          \/ d = 8 \/ d = 9)%N as Hcases by lia.
  repeat (destruct Hcases as [->|Hcases]; [split; reflexivity|]).
  rewrite Hcases. split; reflexivity.
Qed.

Lemma read_natural_pos q rest :
  ends rest ->
  read_natural (pretty_N_go (N.pos q) "" +:+ rest) = Some (Z.pos q, rest)
  /\ exists d t, (0 < d < 10)%N
                 /\ pretty_N_go (N.pos q) "" +:+ rest
                    = String (pretty_N_char d) t.
Proof.
  intros Hends. rewrite pretty_go_app. change ("" +:+ rest) with rest.
  destruct (pretty_go_head (N.pos q) ltac:(lia)) as (d & Hd & Hhead).
  destruct (Hhead rest) as [t Ht].
  destruct (read_digits_pretty_go (N.pos q) ltac:(lia)) as [p Hp].
  split; [|eauto].
  pose proof (Hp rest 0) as Hval. rewrite Ht in Hval |- *.
  unfold read_natural. destruct (nonzero_digit d Hd) as [-> _].
  rewrite pretty_N_char_isdigit, Hval, read_digits_ends by assumption.
  reflexivity.
Qed.

Lemma read_number_pretty n rest :
  ends rest -> read_number (str_of_int n +:+ rest) = Some (n, rest).
Proof.
  intros Hends. unfold str_of_int, pretty, pretty_Z.
  destruct n as [|q|q].
  - change ("0" +:+ rest) with (String "0" rest).
    destruct rest as [|c r]; [reflexivity|]. cbn in Hends |- *.
    rewrite Hends. reflexivity.
  - change (read_number (pretty_N_go (N.pos q) "" +:+ rest)
            = Some (Z.pos q, rest)).
    destruct (read_natural_pos q rest Hends) as (Hnat & d & t & Hd & Ht).
    unfold read_number. rewrite Ht in Hnat |- *.
    destruct (nonzero_digit d Hd) as [_ ->]. exact Hnat.
  - change (read_number (String "-" (pretty_N_go (N.pos q) "" +:+ rest))
            = Some (Z.neg q, rest)).
    destruct (read_natural_pos q rest Hends) as (Hnat & _).
    unfold read_number. change (ascii_eqb "-" "-") with true. cbn iota.
    rewrite Hnat. reflexivity.
Qed.

(** The first character of a number. *)
Lemma str_of_int_head n rest :
  exists c t, str_of_int n +:+ rest = String c t
              /\ (isdigit c = true \/ c = "-"%char).
Proof.
  unfold str_of_int, pretty, pretty_Z. destruct n as [|q|q].
  - exists "0"%char, rest. split; [reflexivity|left; reflexivity].
  - change (exists c t, pretty_N_go (N.pos q) "" +:+ rest = String c t
                        /\ (isdigit c = true \/ c = "-"%char)).
    rewrite pretty_go_app.
    destruct (pretty_go_head (N.pos q) ltac:(lia)) as (d & _ & Hhead).
    destruct (Hhead ("" +:+ rest)) as [t ->].
    exists (pretty_N_char d), t. split; [reflexivity|].
    left. apply pretty_N_char_isdigit.
  - exists "-"%char, (pretty (N.pos q) +:+ rest).
    split; [reflexivity|right; reflexivity].
Qed.

Lemma read_atom_number n rest :
  ends rest -> read_atom (str_of_int n +:+ rest) = Some (JInt n, rest).
Proof.
  intros Hends. unfold read_atom.
  pose proof (read_number_pretty n rest Hends) as Hnum.
  destruct (str_of_int_head n rest) as (c & t & Ht & Hc).
  rewrite Ht in Hnum |- *.
  assert (ascii_eqb c "n" = false /\ ascii_eqb c "t" = false
          /\ ascii_eqb c "f" = false) as (Hn & Htrue & Hfalse).
  { destruct Hc as [Hc| ->]; [|repeat split; reflexivity].
    repeat split; apply ascii_eqb_neq; intros ->; discriminate Hc. }
  cbn [strip_prefix]. rewrite Hn, Htrue, Hfalse, Hnum. reflexivity.
Qed.

(** *** Values *)

Lemma dumps_head j rest :
  exists c t, dumps j +:+ rest = String c t /\ opens c.
Proof.
  destruct j as [| [] | n | s | items | items].
  - exists "n"%char, ("ull" +:+ rest). repeat split; reflexivity.
  - exists "t"%char, ("rue" +:+ rest). repeat split; reflexivity.
  - exists "f"%char, ("alse" +:+ rest). repeat split; reflexivity.
  - destruct (str_of_int_head n rest) as (c & t & Ht & Hc).
    exists c, t. split; [exact Ht|].
    destruct Hc as [Hc| ->]; [|repeat split; reflexivity].
    repeat split; try (apply ascii_eqb_neq; intros ->; discriminate Hc).
    destruct c as [[] [] [] [] [] [] [] []]; try reflexivity;
      discriminate Hc.
  - exists dquote, (escape s +:+ String dquote rest).
    split; [apply quote_app|repeat split; reflexivity].
  - cbn [dumps]. eexists "["%char, _. split; [reflexivity|].
    repeat split; reflexivity.
  - cbn [dumps]. eexists "{"%char, _. split; [reflexivity|].
    repeat split; reflexivity.
Qed.

Lemma skip_ws_opens c t : opens c -> skip_ws (String c t) = String c t.
Proof. intros [H _]. unfold skip_ws. cbn [lstrip_by]. rewrite H. reflexivity. Qed.

Lemma skip_ws_dumps j rest : skip_ws (dumps j +:+ rest) = dumps j +:+ rest.
Proof.
  destruct (dumps_head j rest) as (c & t & -> & Hc). apply skip_ws_opens, Hc.
Qed.

Lemma skip_ws_blank t : skip_ws (String " " t) = skip_ws t.
Proof. reflexivity. Qed.

Lemma Json_induction (P : Json -> Prop) :
  P JNull -> (forall b, P (JBool b)) -> (forall n, P (JInt n)) ->
  (forall s, P (JStr s)) ->
  (forall items, Forall P items -> P (JList items)) ->
  (forall items, Forall (fun kv => P (snd kv)) items -> P (JDict items)) ->
  forall j, P j.
Proof.
  intros Hnull Hbool Hint Hstr Hlist Hdict.
  fix IH 1. intros [| b | n | s | items | items].
  - exact Hnull.
  - apply Hbool.
  - apply Hint.
  - apply Hstr.
  - apply Hlist. induction items as [|x l IHl]; constructor;
      [apply IH|exact IHl].
  - apply Hdict. induction items as [|[k v] l IHl]; constructor;
      [apply IH|exact IHl].
Qed.

Lemma ends_closing c t :
  isdigit c = false -> ends (String c t).
Proof. intros H. exact H. Qed.

Lemma read_items_dumps x items :
  Forall reads_back (x :: items) ->
  forall fuel s rest,
    (fold_right (fun x n => S (weight x + n)) O (x :: items) <= fuel)%nat ->
    skip_ws s = join ", " (map dumps (x :: items)) +:+ String "]" rest ->
    read_items fuel s = Some (x :: items, rest).
Proof.
  revert x. induction items as [|y items IH]; intros x Hall fuel s rest Hfuel Hs.
  - inversion Hall as [|? ? Hx _]; subst.
    cbn [fold_right] in Hfuel. destruct fuel as [|fuel]; [lia|].
    cbn [map join] in Hs. cbn [read_items].
    rewrite (Hx fuel s (String "]" rest)); [|lia|reflexivity|exact Hs].
    reflexivity.
  - inversion Hall as [|? ? Hx Hrest]; subst.
    cbn [fold_right] in Hfuel. destruct fuel as [|fuel]; [lia|].
    change (join ", " (map dumps (x :: y :: items)))
      with (dumps x +:+ ", " +:+ join ", " (map dumps (y :: items))) in Hs.
    rewrite !app_assoc_str in Hs.
    change (", " +:+ ?t) with (String "," (String " " t)) in Hs.
    cbn [read_items].
    match type of Hs with
    | _ = _ +:+ ?r => rewrite (Hx fuel s r); [|lia|reflexivity|exact Hs]
    end.
    change (skip_ws (String "," ?t)) with (String "," t).
    change (ascii_eqb "," "]") with false.
    change (ascii_eqb "," ",") with true. cbn iota.
    rewrite (IH y Hrest fuel _ rest); [reflexivity| |].
    + cbn [fold_right]. lia.
    + rewrite skip_ws_blank.
      change (join ", " (map dumps (y :: items)))
        with (join ", " (dumps y :: map dumps items)).
      destruct (map dumps items) as [|z zs] eqn:E.
      * cbn [join]. apply skip_ws_dumps.
      * change (join ", " (dumps y :: z :: zs))
          with (dumps y +:+ ", " +:+ join ", " (z :: zs)).
        rewrite !app_assoc_str. apply skip_ws_dumps.
Qed.

Lemma skip_ws_member kv rest :
  skip_ws (member_text kv +:+ rest) = member_text kv +:+ rest.
Proof.
  destruct kv as [k v]. unfold member_text.
  rewrite app_assoc_str, quote_app. reflexivity.
Qed.

Lemma skip_ws_members kv items rest :
  skip_ws (join ", " (map member_text (kv :: items)) +:+ rest)
  = join ", " (map member_text (kv :: items)) +:+ rest.
Proof.
  cbn [map]. destruct (map member_text items) as [|z zs].
  - cbn [join]. apply skip_ws_member.
  - change (join ", " (member_text kv :: z :: zs))
      with (member_text kv +:+ ", " +:+ join ", " (z :: zs)).
    rewrite !app_assoc_str. apply skip_ws_member.
Qed.

Lemma read_members_dumps kv items :
  Forall (fun kv => reads_back (snd kv)) (kv :: items) ->
  forall fuel s rest,
    (fold_right (fun kv n => S (weight (snd kv) + n)) O (kv :: items)
     <= fuel)%nat ->
    skip_ws s = join ", " (map member_text (kv :: items)) +:+ String "}" rest ->
    read_members fuel s = Some (kv :: items, rest).
Proof.
  revert kv. induction items as [|kv' items IH];
    intros [k v] Hall fuel s rest Hfuel Hs.
  - inversion Hall as [|? ? Hv _]; subst. cbn [snd] in Hv.
    cbn [fold_right snd] in Hfuel. destruct fuel as [|fuel]; [lia|].
    cbn [map join member_text] in Hs.
    rewrite !app_assoc_str, quote_app in Hs.
    cbn [read_members]. rewrite Hs.
    change (ascii_eqb dquote dquote) with true. cbn iota.
    rewrite read_chars_escape.
    change (": " +:+ ?t) with (String ":" (String " " t)).
    change (skip_ws (String ":" ?t)) with (String ":" t).
    change (ascii_eqb ":" ":") with true. cbn iota.
    rewrite (Hv fuel _ (String "}" rest)); [reflexivity|lia|reflexivity|].
    rewrite skip_ws_blank. apply skip_ws_dumps.
  - inversion Hall as [|? ? Hv Hrest]; subst. cbn [snd] in Hv.
    cbn [fold_right snd] in Hfuel. destruct fuel as [|fuel]; [lia|].
    change (join ", " (map member_text ((k, v) :: kv' :: items)))
      with (member_text (k, v) +:+ ", "
            +:+ join ", " (map member_text (kv' :: items))) in Hs.
    cbn [member_text] in Hs.
    rewrite !app_assoc_str, quote_app in Hs.
    cbn [read_members]. rewrite Hs.
    change (ascii_eqb dquote dquote) with true. cbn iota.
    rewrite read_chars_escape.
    change (": " +:+ ?t) with (String ":" (String " " t)).
    change (skip_ws (String ":" ?t)) with (String ":" t).
    change (ascii_eqb ":" ":") with true. cbn iota.
    change (", " +:+ ?t) with (String "," (String " " t)).
    rewrite (Hv fuel _ (String "," (String " "
               (join ", " (map member_text (kv' :: items))
                +:+ String "}" rest))));
      [|lia|reflexivity|rewrite skip_ws_blank; apply skip_ws_dumps].
    change (skip_ws (String "," ?t)) with (String "," t).
    change (ascii_eqb "," "}") with false.
    change (ascii_eqb "," ",") with true. cbn iota.
    rewrite (IH kv' Hrest fuel _ rest); [reflexivity| |].
    + cbn [fold_right] in Hfuel |- *. lia.
    + rewrite skip_ws_blank. apply skip_ws_members.
Qed.

Lemma dumps_dict items :
  dumps (JDict items) = "{" +:+ join ", " (map member_text items) +:+ "}".
Proof.
  reflexivity.
Qed.

(** Reading what [dumps] writes gives the value back. *)
Lemma read_value_dumps j : reads_back j.
Proof.
  induction j as [| b | n | s | items IH | items IH] using Json_induction;
    intros fuel t rest Hfuel Hends Ht;
    (destruct fuel as [|fuel]; [cbn in Hfuel; lia|]); cbn [read_value];
    rewrite Ht.
  - reflexivity.
  - destruct b; reflexivity.
  - cbn [dumps]. destruct (str_of_int_head n rest) as (c & u & Hu & Hc).
    pose proof (read_atom_number n rest Hends) as Hatom.
    rewrite Hu in Hatom |- *.
    assert (ascii_eqb c dquote = false /\ ascii_eqb c "[" = false
            /\ ascii_eqb c "{" = false) as (-> & -> & ->).
    { destruct Hc as [Hc| ->]; [|repeat split; reflexivity].
      repeat split; apply ascii_eqb_neq; intros ->; discriminate Hc. }
    exact Hatom.
  - cbn [dumps]. rewrite quote_app.
    change (ascii_eqb dquote dquote) with true. cbn iota.
    rewrite read_chars_escape. reflexivity.
  - cbn [dumps]. rewrite !app_assoc_str.
    change ("[" +:+ ?u) with (String "[" u).
    change (ascii_eqb "[" dquote) with false.
    change (ascii_eqb "[" "[") with true. cbn iota.
    destruct items as [|x items].
    + reflexivity.
    + change ("]" +:+ rest) with (String "]" rest).
      assert (skip_ws (join ", " (map dumps (x :: items)) +:+ String "]" rest)
              = join ", " (map dumps (x :: items)) +:+ String "]" rest)
        as Hskip.
      { cbn [map]. destruct (map dumps items) as [|z zs].
        - cbn [join]. apply skip_ws_dumps.
        - change (join ", " (dumps x :: z :: zs))
            with (dumps x +:+ ", " +:+ join ", " (z :: zs)).
          rewrite !app_assoc_str. apply skip_ws_dumps. }
      rewrite Hskip.
      assert (exists c u, join ", " (map dumps (x :: items))
                          +:+ String "]" rest = String c u
                          /\ ascii_eqb c "]" = false) as (c & u & Hu & Hc).
      { cbn [map]. destruct (map dumps items) as [|z zs].
        - cbn [join]. destruct (dumps_head x (String "]" rest))
            as (c & u & -> & _ & Hc & _). eauto.
        - change (join ", " (dumps x :: z :: zs))
            with (dumps x +:+ ", " +:+ join ", " (z :: zs)).
          rewrite !app_assoc_str.
          destruct (dumps_head x (", " +:+ join ", " (z :: zs)
                                  +:+ String "]" rest))
            as (c & u & -> & _ & Hc & _). eauto. }
      rewrite Hu, Hc, <- Hu.
      rewrite (read_items_dumps x items IH fuel _ rest);
        [reflexivity| |exact Hskip].
      cbn [weight] in Hfuel. lia.
  - rewrite dumps_dict, !app_assoc_str.
    change ("{" +:+ ?u) with (String "{" u).
    change (ascii_eqb "{" dquote) with false.
    change (ascii_eqb "{" "[") with false.
    change (ascii_eqb "{" "{") with true. cbn iota.
    destruct items as [|kv items].
    + reflexivity.
    + change ("}" +:+ rest) with (String "}" rest).
      rewrite skip_ws_members.
      assert (exists u, join ", " (map member_text (kv :: items))
                        +:+ String "}" rest = String dquote u)
        as (u & Hu).
      { destruct kv as [k v]. cbn [map member_text].
        destruct (map member_text items) as [|z zs].
        - cbn [join]. rewrite !app_assoc_str, quote_app. eauto.
        - change (join ", " ((quote k +:+ ": " +:+ dumps v) :: z :: zs))
            with ((quote k +:+ ": " +:+ dumps v) +:+ ", "
                  +:+ join ", " (z :: zs)).
          rewrite !app_assoc_str, quote_app. eauto. }
      rewrite Hu. change (ascii_eqb dquote "}") with false. cbn iota.
      rewrite <- Hu.
      rewrite (read_members_dumps kv items IH fuel _ rest);
        [reflexivity| |apply skip_ws_members].
      cbn [weight] in Hfuel. lia.
Qed.

(** *** The length of the text bounds the fuel *)

Lemma join_length sep parts :
  String.length (join sep parts)
  = (fold_right (fun p n => String.length p + n) 0 parts
     + String.length sep * (length parts - 1))%nat.
Proof.
  induction parts as [|p rest IH]; [cbn; lia|].
  destruct rest as [|q rest].
  - cbn. lia.
  - change (join sep (p :: q :: rest)) with (p +:+ sep +:+ join sep (q :: rest)).
    rewrite !app_length_str, IH. cbn [fold_right length]. lia.
Qed.

Lemma str_of_int_length n : (1 <= String.length (str_of_int n))%nat.
Proof.
  destruct (str_of_int_head n "") as (c & t & Ht & _).
  rewrite append_empty in Ht. rewrite Ht. cbn. lia.
Qed.

Lemma weight_le_length j : (weight j <= String.length (dumps j))%nat.
Proof.
  induction j as [| b | n | s | items IH | items IH] using Json_induction.
  - cbn. lia.
  - destruct b; cbn; lia.
  - cbn [weight dumps]. apply str_of_int_length.
  - cbn [weight dumps]. unfold quote. cbn [String.length]. lia.
  - cbn [weight dumps]. rewrite !app_length_str, join_length.
    change (String.length "[") with 1%nat.
    change (String.length "]") with 1%nat.
    change (String.length ", ") with 2%nat.
    rewrite length_map.
    assert (fold_right (fun x n => S (weight x + n)) 0%nat items
            <= fold_right (fun p n => String.length p + n) 0 (map dumps items)
               + length items)%nat as Hsum.
    { induction IH as [|x l Hx _ IHl]; [cbn; lia|].
      cbn [fold_right map length]. lia. }
    destruct items as [|x items]; cbn [length] in *; lia.
  - rewrite dumps_dict. cbn [weight]. rewrite !app_length_str, join_length.
    change (String.length "{") with 1%nat.
    change (String.length "}") with 1%nat.
    change (String.length ", ") with 2%nat.
    rewrite length_map.
    assert (fold_right (fun kv n => S (weight (snd kv) + n)) 0%nat items
            <= fold_right (fun p n => String.length p + n) 0
                 (map member_text items)
               + length items)%nat as Hsum.
    { induction IH as [|[k v] l Hx _ IHl]; [cbn; lia|].
      cbn [fold_right map length member_text snd].
      rewrite !app_length_str. cbn [snd] in Hx. lia. }
    destruct items as [|x items]; cbn [length] in *; lia.
Qed.

(** [loads] reads back what [dumps] writes. *)
Lemma loads_dumps j : loads (dumps j) = Some j.
Proof.
  unfold loads.
  pose proof (append_empty (dumps j)) as Hnil.
  rewrite (read_value_dumps j _ (dumps j) "");
    [reflexivity| |exact I|].
  - pose proof (weight_le_length j). lia.
  - pose proof (skip_ws_dumps j "") as Hskip. rewrite Hnil in Hskip.
    rewrite Hskip, Hnil. reflexivity.
Qed.

(** *** Records *)

Lemma dict_get_In {V} k (v : V) d : dict_get k d = Some v -> In (k, v) d.
Proof.
  induction d as [|[k' v'] d IH]; [discriminate|]. cbn [dict_get].
  destruct (eqb k' k) eqn:E.
  - apply eqb_eq in E. intros [= ->]. subst k'. left. reflexivity.
  - intros H. right. apply IH, H.
Qed.

(** The line of an event whose payload has the keys. *)
Lemma record_of_payload keys ts service e :
  forallb (fun k => dict_has k (payload ts service e)) keys = true ->
  record_with keys (log_line ts service e).
Proof.
  intros Hkeys.
  exists (dumps (JDict (payload ts service e))), (payload ts service e).
  split; [reflexivity|]. split; [apply dumps_one_line|].
  split; [apply loads_dumps|].
  apply List.Forall_forall. intros k Hk.
  rewrite List.forallb_forall in Hkeys. specialize (Hkeys k Hk).
  unfold dict_has in Hkeys.
  destruct (dict_get k (payload ts service e)) as [v|] eqn:E;
    [|discriminate].
  exists v. apply dict_get_In, E.
Qed.

End JsonFacts.

Module Claims_log.
Import PyStr PyStrFacts Log JsonReader Ftp NormalizeFacts ListingFacts DictFacts
  LogFacts JsonFacts.

Example log_line_example :
  log_line "2024-04-10T00:00:00Z" "ftp"
    {| event := "login_attempt";
       details := [("username", JNull);
                   ("password", JStr ("a" +:+ String lf "b"));
                   ("success", JBool false)] |}
  = "{" +:+ quote "ts" +:+ ": " +:+ quote "2024-04-10T00:00:00Z" +:+ ", "
    +:+ quote "service" +:+ ": " +:+ quote "ftp" +:+ ", "
    +:+ quote "event" +:+ ": " +:+ quote "login_attempt" +:+ ", "
    +:+ quote "username" +:+ ": null, "
    +:+ quote "password" +:+ ": "
    +:+ String dquote ("a" +:+ String backslash ("nb" +:+ String dquote ""))
    +:+ ", " +:+ quote "success" +:+ ": false}" +:+ String lf "".
Proof. vm_compute. reflexivity. Qed.

Lemma ftp_step_login_events svc env s line e :
  In e (logged (step svc env s line)) -> event e = "login_attempt" ->
  login_keys e.
Proof.
  unfold step, do_user, do_pass, do_port, do_pasv, do_cwd, do_list, do_retr,
    do_other, transfer_lines, crash, say.
  intros Hin Hev.
  repeat case_match; cbn [logged In] in Hin;
    repeat (destruct Hin as [Hin|Hin]; [subst e|]); try contradiction;
    try discriminate Hev;
    intros ts service; apply record_of_payload; reflexivity.
Qed.

(** The reader takes the line of the example apart again, and refuses a
    text that is no JSON. *)
Example loads_example :
  loads ("{" +:+ quote "ts" +:+ ": " +:+ quote "2024-04-10T00:00:00Z"
         +:+ ", " +:+ quote "success" +:+ ": false, "
         +:+ quote "port" +:+ " : [ 21, -1 ] }")
  = Some (JDict [("ts", JStr "2024-04-10T00:00:00Z");
                 ("success", JBool false);
                 ("port", JList [JInt 21; JInt (-1)])])
  /\ loads ("{" +:+ quote "ts" +:+ ": 2024-04-10}") = None
  /\ loads ("{" +:+ quote "ts" +:+ ": 1,}") = None
  /\ loads "" = None.
Proof. vm_compute. repeat split; reflexivity. Qed.

(** C8: every record that [log_event] writes is one line: the text of a
    JSON object in which no line feed occurs, followed by a line feed; the
    object that a JSON reader finds in that text has the keys [ts],
    [service] and [event]; and for every [login_attempt] event of the SSH,
    Telnet and FTP services the object of the written line also has the
    keys [username], [password] and [success]. *)
Theorem C8_event_records :
  (forall ts service e,
      record_with ["ts"; "service"; "event"] (log_line ts service e))
  /\ (forall users peer username password,
         let e := fst (Ssh.validate_password users peer username password) in
         event e = "login_attempt" /\ login_keys e)
  /\ (forall users peer username_line password_line,
         let e := fst (Telnet.login_attempt users peer username_line
                         password_line) in
         event e = "login_attempt" /\ login_keys e)
  /\ (forall svc env s line e,
         In e (logged (step svc env s line)) ->
         event e = "login_attempt" -> login_keys e)
  /\ (forall svc env s arg,
         exists e, logged (do_pass svc env s arg) = [e]
                   /\ event e = "login_attempt").
Proof.
  split; [|split; [|split; [|split]]].
  - intros ts service e. apply record_of_payload. cbn [forallb].
    destruct (payload_fixed_keys ts service e) as (-> & -> & ->).
    reflexivity.
  - intros. split; [reflexivity|]. intros ts service.
    apply record_of_payload. reflexivity.
  - intros. split; [reflexivity|]. intros ts service.
    apply record_of_payload. reflexivity.
  - apply ftp_step_login_events.
  - intros. unfold do_pass.
    destruct (credentials_ok _ _ _ && truthy _); eexists; split; reflexivity.
Qed.

End Claims_log.

Module PortFacts.
Import PyStr PyStrFacts NormalizeFacts ListingFacts Ftp.

Lemma split_app_sep sep a b :
  split sep (a +:+ String sep b) = split sep a ++ split sep b.
Proof.
  induction a as [|c a IH]; simpl.
  - rewrite (proj2 (ascii_eqb_eq sep sep) eq_refl). reflexivity.
  - destruct (ascii_eqb c sep); rewrite IH; [reflexivity|].
    pose proof (split_nonnil sep a) as Hne.
    destruct (split sep a); [congruence|reflexivity].
Qed.

Lemma split_length_pos sep s : (1 <= length (split sep s))%nat.
Proof.
  pose proof (split_nonnil sep s). destruct (split sep s); simpl; [congruence|lia].
Qed.

Lemma split_length_sep sep s :
  mem_char sep s = true -> (2 <= length (split sep s))%nat.
Proof.
  induction s as [|c s IH]; simpl; [discriminate|].
  destruct (ascii_eqb c sep) eqn:E; simpl.
  - intros _. pose proof (split_length_pos sep s). lia.
  - intros H. specialize (IH H).
    destruct (split sep s); simpl in *; lia.
Qed.

Lemma split_join_length_ge sep q :
  q <> [] ->
  (length q <= length (split sep (join (String sep "") q)))%nat.
Proof.
  induction q as [|p q IH]; [congruence|]. intros _.
  destruct q as [|p' q].
  - simpl. apply split_length_pos.
  - change (join (String sep "") (p :: p' :: q))
      with (p +:+ String sep (join (String sep "") (p' :: q))).
    rewrite split_app_sep, length_app.
    pose proof (split_length_pos sep p).
    specialize (IH ltac:(discriminate)). simpl in *. lia.
Qed.

Lemma split_join_length_gt sep q :
  existsb (mem_char sep) q = true ->
  (length q < length (split sep (join (String sep "") q)))%nat.
Proof.
  induction q as [|p q IH]; [discriminate|]. intros H.
  destruct q as [|p' q].
  - simpl in H. rewrite orb_false_r in H. simpl.
    pose proof (split_length_sep sep p H). lia.
  - change (join (String sep "") (p :: p' :: q))
      with (p +:+ String sep (join (String sep "") (p' :: q))).
    rewrite split_app_sep, length_app.
    cbn [existsb] in H. apply orb_true_iff in H as [H|H].
    + pose proof (split_length_sep sep p H).
      pose proof (split_join_length_ge sep (p' :: q) ltac:(discriminate)).
      simpl in *. lia.
    + pose proof (split_length_pos sep p).
      specialize (IH H). simpl in *. lia.
Qed.

Lemma lstrip_keeps f c s :
  f c = false -> mem_char c s = true -> mem_char c (lstrip_by f s) = true.
Proof.
  intros Hf. induction s as [|d s IH]; simpl; [discriminate|].
  intros H. destruct (f d) eqn:E; [|exact H].
  apply IH. apply orb_true_iff in H as [H|H]; [|exact H].
  apply ascii_eqb_eq in H. congruence.
Qed.

Lemma rstrip_keeps f c s :
  f c = false -> mem_char c s = true -> mem_char c (rstrip_by f s) = true.
Proof.
  intros Hf. induction s as [|d s IH]; simpl; [discriminate|].
  intros H. destruct (mem_char c s) eqn:Hs.
  - specialize (IH eq_refl).
    destruct (rstrip_by f s) as [|d' r]; [discriminate|].
    rewrite mem_char_cons, IH. apply orb_true_r.
  - rewrite orb_false_r in H. pose proof H as Hd.
    apply ascii_eqb_eq in Hd. subst d.
    destruct (rstrip_by f s); [rewrite Hf|]; rewrite mem_char_cons, H;
      reflexivity.
Qed.

Lemma int_digits_foreign c s :
  isdigit c = false -> c <> "_"%char -> mem_char c s = true ->
  forall acc after, int_digits s acc after = None.
Proof.
  intros Hd Hu. induction s as [|d s IH]; simpl; [discriminate|].
  intros H acc after.
  destruct (ascii_eqb d c) eqn:E.
  - apply ascii_eqb_eq in E. subst d. rewrite Hd.
    rewrite (proj2 (ascii_eqb_neq c "_")) by assumption. reflexivity.
  - simpl in H. destruct (isdigit d); [apply IH, H|].
    destruct (ascii_eqb d "_"); [|reflexivity].
    destruct after; [apply IH, H|reflexivity].
Qed.

Lemma int_body_foreign c s :
  isdigit c = false -> c <> "_"%char -> mem_char c s = true ->
  int_body s = None.
Proof.
  intros Hd Hu Hm. unfold int_body.
  destruct (int_max_str_digits <? digit_count s); [reflexivity|].
  apply int_digits_foreign with (c := c); assumption.
Qed.

(** A text that keeps, after the white space around it is dropped, a
    character that is no digit, no sign and no underscore is no integer. *)
Lemma int_of_str_foreign c s :
  isdigit c = false -> int_space c = false -> c <> "_"%char ->
  c <> "+"%char -> c <> "-"%char ->
  mem_char c s = true -> int_of_str s = None.
Proof.
  intros Hd Hs Hu Hp Hm H. unfold int_of_str, strip_by.
  pose proof (rstrip_keeps int_space c _ Hs
                (lstrip_keeps int_space c s Hs H)) as Hk.
  destruct (rstrip_by int_space (lstrip_by int_space s)) as [|d r];
    [discriminate|].
  destruct (ascii_eqb d "+") eqn:Eplus.
  - apply ascii_eqb_eq in Eplus. subst d.
    rewrite mem_char_cons in Hk.
    rewrite (proj2 (ascii_eqb_neq "+" c)) in Hk by congruence.
    apply int_body_foreign with (c := c); assumption.
  - destruct (ascii_eqb d "-") eqn:Eminus.
    + apply ascii_eqb_eq in Eminus. subst d.
      rewrite mem_char_cons in Hk.
      rewrite (proj2 (ascii_eqb_neq "-" c)) in Hk by congruence.
      rewrite (int_body_foreign c r); [reflexivity|assumption..].
    + apply int_body_foreign with (c := c); assumption.
Qed.

(** A text with a dot in it is no integer. *)
Lemma int_of_str_dot s : mem_char "." s = true -> int_of_str s = None.
Proof.
  apply int_of_str_foreign; (reflexivity || discriminate).
Qed.

Lemma octet_ok_dot_free part : octet_ok part = true -> mem_char "." part = false.
Proof.
  unfold octet_ok. intros H. destruct (mem_char "." part) eqn:E; [|reflexivity].
  rewrite (int_of_str_dot _ E) in H. discriminate.
Qed.

Lemma forallb_octets_dot_free q :
  forallb octet_ok q = true -> existsb (mem_char ".") q = false.
Proof.
  induction q as [|p q IH]; simpl; [reflexivity|].
  intros H. apply andb_true_iff in H as [Hp Hq].
  rewrite (octet_ok_dot_free _ Hp), (IH Hq). reflexivity.
Qed.

Lemma existsb_false_Forall sep q :
  existsb (mem_char sep) q = false ->
  Forall (fun p => mem_char sep p = false) q.
Proof.
  induction q as [|p q IH]; simpl; [constructor|].
  intros H. apply orb_false_iff in H as [Hp Hq]. constructor; auto.
Qed.

(** On the host that PORT builds from four parts, [_test_active_address]
    checks the port range and the four parts themselves. *)
Lemma test_active_address_joined q port :
  length q = 4%nat ->
  test_active_address (join "." q) port
  = (0 <? port) && (port <=? 65535) && forallb octet_ok q.
Proof.
  intros Hlen. unfold test_active_address.
  assert ((port <=? 0) || (65535 <? port)
          = negb ((0 <? port) && (port <=? 65535))) as -> by lia.
  destruct ((0 <? port) && (port <=? 65535)); [|reflexivity].
  cbn [negb andb].
  destruct (existsb (mem_char ".") q) eqn:Hdots.
  - pose proof (split_join_length_gt "." q Hdots) as Hgt.
    assert (Nat.eqb (length (split "." (join "." q))) 4 = false) as ->
      by (apply Nat.eqb_neq; lia).
    cbn [negb]. symmetry.
    destruct (forallb octet_ok q) eqn:Hall; [|reflexivity].
    rewrite (forallb_octets_dot_free _ Hall) in Hdots. discriminate.
  - rewrite split_join.
    + rewrite Hlen. reflexivity.
    + destruct q; [discriminate|discriminate].
    + apply existsb_false_Forall, Hdots.
Qed.

End PortFacts.

Module Claims_ftp_port.
Import PyStr PyStrFacts Filesystem FsTree Log Ftp PortFacts
  Claims_shell Claims_ftp_examples.
Export PortSpec.

Lemma step_port svc env s line :
  authed s = true -> command_upper line = points "PORT" ->
  step svc env s line = do_port env s (snd (command_arg (decode line))).
Proof. intros Hauth Hcmd. unfold step. rewrite Hcmd, Hauth. reflexivity. Qed.

Example port_accepted :
  next (step ftp_service quiet logged_in ("port 10,0,0,9,4,1" +:+ crlf))
  = Continue {| username := Some "ftp"; authed := true; cwd := "/etc";
                session_home := "/etc";
                active_target := Some ("10.0.0.9", 1025);
                passive := None |}.
Proof. vm_compute. reflexivity. Qed.

Example port_zero_refused :
  written (step ftp_service quiet logged_in ("PORT 10,0,0,9,0,0" +:+ crlf))
  = [syntax_error].
Proof. vm_compute. reflexivity. Qed.

Example port_too_large_refused :
  written (step ftp_service quiet logged_in ("PORT 10,0,0,9,256,0" +:+ crlf))
  = [syntax_error].
Proof. vm_compute. reflexivity. Qed.

Example port_bad_octet_refused :
  written (step ftp_service quiet logged_in ("PORT 10,0,0,256,4,1" +:+ crlf))
  = [syntax_error].
Proof. vm_compute. reflexivity. Qed.

Example port_dotted_part_refused :
  written (step ftp_service quiet logged_in ("PORT 1.2,3,4,,4,1" +:+ crlf))
  = [syntax_error].
Proof. vm_compute. reflexivity. Qed.

Example port_five_parts_refused :
  written (step ftp_service quiet logged_in ("PORT 10,0,0,9,4" +:+ crlf))
  = [syntax_error].
Proof. vm_compute. reflexivity. Qed.

Lemma octet_ok_between part :
  octet_ok part = true <-> integer_between 0 255 part.
Proof.
  unfold octet_ok, integer_between. destruct (int_of_str part) as [n|].
  - rewrite andb_true_iff, Z.leb_le, Z.leb_le. split.
    + intros H. exists n. split; [reflexivity|lia].
    + intros (m & [= <-] & H). lia.
  - split; [discriminate|]. intros (m & H & _). discriminate H.
Qed.

(** What [do_port] tests is that the argument announces a host and a
    port. *)
Lemma do_port_accepts arg host port :
  announces arg host port
  <-> Nat.eqb (length (split "," arg)) 6 = true
      /\ test_active_address (join "." (firstn 4 (split "," arg)))
           (port_of (nth 4 (split "," arg) "") (nth 5 (split "," arg) ""))
         = true
      /\ host = join "." (firstn 4 (split "," arg))
      /\ port = port_of (nth 4 (split "," arg) "")
                  (nth 5 (split "," arg) "").
Proof.
  unfold announces. split.
  - intros (h1 & h2 & h3 & h4 & p1 & p2 & a & b & -> & Hoct & Ha & Hb
            & -> & Hrange & ->).
    cbn [length Nat.eqb firstn nth]. split; [reflexivity|].
    unfold port_of. rewrite Ha, Hb.
    rewrite Z.shiftl_mul_pow2 by lia. change (2 ^ 8) with 256.
    rewrite test_active_address_joined by reflexivity.
    split; [|split; reflexivity].
    apply andb_true_iff. split; [apply andb_true_iff; split; lia|].
    cbn [forallb].
    inversion Hoct as [|? ? H1 Hoct1]; subst.
    inversion Hoct1 as [|? ? H2 Hoct2]; subst.
    inversion Hoct2 as [|? ? H3 Hoct3]; subst.
    inversion Hoct3 as [|? ? H4 _]; subst.
    apply octet_ok_between in H1, H2, H3, H4.
    rewrite H1, H2, H3, H4. reflexivity.
  - intros (Hlen & Htest & -> & ->).
    apply Nat.eqb_eq in Hlen.
    destruct (split "," arg) as [|h1 [|h2 [|h3 [|h4 [|p1 [|p2 [|x rest]]]]]]];
      try discriminate Hlen.
    cbn [firstn nth] in *.
    rewrite test_active_address_joined in Htest by reflexivity.
    apply andb_true_iff in Htest as [Hrange Hoct].
    apply andb_true_iff in Hrange as [Hlow Hhigh].
    cbn [forallb] in Hoct.
    apply andb_true_iff in Hoct as [H1 Hoct].
    apply andb_true_iff in Hoct as [H2 Hoct].
    apply andb_true_iff in Hoct as [H3 Hoct].
    apply andb_true_iff in Hoct as [H4 _].
    apply octet_ok_between in H1, H2, H3, H4.
    unfold port_of in *.
    destruct (int_of_str p1) as [a|] eqn:Ha; [|discriminate Hlow].
    destruct (int_of_str p2) as [b|] eqn:Hb; [|discriminate Hlow].
    rewrite Z.shiftl_mul_pow2 in * by lia. change (2 ^ 8) with 256 in *.
    exists h1, h2, h3, h4, p1, p2, a, b.
    split; [reflexivity|]. split; [repeat constructor; assumption|].
    repeat split; try reflexivity; try assumption; lia.
Qed.

Lemma announces_example : announces "10,0,0,9,4,1" "10.0.0.9" 1025.
Proof.
  exists "10", "0", "0", "9", "4", "1", 4, 1.
  split; [reflexivity|]. split.
  - constructor; [exists 10; split; [reflexivity|lia]|].
    constructor; [exists 0; split; [reflexivity|lia]|].
    constructor; [exists 0; split; [reflexivity|lia]|].
    constructor; [exists 9; split; [reflexivity|lia]|]. constructor.
  - split; [reflexivity|]. split; [reflexivity|]. split; [reflexivity|].
    split; [lia|reflexivity].
Qed.

(** C5, as stated, fails before the login: PORT is then answered like any
    other command by the 530 line, whatever its argument, and records
    nothing. *)
Lemma C5_counterexample :
  ~ (forall svc env s line host port,
       command_upper line = points "PORT" ->
       announces (snd (command_arg (decode line))) host port ->
       written (step svc env s line)
       = ["200 PORT command successful." +:+ crlf]).
Proof.
  intros H.
  pose proof announces_example as Hgood.
  specialize (H ftp_service quiet (snd (connect ftp_service))
                ("PORT 10,0,0,9,4,1" +:+ crlf) "10.0.0.9" 1025
                eq_refl Hgood).
  vm_compute in H. discriminate H.
Qed.

(** C5: in a logged-in session PORT is answered by the 200 line, and the
    active target becomes the dotted host with the port [p1 * 256 + p2],
    when its argument has six comma-separated parts of which the first
    four are integers of 0..255 and the last two are integers that give a
    port in (0, 65535]; it is answered by the 501 line, and nothing
    changes, for every other argument.  Before the login it is answered
    by the 530 line. *)
Theorem C5_port_reply svc env s line :
  command_upper line = points "PORT" ->
  (authed s = false ->
   step svc env s line
   = say ["530 Please login with USER and PASS." +:+ crlf] [] s)
  /\ (authed s = true ->
      (forall host port,
          announces (snd (command_arg (decode line))) host port ->
          written (step svc env s line)
          = ["200 PORT command successful." +:+ crlf]
          /\ exists s',
               next (step svc env s line) = Continue s'
               /\ active_target s' = Some (host, port)
               /\ passive s' = None)
      /\ ((forall host port,
              ~ announces (snd (command_arg (decode line))) host port) ->
          step svc env s line
          = say ["501 Syntax error in parameters or arguments." +:+ crlf]
              [] s)).
Proof.
  intros Hcmd. split.
  - intros Hauth. unfold step. rewrite Hcmd, Hauth. reflexivity.
  - intros Hauth. rewrite (step_port _ _ _ _ Hauth Hcmd).
    set (arg := snd (command_arg (decode line))).
    split.
    + intros host port Hgood.
      apply do_port_accepts in Hgood as (Hlen & Htest & -> & ->).
      unfold do_port. rewrite Hlen, Htest. split; [reflexivity|].
      eexists. repeat split; reflexivity.
    + intros Hbad. unfold do_port.
      destruct (Nat.eqb (length (split "," arg)) 6) eqn:Hlen;
        [|reflexivity].
      destruct (test_active_address _ _) eqn:Htest; [|reflexivity].
      exfalso. eapply Hbad. apply do_port_accepts.
      split; [exact Hlen|]. split; [exact Htest|]. split; reflexivity.
Qed.

Lemma C5_port_reply_witness :
  command_upper ("PORT 10,0,0,9,4,1" +:+ crlf) = points "PORT"
  /\ authed logged_in = true
  /\ announces "10,0,0,9,4,1" "10.0.0.9" 1025
  /\ written (step ftp_service quiet logged_in ("PORT 10,0,0,9,4,1" +:+ crlf))
     = ["200 PORT command successful." +:+ crlf]
  /\ exists s',
       next (step ftp_service quiet logged_in ("PORT 10,0,0,9,4,1" +:+ crlf))
       = Continue s'
       /\ active_target s' = Some ("10.0.0.9", 1025)
       /\ passive s' = None.
Proof.
  pose proof announces_example as Hgood.
  split; [reflexivity|]. split; [reflexivity|]. split; [exact Hgood|].
  exact (proj1 (proj2 (C5_port_reply ftp_service quiet logged_in
                         ("PORT 10,0,0,9,4,1" +:+ crlf) eq_refl) eq_refl)
           "10.0.0.9" 1025 Hgood).
Defined.

Example port_separator_refused :
  written (step ftp_service quiet logged_in
             ("PORT 10,0,0,9,4,1" +:+ String (Ascii.ascii_of_N 31) crlf))
  = [syntax_error].
Proof. vm_compute. reflexivity. Qed.

End Claims_ftp_port.

(** ** Further properties of filesystem.py *)

Module PathFacts.
Import PyStr PyStrFacts Filesystem FsTree NormalizeFacts ListingFacts PortFacts.
Export PathSpec.

Lemma normalize_as_parts path cwd :
  normalize path cwd = "/" +:+ join "/" (normalize_parts path cwd).
Proof. reflexivity. Qed.

Lemma lstrip_split_filter f sep s :
  (forall c, f c = ascii_eqb c sep) ->
  List.filter nonempty (split sep (lstrip_by f s))
  = List.filter nonempty (split sep s).
Proof.
  intros Hf. induction s as [|c s IH]; [reflexivity|].
  simpl lstrip_by. rewrite Hf. destruct (ascii_eqb c sep) eqn:E.
  - rewrite IH. simpl split. rewrite E. reflexivity.
  - reflexivity.
Qed.

Lemma split_cons_other sep c s :
  ascii_eqb c sep = false ->
  split sep (String c s) = String c (hd "" (split sep s)) :: tl (split sep s).
Proof.
  intros E. simpl. rewrite E.
  pose proof (split_nonnil sep s). destruct (split sep s); [congruence|reflexivity].
Qed.

Lemma rstrip_split f sep s :
  (forall c, f c = ascii_eqb c sep) ->
  hd "" (split sep (rstrip_by f s)) = hd "" (split sep s)
  /\ List.filter nonempty (tl (split sep (rstrip_by f s)))
     = List.filter nonempty (tl (split sep s)).
Proof.
  intros Hf. induction s as [|c s [IHh IHt]]; [split; reflexivity|].
  simpl rstrip_by. rewrite Hf. destruct (ascii_eqb c sep) eqn:E.
  - assert (split sep (String c s) = "" :: split sep s) as ->
      by (simpl; rewrite E; reflexivity).
    pose proof (split_nonnil sep s) as Hne.
    destruct (rstrip_by f s) as [|d r] eqn:Hr.
    + simpl in IHh, IHt. simpl. split; [reflexivity|].
      destruct (split sep s) as [|h t]; [congruence|].
      simpl in IHh, IHt. subst h. simpl. exact IHt.
    + assert (split sep (String c (String d r)) = "" :: split sep (String d r))
        as -> by (simpl split at 1; rewrite E; reflexivity).
      split; [reflexivity|]. cbn [tl].
      pose proof (split_nonnil sep (String d r)) as Hne'.
      destruct (split sep (String d r)) as [|h' t']; [congruence|].
      destruct (split sep s) as [|h t]; [congruence|].
      simpl in IHh, IHt. subst h'. simpl. rewrite IHt. reflexivity.
  - assert (match rstrip_by f s with
            | "" => String c ""
            | String a s0 => String c (String a s0)
            end = String c (rstrip_by f s)) as ->
      by (destruct (rstrip_by f s); reflexivity).
    rewrite !split_cons_other by assumption. simpl.
    rewrite IHh, IHt. split; reflexivity.
Qed.

Lemma strip_split_filter f sep s :
  (forall c, f c = ascii_eqb c sep) ->
  List.filter nonempty (split sep (strip_by f s))
  = List.filter nonempty (split sep s).
Proof.
  intros Hf. unfold strip_by. rewrite <- (lstrip_split_filter f sep s Hf).
  destruct (rstrip_split f sep (lstrip_by f s) Hf) as [Hh Ht].
  pose proof (split_nonnil sep (rstrip_by f (lstrip_by f s))).
  pose proof (split_nonnil sep (lstrip_by f s)).
  destruct (split sep (rstrip_by f (lstrip_by f s))); [congruence|].
  destruct (split sep (lstrip_by f s)); [congruence|].
  simpl in *. subst. rewrite Ht. reflexivity.
Qed.

(** Stripping the slashes changes nothing for [cwd_parts]. *)
Lemma cwd_parts_unstripped cwd :
  cwd_parts cwd = List.filter nonempty (split "/" cwd).
Proof.
  unfold cwd_parts, strip_chars. apply strip_split_filter.
  intros c. simpl. rewrite orb_false_r. reflexivity.
Qed.

Lemma filter_nonempty_solid parts :
  Forall solid parts -> List.filter nonempty parts = parts.
Proof.
  induction 1 as [|p l [Hp _] _ IH]; simpl; [reflexivity|].
  rewrite Hp, IH. reflexivity.
Qed.

(** Reading a joined path back gives its parts. *)
Lemma cwd_parts_join parts :
  Forall solid parts -> cwd_parts ("/" +:+ join "/" parts) = parts.
Proof.
  intros H. rewrite cwd_parts_unstripped.
  change ("/" +:+ join "/" parts) with (String "/" (join "/" parts)).
  destruct parts as [|p parts]; [reflexivity|].
  change (split "/" (String "/" (join "/" (p :: parts))))
    with ("" :: split "/" (join "/" (p :: parts))).
  change (List.filter nonempty ("" :: split "/" (join "/" (p :: parts))))
    with (List.filter nonempty (split "/" (join "/" (p :: parts)))).
  rewrite split_join.
  - apply filter_nonempty_solid, H.
  - discriminate.
  - eapply Forall_impl; [exact H|]. intros ? [_ ?]; assumption.
Qed.

Lemma cwd_parts_solid cwd : Forall solid (cwd_parts cwd).
Proof.
  unfold cwd_parts.
  pose proof (split_sep_free "/" (strip_chars "/" cwd)) as Hfree.
  induction Hfree as [|p l Hp _ IH]; simpl; [constructor|].
  destruct (nonempty p) eqn:E; [|exact IH].
  constructor; [split; assumption|exact IH].
Qed.

Lemma normalize_step_solid base part :
  Forall solid base -> mem_char "/" part = false ->
  Forall solid (normalize_step base part).
Proof.
  intros Hb Hp. unfold normalize_step.
  destruct (eqb part "") eqn:E1; simpl; [assumption|].
  destruct (eqb part "."); simpl; [assumption|].
  destruct (eqb part "..").
  - destruct base; [assumption|]. apply Forall_removelast, Hb.
  - apply Forall_app; split; [assumption|]. constructor; [|constructor].
    split; [|assumption]. apply eqb_neq in E1.
    destruct part; [congruence|reflexivity].
Qed.

Lemma fold_normalize_solid parts : forall base,
  Forall solid base -> Forall (fun p => mem_char "/" p = false) parts ->
  Forall solid (fold_left normalize_step parts base).
Proof.
  induction parts as [|p parts IH]; simpl; intros base Hb Hp; [assumption|].
  inversion Hp; subst. apply IH; [|assumption].
  apply normalize_step_solid; assumption.
Qed.

Lemma normalize_parts_solid path cwd : Forall solid (normalize_parts path cwd).
Proof.
  unfold normalize_parts. apply fold_normalize_solid; [|apply split_sep_free].
  destruct (startswith _ "/"); [constructor|apply cwd_parts_solid].
Qed.

(** The parts of a result of [normalize], read back as a [cwd]. *)
Lemma cwd_parts_normalize path cwd :
  cwd_parts (normalize path cwd) = normalize_parts path cwd.
Proof.
  rewrite normalize_as_parts. apply cwd_parts_join, normalize_parts_solid.
Qed.

Lemma startswith_app a b pre :
  nonempty a = true -> startswith (a +:+ b) (String pre "") = startswith a (String pre "").
Proof. destruct a; [discriminate|reflexivity]. Qed.

Lemma nonempty_app a b : nonempty a = true -> nonempty (a +:+ b) = true.
Proof. destruct a; [discriminate|reflexivity]. Qed.

Lemma fold_split_blank b base :
  fold_left normalize_step (split "/" (if nonempty b then b else ".")) base
  = fold_left normalize_step (split "/" b) base.
Proof. destruct b; reflexivity. Qed.

Lemma normalize_keeps_clean_lemma (path cwd : string) :
  clean_cwd cwd -> clean_cwd (normalize path cwd).
Proof.
  intros Hclean. unfold clean_cwd. rewrite cwd_parts_normalize.
  destruct (normalize_parts_plain path cwd Hclean) as (parts & Hplain & Heq).
  rewrite normalize_as_parts in Heq.
  assert (normalize_parts path cwd = parts) as ->.
  { rewrite <- (cwd_parts_join (normalize_parts path cwd))
      by apply normalize_parts_solid.
    rewrite Heq. apply cwd_parts_join.
    eapply Forall_impl; [exact Hplain|]. intros ? (? & ? & _). split; assumption. }
  eapply Forall_impl; [exact Hplain|]. intros ? (_ & _ & ? & ?). split; assumption.
Qed.

End PathFacts.

Module Extra_paths.
Import PyStr PyStrFacts Filesystem FsTree NormalizeFacts ListingFacts PortFacts
  PathFacts.

Example two_steps :
  normalize "c/.." (normalize "../b" "/a/x") = normalize "../b/c/.." "/a/x".
Proof. reflexivity. Qed.

(** X1: changing directory in two steps is changing it once along the
    joined path: for a non-empty [a] and a relative [b],
    [normalize(b, normalize(a, cwd))] is [normalize(a + "/" + b, cwd)]. *)
Theorem normalize_compose (a b cwd : string) :
  nonempty a = true -> startswith b "/" = false ->
  normalize b (normalize a cwd) = normalize (a +:+ "/" +:+ b) cwd.
Proof.
  intros Ha Hb.
  rewrite (normalize_as_parts b), (normalize_as_parts (a +:+ "/" +:+ b)).
  f_equal. f_equal. unfold normalize_parts at 1.
  assert (startswith (if nonempty b then b else ".") "/" = false) as ->
    by (destruct b; [reflexivity|exact Hb]).
  rewrite fold_split_blank, cwd_parts_normalize.
  unfold normalize_parts.
  rewrite (nonempty_app a ("/" +:+ b) Ha), Ha.
  rewrite (startswith_app a ("/" +:+ b) "/" Ha).
  change (a +:+ "/" +:+ b) with (a +:+ String "/" b).
  rewrite split_app_sep, fold_left_app. reflexivity.
Qed.

Lemma normalize_compose_witness :
  nonempty "../b" = true /\ startswith "c/.." "/" = false
  /\ normalize "c/.." (normalize "../b" "/a/x")
     = normalize ("../b" +:+ "/" +:+ "c/..") "/a/x".
Proof.
  split; [reflexivity|]. split; [reflexivity|].
  exact (normalize_compose "../b" "c/.." "/a/x" eq_refl eq_refl).
Defined.

(** X2: a result of [normalize] on a cwd without dot components is again
    such a cwd, so the condition is kept along any chain of directory
    changes. *)
Theorem normalize_keeps_clean (path cwd : string) :
  clean_cwd cwd -> clean_cwd (normalize path cwd).
Proof. apply normalize_keeps_clean_lemma. Qed.

Lemma normalize_keeps_clean_witness :
  clean_cwd "/home/user" /\ clean_cwd (normalize "../x/./y" "/home/user").
Proof.
  assert (clean_cwd "/home/user") as H
    by (repeat constructor; discriminate).
  split; [exact H|exact (normalize_keeps_clean "../x/./y" "/home/user" H)].
Defined.

End Extra_paths.

Module TreeFacts.
Import PyStr PyStrFacts Filesystem FsTree NormalizeFacts ListingFacts PortFacts
  PathFacts.

Lemma lookup_child_name children name c :
  lookup_child children name = Some c -> node_name c = name.
Proof.
  unfold lookup_child. intros H. apply find_some in H as [_ H].
  apply eqb_eq, H.
Qed.

Lemma child_name self name c : child self name = Ok c -> node_name c = name.
Proof.
  unfold child. destruct self as [nm m ct so|nm m ch]; [discriminate|].
  destruct (lookup_child ch name) eqn:E; [|discriminate].
  intros H. inversion H; subst. eapply lookup_child_name, E.
Qed.

(** Walking down [parts] stacks their names, deepest first, on the chain. *)
Lemma walk_names parts : forall current l,
  Forall solid parts -> walk current parts = Ok l ->
  names_upward (node l :: ancestors l)
  = rev parts ++ names_upward (node current :: ancestors current).
Proof.
  induction parts as [|part rest IH]; intros current l Hsolid Hwalk.
  - inversion Hwalk; subst. reflexivity.
  - inversion Hsolid as [|? ? [Hne _] Hrest]; subst.
    cbn [walk] in Hwalk. unfold bind in Hwalk.
    destruct (child (node current) part) as [c|e] eqn:Hc; [|discriminate].
    rewrite (IH _ _ Hrest Hwalk). cbn [node ancestors].
    change (names_upward (c :: node current :: ancestors current))
      with (if nonempty (node_name c)
            then node_name c :: names_upward (node current :: ancestors current)
            else []).
    rewrite (child_name _ _ _ Hc), Hne. cbn [rev].
    rewrite <- app_assoc. reflexivity.
Qed.

(** The path of a resolved node is the normalised path that led to it. *)
Lemma get_path_resolved fs path cwd l :
  node_name (root fs) = "" -> resolve fs path cwd = Ok l ->
  get_path l = normalize path cwd.
Proof.
  intros Hroot. unfold resolve.
  destruct (eqb (normalize path cwd) "/") eqn:E.
  - intros H. inversion H; subst. apply eqb_eq in E. rewrite E.
    unfold get_path. cbn [node ancestors names_upward]. rewrite Hroot.
    reflexivity.
  - fold (cwd_parts (normalize path cwd)). rewrite cwd_parts_normalize.
    intros Hwalk. apply walk_names in Hwalk; [|apply normalize_parts_solid].
    unfold get_path. rewrite Hwalk. cbn [node ancestors names_upward].
    rewrite Hroot. cbn [nonempty]. rewrite app_nil_r, rev_involutive.
    reflexivity.
Qed.

Lemma ascii_compare_le_trans a b c :
  Ascii.compare a b <> Gt -> Ascii.compare b c <> Gt -> Ascii.compare a c <> Gt.
Proof.
  unfold Ascii.compare. rewrite !N.compare_gt_iff. lia.
Qed.

Lemma string_compare_le_trans s1 : forall s2 s3,
  String.compare s1 s2 <> Gt -> String.compare s2 s3 <> Gt ->
  String.compare s1 s3 <> Gt.
Proof.
  induction s1 as [|a s1 IH]; intros [|b s2] [|c s3]; simpl;
    try congruence.
  unfold Ascii.compare.
  destruct (N.compare_spec (Ascii.N_of_ascii a) (Ascii.N_of_ascii b));
    destruct (N.compare_spec (Ascii.N_of_ascii b) (Ascii.N_of_ascii c));
    destruct (N.compare_spec (Ascii.N_of_ascii a) (Ascii.N_of_ascii c));
    try congruence; try lia. apply IH.
Qed.

Lemma leb_trans s1 s2 s3 :
  String.leb s1 s2 = true -> String.leb s2 s3 = true -> String.leb s1 s3 = true.
Proof.
  unfold String.leb. intros H1 H2.
  pose proof (string_compare_le_trans s1 s2 s3) as H.
  destruct (String.compare s1 s2); try discriminate;
    destruct (String.compare s2 s3); try discriminate;
    destruct (String.compare s1 s3); try reflexivity;
    exfalso; apply H; congruence.
Qed.

Lemma Forall_insert_sorted (P : Node -> Prop) n l :
  P n -> Forall P l -> Forall P (insert_sorted n l).
Proof.
  intros Hn. induction 1 as [|m l Hm Hl IH]; simpl.
  - repeat constructor. exact Hn.
  - destruct (String.leb _ _); repeat constructor; assumption.
Qed.

Lemma insert_sorted_sorted n l :
  StronglySorted name_le l -> StronglySorted name_le (insert_sorted n l).
Proof.
  induction 1 as [|m l Hsorted IH Hall]; simpl.
  - repeat constructor.
  - destruct (String.leb (node_name n) (node_name m)) eqn:E.
    + constructor; [constructor; assumption|].
      constructor; [exact E|].
      eapply Forall_impl; [exact Hall|]. intros x Hx.
      unfold name_le in *. eapply leb_trans; eassumption.
    + constructor; [exact IH|].
      apply Forall_insert_sorted; [|exact Hall].
      unfold name_le. destruct (String.leb_total (node_name n) (node_name m));
        congruence.
Qed.

Lemma sorted_by_name_sorted l : StronglySorted name_le (sorted_by_name l).
Proof.
  induction l as [|n l IH]; simpl; [constructor|].
  apply insert_sorted_sorted, IH.
Qed.

Lemma filter_sorted (f : Node -> bool) l :
  StronglySorted name_le l -> StronglySorted name_le (List.filter f l).
Proof.
  induction 1 as [|m l Hsorted IH Hall]; simpl; [constructor|].
  destruct (f m); [|exact IH]. constructor; [exact IH|].
  clear -Hall. induction Hall as [|x l Hx _ IH]; simpl; [constructor|].
  destruct (f x); [constructor|]; assumption.
Qed.

Lemma substring_length_le n m s : (len (String.substring n m s) <= m)%nat.
Proof.
  unfold len. revert n m.
  induction s as [|c s IH]; intros [|n] [|m]; simpl; try lia.
  - specialize (IH 0%nat m). lia.
  - specialize (IH n 0%nat). lia.
  - specialize (IH n (S m)). lia.
Qed.

Lemma repeat_char_length c n : len (repeat_char c n) = n.
Proof. induction n; simpl; [reflexivity|]. unfold len in *. simpl. lia. Qed.

Lemma len_app a b : len (a +:+ b) = (len a + len b)%nat.
Proof.
  unfold len. induction a as [|c a IH]; simpl; [reflexivity|].
  rewrite IH. reflexivity.
Qed.

Lemma perm_of_digit_shape d :
  len (perm_of_digit d) = 3%nat /\ all_chars perm_char (perm_of_digit d) = true.
Proof.
  unfold perm_of_digit. repeat (destruct (ascii_eqb d _)); split; reflexivity.
Qed.

Lemma all_chars_app f a b :
  all_chars f (a +:+ b) = all_chars f a && all_chars f b.
Proof.
  induction a as [|c a IH]; simpl; [reflexivity|].
  rewrite IH. apply andb_assoc.
Qed.

Lemma perms_of_shape mode :
  len (perms_of mode) = (3 * len mode)%nat
  /\ all_chars perm_char (perms_of mode) = true.
Proof.
  induction mode as [|d mode [IHl IHc]]; [split; reflexivity|].
  cbn [perms_of]. destruct (perm_of_digit_shape d) as [Hl Hc].
  rewrite len_app, all_chars_app, Hl, Hc, IHl, IHc.
  split; [|reflexivity]. unfold len. simpl. lia.
Qed.

End TreeFacts.

Module Extra_tree.
Import PyStr PyStrFacts Filesystem FsTree NormalizeFacts ListingFacts PortFacts
  PathFacts TreeFacts Claims_shell.

Example get_path_example :
  (fun r => match r with Ok l => get_path l | Raise _ => "" end)
    (resolve small_fs "etc/../readme.md" "/") = "/readme.md".
Proof. reflexivity. Qed.

(** X3: on a filesystem whose root carries the empty name, the path that
    [get_path] rebuilds from the parent references of a resolved node is the
    normalised path given to [resolve]. *)
Theorem get_path_round_trip fs path cwd l :
  node_name (root fs) = "" -> resolve fs path cwd = Ok l ->
  get_path l = normalize path cwd.
Proof. apply get_path_resolved. Qed.

Lemma get_path_round_trip_witness :
  node_name (root small_fs) = ""
  /\ resolve small_fs "etc/." "/"
     = Ok {| node := Directory "etc" root_meta [];
             ancestors := [root small_fs] |}
  /\ get_path {| node := Directory "etc" root_meta [];
                 ancestors := [root small_fs] |}
     = normalize "etc/." "/".
Proof.
  split; [reflexivity|]. split; [reflexivity|].
  exact (get_path_round_trip small_fs "etc/." "/" _ eq_refl eq_refl).
Defined.

(** X4: [list_directory] on a directory returns its children, without the
    hidden ones unless they are asked for, in ascending order of name. *)
Theorem list_directory_sorted fs path cwd include_hidden target :
  resolve fs path cwd = Ok target -> is_dir (node target) = true ->
  exists nodes,
    list_directory fs path cwd include_hidden = Ok nodes
    /\ StronglySorted name_le nodes
    /\ Permutation nodes
         (List.filter (visible include_hidden) (node_children (node target))).
Proof.
  intros Hres Hdir. rewrite (list_directory_dir _ _ _ _ _ Hres Hdir).
  eexists; split; [reflexivity|]. split.
  - apply filter_sorted, sorted_by_name_sorted.
  - apply filter_perm, sorted_by_name_perm.
Qed.

Lemma list_directory_sorted_witness :
  resolve small_fs "/" "/" = Ok {| node := root small_fs; ancestors := [] |}
  /\ is_dir (root small_fs) = true
  /\ exists nodes,
       list_directory small_fs "/" "/" false = Ok nodes
       /\ StronglySorted name_le nodes
       /\ Permutation nodes
            (List.filter (visible false) (node_children (root small_fs))).
Proof.
  split; [reflexivity|]. split; [reflexivity|].
  exact (list_directory_sorted small_fs "/" "/" false
           {| node := root small_fs; ancestors := [] |} eq_refl eq_refl).
Defined.

(** X5: a resolved path is either read or listed, never both: on a
    directory [read_file] raises [FilesystemError] with the text
    [<path> is a directory] and [list_directory] succeeds; on a file
    [read_file] returns the content and [list_directory] raises with
    [<path> is not a directory], the path being the normalised one. *)
Theorem read_or_list fs path cwd include_hidden l :
  node_name (root fs) = "" -> resolve fs path cwd = Ok l ->
  if is_dir (node l) then
    read_file fs path cwd
    = Raise (FilesystemError (normalize path cwd +:+ " is a directory"))
    /\ exists nodes, list_directory fs path cwd include_hidden = Ok nodes
  else
    read_file fs path cwd = Ok (node_content (node l))
    /\ list_directory fs path cwd include_hidden
       = Raise (FilesystemError (normalize path cwd +:+ " is not a directory")).
Proof.
  intros Hroot Hres. pose proof (get_path_resolved _ _ _ _ Hroot Hres) as Hpath.
  unfold read_file, list_directory. rewrite Hres. cbn [bind].
  destruct (is_dir (node l)); cbn [negb]; rewrite ?Hpath; split;
    try reflexivity. eexists. reflexivity.
Qed.

Lemma read_or_list_witness :
  node_name (root small_fs) = ""
  /\ resolve small_fs "/etc" "/"
     = Ok {| node := Directory "etc" root_meta [];
             ancestors := [root small_fs] |}
  /\ read_file small_fs "/etc" "/"
     = Raise (FilesystemError ("/etc" +:+ " is a directory"))
  /\ exists nodes, list_directory small_fs "/etc" "/" false = Ok nodes.
Proof.
  split; [reflexivity|]. split; [reflexivity|].
  exact (read_or_list small_fs "/etc" "/" false _ eq_refl eq_refl).
Defined.

Example mode_examples :
  to_unix_mode "d" "0755" = "drwxr-xr-x"
  /\ to_unix_mode "-" "5" = "-rwxrwxr-x"
  /\ to_unix_mode "-" "6x9" = "-rw-rwxrwx"
  /\ to_unix_mode "-" "" = "-rwxrwxrwx".
Proof. repeat split; reflexivity. Qed.

(** X6: whatever the mode text is (too short, too long, or holding other
    characters than octal digits), [to_unix_mode] appends to the prefix
    exactly nine characters, each one of [r], [w], [x] and [-]. *)
Theorem to_unix_mode_shape (prefix mode : string) :
  exists perms,
    to_unix_mode prefix mode = prefix +:+ perms
    /\ len perms = 9%nat /\ all_chars perm_char perms = true.
Proof.
  unfold to_unix_mode. eexists; split; [reflexivity|].
  destruct (perms_of_shape (rjust 3 "7" (last_chars 3 mode))) as [Hl Hc].
  split; [|exact Hc]. rewrite Hl. unfold rjust.
  rewrite len_app, repeat_char_length.
  pose proof (substring_length_le (len mode - 3) 3 mode) as Hle.
  unfold last_chars. lia.
Qed.

End Extra_tree.

(** ** Further properties of the shell and of ftp.py *)

Module SessionFacts.
Import PyStr PyStrFacts Filesystem FsTree Log NormalizeFacts ListingFacts
  PortFacts PathFacts TreeFacts Claims_home.

Lemma root_is_directory_at fs :
  is_directory_at fs "/" = is_dir (root fs).
Proof. reflexivity. Qed.

Lemma is_directory_at_normalized fs path :
  is_directory_at fs (normalize path "/") = is_directory_at fs path.
Proof. unfold is_directory_at. rewrite resolve_normalized. reflexivity. Qed.

(** The fallback of [resolve_home] is a directory as soon as the root is. *)
Lemma expected_home_directory fs desired :
  is_dir (root fs) = true -> is_directory_at fs (expected_home fs desired) = true.
Proof.
  intros Hroot. unfold expected_home.
  destruct (is_directory_at fs desired) eqn:E.
  - rewrite is_directory_at_normalized. exact E.
  - rewrite root_is_directory_at. exact Hroot.
Qed.

Lemma resolved_directory fs path l :
  resolve fs path "/" = Ok l -> is_dir (node l) = true ->
  is_directory_at fs path = true.
Proof. intros H Hd. unfold is_directory_at. rewrite H. exact Hd. Qed.

End SessionFacts.

Module Extra_shell.
Import PyStr PyStrFacts Filesystem FsTree Log NormalizeFacts ListingFacts
  PortFacts PathFacts TreeFacts Claims_shell Claims_home SessionFacts.

Example failed_cd_keeps_cwd :
  Telnet.execute_filesystem_command small_fs "cd readme.md" "/etc" "/" "root"
  = Ok (Some "cd: readme.md", "/etc").
Proof. reflexivity. Qed.

Example cd_to_file_refused :
  Ssh.execute_filesystem_command small_fs "cd /readme.md" "/etc" "/" "root"
  = Ok (Some "bash: cd: /readme.md: Not a directory", "/etc").
Proof. reflexivity. Qed.

(** X7: [execute_filesystem_command] never lets an exception of the
    filesystem through, and the working directory it returns is the one it
    was given unless the command is a [cd] whose target resolves to a
    directory: a working directory that names a directory, and one without
    dot components, stay so after any command. *)
Theorem shell_keeps_cwd_valid (shell_name : string) (fs : FakeFilesystem)
    (command cwd home username : string) :
  exists response cwd',
    Shell.execute_filesystem_command shell_name fs command cwd home username
    = Ok (response, cwd')
    /\ (cwd' = cwd \/ is_directory_at fs cwd' = true)
    /\ (is_directory_at fs cwd = true -> is_directory_at fs cwd' = true)
    /\ (clean_cwd cwd -> clean_cwd cwd').
Proof.
  assert (forall response,
             exists r c, Ok (A := option string * string) (response, cwd) = Ok (r, c)
                         /\ (c = cwd \/ is_directory_at fs c = true)
                         /\ (is_directory_at fs cwd = true ->
                             is_directory_at fs c = true)
                         /\ (clean_cwd cwd -> clean_cwd c)) as Hsame.
  { intros response. exists response, cwd. repeat split; auto. }
  unfold Shell.execute_filesystem_command.
  destruct (split_ws command) as [|cmd args]; [apply Hsame|].
  unfold Shell.try_block.
  destruct (eqb cmd "pwd"); [apply Hsame|].
  destruct (eqb cmd "whoami"); [apply Hsame|].
  destruct (eqb cmd "cd").
  - set (target := match args with a :: _ => a | [] => home end).
    destruct (resolve fs (normalize target cwd) "/") as [l|e] eqn:Hres;
      cbn [bind is_FilesystemError]; [|apply Hsame].
    destruct (is_dir (node l)) eqn:Hdir; cbn [negb]; [|apply Hsame].
    exists (Some ""), (normalize target cwd).
    pose proof (resolved_directory _ _ _ Hres Hdir) as Hd.
    repeat split; auto. apply normalize_keeps_clean_lemma.
  - destruct (eqb cmd "ls").
    + destruct (format_ls fs _ cwd _ _); cbn [bind is_FilesystemError];
        apply Hsame.
    + destruct (eqb cmd "cat" && _).
      * destruct (read_file fs _ cwd); cbn [bind is_FilesystemError];
          apply Hsame.
      * apply Hsame.
Qed.

End Extra_shell.

Module FtpFacts.
Import PyStr PyStrFacts Filesystem FsTree Log Ftp NormalizeFacts ListingFacts
  PortFacts PathFacts TreeFacts Claims_home SessionFacts.

Lemma prepare_no_channel env s texts s' :
  prepare_data_channel env s = NoChannel texts s' ->
  cwd s' = cwd s /\ authed s' = authed s
  /\ active_target s' = active_target s /\ username s' = username s.
Proof.
  unfold prepare_data_channel. intros H.
  repeat case_match; try discriminate H; inversion H; subst;
    repeat split; cbn; congruence.
Qed.

(** Where the working directory of the next state comes from. *)
Lemma step_cwd_cases svc env s line s' :
  next (step svc env s line) = Continue s' ->
  cwd s' = cwd s
  \/ (exists rec, cwd s' = home_after_login svc rec)
  \/ (filesystem svc = None)
  \/ (exists fs target l,
        filesystem svc = Some fs
        /\ cwd s' = normalize target (cwd s)
        /\ resolve fs (normalize target (cwd s)) "/" = Ok l
        /\ is_dir (node l) = true).
Proof.
  unfold step, do_user, do_pass, do_port, do_pasv, do_list, do_retr,
    do_other, transfer_lines, crash, say, consume, close_passive.
  destruct (reads (command_upper line) "CWD") eqn:Ecwd.
  - apply reads_eq in Ecwd. rewrite Ecwd. cbn.
    destruct (authed s); cbn; [|intros H; inversion H; auto].
    unfold do_cwd, say, with_cwd.
    destruct (filesystem svc) as [fs|] eqn:Hfs; [|auto].
    destruct (resolve fs _ "/") as [l|e] eqn:Hres;
      [|intros H; inversion H; auto].
    destruct (is_dir (node l)) eqn:Hdir; cbn [negb];
      intros H; inversion H; subst; cbn [cwd]; [|auto].
    right. right. right. eauto 10.
  - rewrite ?Ecwd. intros H.
    repeat case_match; cbn [next] in H; try discriminate H;
      inversion H; subst; cbn [cwd]; eauto;
      left; eapply prepare_no_channel; eassumption.
Qed.

Lemma transfer_commands cmd :
  among cmd ["LIST"; "NLST"; "XNLST"; "RETR"] = true ->
  cmd = points "LIST" \/ cmd = points "NLST" \/ cmd = points "XNLST"
  \/ cmd = points "RETR".
Proof.
  unfold among. cbn [existsb]. intros H.
  repeat (apply orb_true_iff in H as [H|H]);
    try (apply reads_eq in H; tauto). discriminate.
Qed.

Lemma not_transfer_commands cmd :
  among cmd ["LIST"; "NLST"; "XNLST"; "RETR"] = false ->
  among cmd ["LIST"; "NLST"; "XNLST"] = false /\ reads cmd "RETR" = false.
Proof.
  unfold among. cbn [existsb]. intros H.
  repeat (apply orb_false_iff in H as [? H]).
  split; [|assumption].
  repeat (apply orb_false_iff; split); assumption.
Qed.

Lemma firstn_short {A} (n : nat) (l : list A) :
  (length (firstn n l) <= n)%nat.
Proof. rewrite length_firstn. lia. Qed.

(** What a step that writes lines to the data writer looks like. *)
Lemma step_data_cases svc env s line lines :
  data (step svc env s line) = Some lines ->
  authed s = true
  /\ among (command_upper line) ["LIST"; "NLST"; "XNLST"; "RETR"] = true
  /\ (active_target s <> None \/ passive s <> None)
  /\ written (step svc env s line)
     = opening :: match transfer env, active_target s with
                  | Sent, _ => [complete]
                  | _, Some _ => []
                  | _, None => [no_connection]
                  end
  /\ (transfer env <> Sent -> (length lines <= handed env)%nat).
Proof.
  destruct (among (command_upper line) ["LIST"; "NLST"; "XNLST"; "RETR"])
    eqn:Hm.
  - apply transfer_commands in Hm.
    unfold step.
    destruct Hm as [-> | [-> | [-> | ->]]]; known_command;
      cbn -[do_list do_retr];
      (destruct (authed s); cbn -[do_list do_retr]; [|discriminate]);
      unfold do_list, do_retr, prepare_data_channel, transfer_lines,
        handed_lines, send_data, crash, say;
      intros H; repeat case_match; cbn [data written] in *;
      try discriminate H; simplify_eq;
      repeat split; auto using firstn_short; try congruence.
  - apply not_transfer_commands in Hm as [Hl Hr].
    unfold step, do_user, do_pass, do_port, do_pasv, do_cwd, do_other,
      say, crash.
    rewrite Hl, Hr. intros H.
    repeat case_match; cbn [data] in H; discriminate H.
Qed.

End FtpFacts.

Module Extra_ftp.
Import PyStr PyStrFacts Filesystem FsTree Log Ftp NormalizeFacts ListingFacts
  PortFacts PathFacts TreeFacts Claims_shell Claims_ftp_examples Claims_home
  SessionFacts FtpFacts.
Import FtpDataFixtures.
Export FtpMoreFixtures.

(** X8: with the filesystem attached and a directory at its root, the
    working directory of an FTP session names an existing directory when the
    session starts and after every command that leaves the session open. *)
Theorem ftp_cwd_is_directory (c : Config) (host : string)
    (fs : FakeFilesystem) :
  is_dir (root fs) = true ->
  let svc := {| config := c; filesystem := Some fs; host := host |} in
  is_directory_at fs (cwd (snd (connect svc))) = true
  /\ forall env s line s',
       is_directory_at fs (cwd s) = true ->
       next (step svc env s line) = Continue s' ->
       is_directory_at fs (cwd s') = true.
Proof.
  intros Hroot svc. split.
  - cbn [connect snd cwd]. unfold resolve_home. cbn [filesystem svc].
    rewrite resolve_home_attached. apply expected_home_directory, Hroot.
  - intros env s line s' Hcwd Hnext.
    destruct (step_cwd_cases _ _ _ _ _ Hnext)
      as [-> | [[rec ->] | [Hnone | (fs' & target & l & Hfs & -> & Hres & Hdir)]]].
    + exact Hcwd.
    + unfold home_after_login, resolve_home. cbn [filesystem svc].
      rewrite resolve_home_attached. apply expected_home_directory, Hroot.
    + discriminate Hnone.
    + cbn in Hfs. inversion Hfs; subst fs'.
      eapply resolved_directory; eassumption.
Qed.

Lemma ftp_cwd_is_directory_witness :
  is_dir (root small_fs) = true
  /\ is_directory_at small_fs (cwd (snd (connect ftp_service))) = true
  /\ forall env s line s',
       is_directory_at small_fs (cwd s) = true ->
       next (step ftp_service env s line) = Continue s' ->
       is_directory_at small_fs (cwd s') = true.
Proof.
  split; [reflexivity|].
  exact (ftp_cwd_is_directory ftp_config "0.0.0.0" small_fs eq_refl).
Defined.

(** X9: lines are written to a data writer only in a logged-in session,
    only for LIST, NLST, XNLST and RETR, and only with an active target or
    a passive listener in the session.  The control connection then carries
    the 150 line first; it is followed by the 226 line when the transfer
    succeeds, by [425 Could not establish connection.] when a transfer over
    the passive channel fails, and by nothing when a transfer to the active
    target raises after the connection was made.  A failing transfer has
    written at most the lines that the writer took before it raised. *)
Theorem data_needs_login_and_channel svc env s line lines :
  data (step svc env s line) = Some lines ->
  authed s = true
  /\ among (command_upper line) ["LIST"; "NLST"; "XNLST"; "RETR"] = true
  /\ (active_target s <> None \/ passive s <> None)
  /\ written (step svc env s line)
     = ("150 Opening data connection." +:+ crlf)
       :: match transfer env, active_target s with
          | Sent, _ => ["226 Transfer complete." +:+ crlf]
          | _, Some _ => []
          | _, None => ["425 Could not establish connection." +:+ crlf]
          end
  /\ (transfer env <> Sent -> (length lines <= handed env)%nat).
Proof. apply step_data_cases. Qed.

Lemma data_needs_login_and_channel_witness :
  data (step ftp_service broken pending ("NLST /" +:+ crlf)) = Some ["etc"]
  /\ authed pending = true
  /\ among (command_upper ("NLST /" +:+ crlf))
       ["LIST"; "NLST"; "XNLST"; "RETR"] = true
  /\ (active_target pending <> None \/ passive pending <> None)
  /\ written (step ftp_service broken pending ("NLST /" +:+ crlf))
     = ["150 Opening data connection." +:+ crlf;
        "425 Could not establish connection." +:+ crlf]
  /\ (transfer broken <> Sent -> (length ["etc"] <= handed broken)%nat).
Proof.
  split; [vm_compute; reflexivity|].
  exact (data_needs_login_and_channel ftp_service broken pending
           ("NLST /" +:+ crlf) ["etc"] eq_refl).
Defined.

Lemma listing_commands cmd :
  among cmd ["LIST"; "NLST"; "XNLST"] = true ->
  cmd = points "LIST" \/ cmd = points "NLST" \/ cmd = points "XNLST".
Proof.
  unfold among. cbn [existsb]. intros H.
  repeat (apply orb_true_iff in H as [H|H]);
    try (apply reads_eq in H; tauto). discriminate.
Qed.

(** X10: an active target serves one listing.  After LIST, NLST or XNLST
    has used it (whether the listing was sent, refused by the peer, or the
    path was not found), a further LIST, NLST, XNLST or RETR without a new
    PORT or PASV is answered by [425 Use PORT or PASV first.] and changes
    nothing. *)
Theorem active_target_one_shot svc env1 env2 s target line1 line2 s1 :
  authed s = true -> active_target s = Some target -> passive s = None ->
  among (command_upper line1) ["LIST"; "NLST"; "XNLST"] = true ->
  among (command_upper line2) ["LIST"; "NLST"; "XNLST"; "RETR"] = true ->
  next (step svc env1 s line1) = Continue s1 ->
  step svc env2 s1 line2 = say ["425 Use PORT or PASV first." +:+ crlf] [] s1.
Proof.
  intros Hauth Hact Hpas H1 H2 Hnext.
  assert (authed s1 = true /\ active_target s1 = None /\ passive s1 = None)
    as (Hauth1 & Hact1 & Hpas1).
  { apply listing_commands in H1. revert Hnext. unfold step.
    destruct H1 as [-> | [-> | ->]]; known_command; cbn -[do_list];
      rewrite Hauth;
      cbn -[do_list]; unfold do_list, prepare_data_channel; rewrite Hact;
      unfold transfer_lines, send_data, crash, say, consume;
      intros Hnext; repeat case_match; cbn [next] in Hnext;
      try discriminate Hnext; inversion Hnext; subst; cbn;
      repeat split; assumption. }
  apply transfer_commands in H2. unfold step.
  destruct H2 as [-> | [-> | [-> | ->]]]; known_command;
    cbn -[do_list do_retr];
    rewrite Hauth1; cbn -[do_list do_retr];
    unfold do_list, do_retr, prepare_data_channel; rewrite Hact1, Hpas1;
    reflexivity.
Qed.

Lemma active_target_one_shot_witness :
  authed with_target = true
  /\ active_target with_target = Some ("10.0.0.9", 1025)
  /\ passive with_target = None
  /\ among (command_upper ("LIST" +:+ crlf)) ["LIST"; "NLST"; "XNLST"] = true
  /\ among (command_upper ("RETR /readme.md" +:+ crlf))
       ["LIST"; "NLST"; "XNLST"; "RETR"] = true
  /\ next (step ftp_service quiet with_target ("LIST" +:+ crlf))
     = Continue after_transfer
  /\ step ftp_service quiet after_transfer ("RETR /readme.md" +:+ crlf)
     = say ["425 Use PORT or PASV first." +:+ crlf] [] after_transfer.
Proof.
  repeat (split; [reflexivity|]).
  exact (active_target_one_shot ftp_service quiet quiet with_target
           ("10.0.0.9", 1025) ("LIST" +:+ crlf) ("RETR /readme.md" +:+ crlf)
           after_transfer eq_refl eq_refl eq_refl eq_refl eq_refl eq_refl).
Defined.

Lemma command_line_nonempty line name :
  command_upper line = points name -> nonempty name = true ->
  nonempty line = true.
Proof.
  destruct line; [|reflexivity].
  destruct name; [discriminate|]. cbn. discriminate.
Qed.

(** X11: USER [u] followed by PASS [p], for a configured, non-empty user
    name and one of its passwords, logs the session in whatever its state
    was, and a following PWD reports the resolved home of that user: the
    three replies are the 331 line, the welcome of the user and
    [257 "<home>" is the current directory]. *)
Theorem login_then_pwd_reports_home svc s0 e1 e2 e3 l1 l2 l3 u p rec :
  users (config svc) !! u = Some rec ->
  member p (passwords rec) = true -> nonempty u = true ->
  command_upper l1 = points "USER" -> snd (command_arg (decode l1)) = u ->
  command_upper l2 = points "PASS" -> snd (command_arg (decode l2)) = p ->
  command_upper l3 = points "PWD" ->
  map written (run svc s0 [(e1, l1); (e2, l2); (e3, l3)])
  = [["331 " +:+ default "Please specify the password." (user_prompt rec)
        +:+ crlf];
     [default "230 Login successful." (welcome rec) +:+ crlf];
     ["257 " +:+ String dquote (home_after_login svc rec +:+ String dquote
        " is the current directory") +:+ crlf]].
Proof.
  intros Hu Hp Hne H1 Ha1 H2 Ha2 H3.
  cbn [run].
  rewrite (command_line_nonempty l1 _ H1 eq_refl).
  assert (step svc e1 s0 l1 = do_user svc s0 u) as ->
    by (unfold step; rewrite H1, Ha1; reflexivity).
  unfold do_user at 1 2. rewrite Hu. cbn [say next written map].
  rewrite (command_line_nonempty l2 _ H2 eq_refl).
  match goal with |- context [step svc e2 ?s l2] =>
    assert (step svc e2 s l2 = do_pass svc e2 s p) as ->
      by (unfold step; rewrite H2, Ha2; reflexivity) end.
  unfold do_pass at 1 2. cbn [username].
  assert (credentials_ok (config svc) (Some u) p = true) as ->
    by (unfold credentials_ok; rewrite Hu; exact Hp).
  cbn [truthy andb]. rewrite Hne. cbn [from_option id]. rewrite Hu.
  cbn [from_option id say next written map].
  rewrite (command_line_nonempty l3 _ H3 eq_refl).
  unfold step. rewrite H3. cbn. reflexivity.
Qed.

Lemma login_then_pwd_reports_home_witness :
  users (config ftp_service) !! "ftp" = Some anonymous
  /\ member "anonymous" (passwords anonymous) = true
  /\ nonempty "ftp" = true
  /\ map written (run ftp_service fresh
                    [line "user ftp"; line "pass anonymous"; line "pwd"])
     = [["331 Please specify the password." +:+ crlf];
        ["230 Login successful." +:+ crlf];
        ["257 " +:+ String dquote ("/etc" +:+ String dquote
           " is the current directory") +:+ crlf]].
Proof.
  split; [vm_compute; reflexivity|]. split; [reflexivity|].
  split; [reflexivity|].
  exact (login_then_pwd_reports_home ftp_service fresh quiet quiet quiet
           ("user ftp" +:+ crlf) ("pass anonymous" +:+ crlf) ("pwd" +:+ crlf)
           "ftp" "anonymous" anonymous eq_refl eq_refl eq_refl
           eq_refl eq_refl eq_refl eq_refl eq_refl).
Defined.

End Extra_ftp.

Module NumberFacts.
Import PyStr PyStrFacts Filesystem FsTree Log Ftp NormalizeFacts ListingFacts
  PortFacts PathFacts TreeFacts.
Export NameSpec.

Lemma append_assoc (a b c : string) : (a +:+ b) +:+ c = a +:+ (b +:+ c).
Proof.
  induction a as [|x a IH]; [reflexivity|].
  change (String x ((a +:+ b) +:+ c) = String x (a +:+ (b +:+ c))).
  f_equal. exact IH.
Qed.

Lemma rstrip_by_id f s :
  all_chars (fun c => negb (f c)) s = true -> rstrip_by f s = s.
Proof.
  induction s as [|c s IH]; simpl; [reflexivity|].
  intros H. apply andb_true_iff in H as [Hc Hs]. rewrite (IH Hs).
  apply negb_true_iff in Hc. rewrite Hc. destruct s; reflexivity.
Qed.

Lemma strip_by_id f s :
  all_chars (fun c => negb (f c)) s = true -> strip_by f s = s.
Proof.
  intros H. unfold strip_by.
  assert (lstrip_by f s = s) as ->.
  { destruct s as [|c s]; [reflexivity|]. simpl in *.
    apply andb_true_iff in H as [Hc _]. apply negb_true_iff in Hc.
    rewrite Hc. reflexivity. }
  apply rstrip_by_id, H.
Qed.

Lemma all_chars_of_free (g : ascii -> bool) s :
  (forall c, g c = false -> mem_char c s = false) -> all_chars g s = true.
Proof.
  induction s as [|d s IH]; intros H; [reflexivity|]. simpl.
  destruct (g d) eqn:E.
  - apply IH. intros c Hc. specialize (H c Hc).
    rewrite mem_char_cons in H. apply orb_false_iff in H as [_ H]. exact H.
  - specialize (H d E). rewrite mem_char_cons in H.
    rewrite (proj2 (ascii_eqb_eq d d) eq_refl) in H. discriminate.
Qed.

Lemma all_chars_impl (f g : ascii -> bool) s :
  (forall c, f c = true -> g c = true) ->
  all_chars f s = true -> all_chars g s = true.
Proof.
  intros Hfg. induction s as [|c s IH]; simpl; [reflexivity|].
  intros H. apply andb_true_iff in H as [Hc Hs].
  rewrite (Hfg _ Hc), (IH Hs). reflexivity.
Qed.

Lemma pretty_N_char_value d :
  (d < 10)%N -> digit_val (pretty_N_char d) = Z.of_N d.
Proof.
  intros H.
  assert (d = 0 \/ d = 1 \/ d = 2 \/ d = 3 \/ d = 4 \/ d = 5 \/ d = 6
          \/ d = 7 \/ d = 8 \/ d = 9)%N as Hd by lia.
  repeat (destruct Hd as [->|Hd]; [reflexivity|]). subst. reflexivity.
Qed.

(** Reading the digits that [pretty_N_go] writes in front of [s]. *)
Lemma int_digits_pretty_go x :
  (0 < x)%N ->
  exists p, forall s acc after,
      int_digits (pretty_N_go x s) acc after
      = int_digits s (acc * p + Z.of_N x) true.
Proof.
  induction (N.lt_wf_0 x) as [x _ IH]. intros Hpos.
  assert (forall s acc after,
             int_digits (String (pretty_N_char (x mod 10)) s) acc after
             = int_digits s (acc * 10 + Z.of_N (x mod 10)) true) as Hlast.
  { intros s acc after. cbn [int_digits].
    rewrite pretty_N_char_isdigit, pretty_N_char_value
      by (apply N.mod_lt; lia). reflexivity. }
  destruct (decide (x < 10)%N) as [Hsmall|Hbig].
  - exists 10. intros s acc after. rewrite pretty_N_go_step by assumption.
    rewrite (N.div_small x 10 Hsmall), pretty_N_go_0, Hlast.
    rewrite (N.mod_small x 10 Hsmall). reflexivity.
  - destruct (IH (x / 10)%N) as [p Hp].
    + apply N.div_lt; lia.
    + apply N.div_str_pos. lia.
    + exists (p * 10). intros s acc after.
      rewrite pretty_N_go_step by assumption. rewrite Hp, Hlast. f_equal.
      rewrite (N.div_mod x 10) at 3 by lia.
      rewrite N2Z.inj_add, N2Z.inj_mul. change (Z.of_N 10) with 10. lia.
Qed.

Lemma str_of_int_digits n :
  all_chars (fun c => isdigit c || ascii_eqb c "-") (str_of_int n) = true.
Proof.
  apply all_chars_of_free. intros c Hc. apply orb_false_iff in Hc as [Hd Hm].
  apply str_of_int_free; [exact Hd|]. apply ascii_eqb_neq, Hm.
Qed.

(** The number of digits that [pretty_N_go] writes in front of [s]. *)
Lemma digit_count_pretty_go x :
  (0 < x)%N ->
  exists k, 1 <= k /\ 10 ^ (k - 1) <= Z.of_N x
            /\ forall s, digit_count (pretty_N_go x s) = k + digit_count s.
Proof.
  induction (N.lt_wf_0 x) as [x _ IH]. intros Hpos.
  assert (forall s, digit_count (String (pretty_N_char (x mod 10)) s)
                    = 1 + digit_count s) as Hlast.
  { intros s. cbn [digit_count].
    rewrite pretty_N_char_isdigit by (apply N.mod_lt; lia). reflexivity. }
  destruct (decide (x < 10)%N) as [Hsmall|Hbig].
  - exists 1. split; [lia|]. split; [cbn; lia|]. intros s.
    rewrite pretty_N_go_step by assumption.
    rewrite (N.div_small x 10 Hsmall), pretty_N_go_0. apply Hlast.
  - destruct (IH (x / 10)%N) as (k & Hk & Hpow & Hcount).
    + apply N.div_lt; lia.
    + apply N.div_str_pos. lia.
    + exists (k + 1). split; [lia|]. split.
      * replace (k + 1 - 1) with (Z.succ (k - 1)) by lia.
        rewrite Z.pow_succ_r by lia.
        pose proof (N.Div0.mul_div_le x 10) as Hdiv.
        apply N2Z.inj_le in Hdiv. rewrite N2Z.inj_mul in Hdiv.
        change (Z.of_N 10) with 10 in Hdiv. lia.
      * intros s. rewrite pretty_N_go_step by assumption.
        rewrite Hcount, Hlast. lia.
Qed.

(** [int(str(n))] is [n] for a natural number within the limit on the
    digits. *)
Lemma int_of_str_of_int n :
  0 <= n < 10 ^ int_max_str_digits -> int_of_str (str_of_int n) = Some n.
Proof.
  intros [Hn Hmax]. unfold int_of_str.
  rewrite strip_by_id.
  2:{ eapply all_chars_impl; [|apply str_of_int_digits].
      intros c Hc. destruct (int_space c) eqn:E; [|reflexivity].
      destruct c as [[] [] [] [] [] [] [] []]; discriminate. }
  destruct n as [|q|q]; [vm_compute; reflexivity| |lia].
  change (str_of_int (Z.pos q)) with (pretty_N_go (N.pos q) "").
  destruct (int_digits_pretty_go (N.pos q) ltac:(lia)) as [p Hp].
  pose proof (Hp "" 0 false) as Hval. cbn [int_digits] in Hval.
  destruct (digit_count_pretty_go (N.pos q) ltac:(lia))
    as (k & Hk & Hpow & Hcount).
  pose proof (Hcount "") as Hdigits. cbn [digit_count] in Hdigits.
  assert (k <= int_max_str_digits) as Hlimit.
  { destruct (Z.le_gt_cases k int_max_str_digits) as [H|H]; [exact H|].
    exfalso.
    assert (10 ^ int_max_str_digits <= 10 ^ (k - 1)) as Hmono
        by (apply Z.pow_le_mono_r; unfold int_max_str_digits in *; lia).
    change (Z.of_N (N.pos q)) with (Z.pos q) in Hpow. lia. }
  pose proof (pretty_N_go_free "+" (N.pos q) "" eq_refl) as Hplus.
  pose proof (pretty_N_go_free "-" (N.pos q) "" eq_refl) as Hminus.
  destruct (pretty_N_go (N.pos q) "") as [|c r]; [discriminate Hval|].
  rewrite mem_char_cons in Hplus, Hminus.
  apply orb_false_iff in Hplus as [Hplus _].
  apply orb_false_iff in Hminus as [Hminus _].
  rewrite Hplus, Hminus. unfold int_body.
  assert ((int_max_str_digits <? digit_count (String c r)) = false) as ->
      by (apply Z.ltb_ge; lia).
  rewrite Hval. f_equal.
Qed.

(** The numbers of a port and of an octet are far below the limit. *)
Lemma small_number n : 0 <= n <= 65535 -> 0 <= n < 10 ^ int_max_str_digits.
Proof.
  intros H. split; [lia|].
  apply Z.le_lt_trans with (m := 65535); [lia|]. vm_compute. reflexivity.
Qed.

Lemma join_cons_char sep c h t :
  join sep (String c h :: t) = String c (join sep (h :: t)).
Proof. destruct t; reflexivity. Qed.

(** Joining the pieces of a split gives the text back. *)
Lemma join_split sep s : join (String sep "") (split sep s) = s.
Proof.
  induction s as [|c s IH]; [reflexivity|]. simpl split.
  pose proof (split_nonnil sep s) as Hne.
  destruct (ascii_eqb c sep) eqn:E.
  - apply ascii_eqb_eq in E. subst c.
    destruct (split sep s) as [|h t]; [congruence|].
    change (join (String sep "") ("" :: h :: t))
      with (String sep (join (String sep "") (h :: t))).
    rewrite IH. reflexivity.
  - destruct (split sep s) as [|h t]; [congruence|].
    rewrite join_cons_char, IH. reflexivity.
Qed.

Lemma octet_ok_comma_free part :
  octet_ok part = true -> mem_char "," part = false.
Proof.
  unfold octet_ok. intros H. destruct (mem_char "," part) eqn:E; [|reflexivity].
  rewrite (int_of_str_foreign "," part) in H;
    [discriminate|reflexivity|reflexivity|discriminate..|exact E].
Qed.

(** [s.split()] of a text that ends in a blank and one more token. *)
Lemma split_ws_first_solid c s :
  isspace c = false -> split_ws (String c s) <> [].
Proof.
  intros Hc. simpl. rewrite Hc. destruct s as [|c' s']; [discriminate|].
  destruct (isspace c'); [discriminate|].
  destruct (split_ws (String c' s')); discriminate.
Qed.

Lemma split_ws_token w :
  one_token w -> split_ws w = [w].
Proof.
  intros [Hne Hall]. induction w as [|c w IH]; [discriminate|].
  simpl in Hall. apply andb_true_iff in Hall as [Hc Hw].
  apply negb_true_iff in Hc. cbn [split_ws]. rewrite Hc.
  destruct w as [|c' w']; [reflexivity|].
  pose proof Hw as Hw'. simpl in Hw'. apply andb_true_iff in Hw' as [Hc' _].
  apply negb_true_iff in Hc'. rewrite Hc'.
  rewrite (IH eq_refl Hw). reflexivity.
Qed.

Lemma split_ws_blank sp w :
  isspace sp = true -> split_ws (String sp w) = split_ws w.
Proof. intros H. cbn [split_ws]. rewrite H. reflexivity. Qed.

Lemma split_ws_two c c' s :
  split_ws (String c (String c' s))
  = if isspace c then split_ws (String c' s)
    else if isspace c' then String c "" :: split_ws (String c' s)
    else match split_ws (String c' s) with
         | h :: t => String c h :: t
         | [] => [String c ""]
         end.
Proof. reflexivity. Qed.

Lemma split_ws_append a sp w :
  isspace sp = true -> one_token w ->
  split_ws (a +:+ String sp w) = split_ws a ++ [w].
Proof.
  intros Hsp Hw. induction a as [|c a IH].
  - change ("" +:+ String sp w) with (String sp w).
    rewrite (split_ws_blank _ _ Hsp). apply split_ws_token, Hw.
  - change (String c a +:+ String sp w) with (String c (a +:+ String sp w)).
    destruct a as [|c' a'].
    + change ("" +:+ String sp w) with (String sp w) in *.
      rewrite (split_ws_two c sp w), Hsp, IH.
      cbn [split_ws]. destruct (isspace c); reflexivity.
    + change (String c' a' +:+ String sp w)
        with (String c' (a' +:+ String sp w)) in *.
      rewrite (split_ws_two c c' (a' +:+ String sp w)), (split_ws_two c c' a').
      destruct (isspace c); [exact IH|].
      destruct (isspace c') eqn:Hc'; rewrite IH; [reflexivity|].
      pose proof (split_ws_first_solid c' a' Hc') as Hne.
      destruct (split_ws (String c' a')); [congruence|reflexivity].
Qed.

Lemma last_app_one {A} (l : list A) x d : List.last (l ++ [x]) d = x.
Proof.
  induction l as [|y l IH]; [reflexivity|].
  simpl. destruct (l ++ [x]) eqn:E; [destruct l; discriminate|exact IH].
Qed.

(** A row of [format_ftp_list] ends in a blank and the name. *)
Lemma ftp_row_ends n :
  exists a, ftp_row n = a +:+ String " " (node_name n).
Proof.
  exists (to_unix_mode (if is_dir n then "d" else "-") (mode (node_meta n))
            +:+ " 1 " +:+ ljust 8 " " (owner (node_meta n)) +:+ " "
            +:+ ljust 8 " " (group (node_meta n)) +:+ " "
            +:+ rjust 8 " " (str_of_int (size n)) +:+ " "
            +:+ format_ls_time (modified (node_meta n))).
  unfold ftp_row. repeat rewrite append_assoc. reflexivity.
Qed.

Lemma last_tokens_rows nodes :
  Forall (fun n => one_token (node_name n)) nodes ->
  last_tokens (map ftp_row nodes) = Some (map node_name nodes).
Proof.
  induction 1 as [|n l Hn _ IH]; [reflexivity|].
  cbn [map last_tokens]. rewrite IH.
  destruct (ftp_row_ends n) as [a ->].
  rewrite (split_ws_append a " " _ eq_refl Hn).
  destruct (split_ws a ++ [node_name n]) as [|t ts] eqn:E;
    [destruct (split_ws a); discriminate|].
  rewrite <- E, last_app_one. reflexivity.
Qed.

End NumberFacts.

Module Extra_ftp_data.
Import PyStr PyStrFacts Filesystem FsTree Log Ftp NormalizeFacts ListingFacts
  PortFacts PathFacts TreeFacts Claims_shell Claims_ftp_examples Claims_home
  SessionFacts FtpFacts NumberFacts.
Import FtpMoreFixtures.

Lemma Forall_sorted_by_name (P : Node -> Prop) l :
  Forall P l -> Forall P (sorted_by_name l).
Proof.
  induction 1 as [|n l Hn _ IH]; simpl; [constructor|].
  apply Forall_insert_sorted; assumption.
Qed.

Lemma Forall_filter_bool {A} (P : A -> Prop) (f : A -> bool) l :
  Forall P l -> Forall P (List.filter f l).
Proof.
  induction 1 as [|x l Hx _ IH]; simpl; [constructor|].
  destruct (f x); [constructor|]; assumption.
Qed.

(** X12: NLST (and XNLST) on a directory whose entries have names of one
    token each - non-empty, without whitespace - sends exactly the names of
    the entries that are not hidden, in ascending order, when the transfer
    over the active target succeeds. *)
Theorem nlst_sends_names svc env s line fs target_dir peer_target :
  authed s = true -> active_target s = Some peer_target ->
  among (command_upper line) ["NLST"; "XNLST"] = true ->
  filesystem svc = Some fs -> transfer env = Sent ->
  resolve fs (if nonempty (snd (command_arg (decode line)))
              then snd (command_arg (decode line)) else ".") (cwd s)
  = Ok target_dir ->
  is_dir (node target_dir) = true ->
  Forall (fun n => one_token (node_name n)) (node_children (node target_dir)) ->
  data (step svc env s line)
  = Some (map node_name
            (List.filter (visible false)
               (sorted_by_name (node_children (node target_dir))))).
Proof.
  intros Hauth Hact Hcmd Hfs Hsent Hres Hdir Hnames.
  assert (command_upper line = points "NLST" \/ command_upper line = points "XNLST")
    as Hc.
  { unfold among in Hcmd. cbn [existsb] in Hcmd.
    repeat (apply orb_true_iff in Hcmd as [Hcmd|Hcmd]);
      try (apply reads_eq in Hcmd; tauto). discriminate. }
  set (arg := snd (command_arg (decode line))) in *.
  assert (step svc env s line = do_list svc env s (command_upper line) arg)
    as ->.
  { unfold step. fold arg.
    destruct Hc as [-> | ->]; known_command; cbn -[do_list]; rewrite Hauth;
      reflexivity. }
  unfold do_list, prepare_data_channel. rewrite Hact, Hfs.
  unfold format_ftp_list. rewrite Hres. cbn [bind]. rewrite Hdir.
  rewrite (list_directory_dir _ _ _ _ _ Hres Hdir). cbn [bind].
  assert (among (command_upper line) ["NLST"; "XNLST"] = true) as ->
    by exact Hcmd.
  unfold shown.
  rewrite last_tokens_rows
    by (apply Forall_filter_bool, Forall_sorted_by_name, Hnames).
  unfold transfer_lines, send_data, handed_lines. rewrite Hsent. reflexivity.
Qed.

Lemma nlst_sends_names_witness :
  authed with_target = true
  /\ active_target with_target = Some ("10.0.0.9", 1025)
  /\ among (command_upper ("nlst /" +:+ crlf)) ["NLST"; "XNLST"] = true
  /\ filesystem ftp_service = Some small_fs /\ transfer quiet = Sent
  /\ resolve small_fs "/" (cwd with_target)
     = Ok {| node := root small_fs; ancestors := [] |}
  /\ is_dir (root small_fs) = true
  /\ Forall (fun n => one_token (node_name n)) (node_children (root small_fs))
  /\ data (step ftp_service quiet with_target ("nlst /" +:+ crlf))
     = Some ["etc"; "readme.md"].
Proof.
  assert (Forall (fun n => one_token (node_name n))
            (node_children (root small_fs))) as Hnames
    by (repeat constructor).
  repeat (split; [reflexivity|]). split; [exact Hnames|].
  exact (nlst_sends_names ftp_service quiet with_target ("nlst /" +:+ crlf)
           small_fs {| node := root small_fs; ancestors := [] |}
           ("10.0.0.9", 1025) eq_refl eq_refl eq_refl eq_refl eq_refl
           eq_refl eq_refl Hnames).
Defined.

Lemma step_pasv svc env s line :
  authed s = true -> command_upper line = points "PASV" ->
  step svc env s line = do_pasv svc env s.
Proof. intros Hauth Hcmd. unfold step. rewrite Hcmd, Hauth. reflexivity. Qed.

Lemma step_port_again svc env s line :
  authed s = true -> command_upper line = points "PORT" ->
  step svc env s line = do_port env s (snd (command_arg (decode line))).
Proof. intros Hauth Hcmd. unfold step. rewrite Hcmd, Hauth. reflexivity. Qed.

Lemma port_of_halves port :
  0 <= port <= 65535 ->
  port_of (str_of_int (port / 256)) (str_of_int (port mod 256)) = port.
Proof.
  intros H. unfold port_of.
  pose proof (Z.div_pos port 256 ltac:(lia) ltac:(lia)) as Hdiv.
  pose proof (Z.div_le_upper_bound port 256 65535 ltac:(lia) ltac:(lia)).
  pose proof (Z.mod_pos_bound port 256 ltac:(lia)) as Hmod.
  rewrite !int_of_str_of_int by (apply small_number; lia).
  rewrite Z.shiftl_mul_pow2 by lia. change (2 ^ 8) with 256.
  pose proof (Z.div_mod port 256). lia.
Qed.

Lemma octet_ok_number n : 0 <= n <= 255 -> octet_ok (str_of_int n) = true.
Proof.
  intros H. unfold octet_ok.
  rewrite int_of_str_of_int by (apply small_number; lia).
  apply andb_true_iff. split; lia.
Qed.

(** X13: the six numbers of a 227 reply, sent back as the argument of PORT,
    name the address of the passive listener again: when the listener is
    bound to the dotted quad of four numbers of 0..255, other than 0.0.0.0,
    and to a port of (0, 65535], the reply carries the four numbers and the
    two halves of the port, and PORT with these numbers is accepted and
    sets the active target to that host and port. *)
Theorem pasv_reply_feeds_port svc env s line n1 n2 n3 n4 :
  authed s = true -> command_upper line = points "PASV" ->
  fst (bound env) = join "." (map str_of_int [n1; n2; n3; n4]) ->
  Forall (fun n => 0 <= n <= 255) [n1; n2; n3; n4] ->
  fst (bound env) <> "0.0.0.0" ->
  0 < snd (bound env) <= 65535 ->
  exists numbers,
    numbers = join "," (map str_of_int [n1; n2; n3; n4;
                                        snd (bound env) / 256;
                                        snd (bound env) mod 256])
    /\ written (step svc env s line)
       = ["227 Entering Passive Mode (" +:+ numbers +:+ ")." +:+ crlf]
    /\ forall svc' env' s' line',
         authed s' = true -> command_upper line' = points "PORT" ->
         snd (command_arg (decode line')) = numbers ->
         exists s'',
           next (step svc' env' s' line') = Continue s''
           /\ active_target s'' = Some (fst (bound env), snd (bound env)).
Proof.
  intros Hauth Hcmd Hhost Hrange Hany Hport.
  set (port := snd (bound env)) in *.
  set (h1 := str_of_int n1) in *. set (h2 := str_of_int n2) in *.
  set (h3 := str_of_int n3) in *. set (h4 := str_of_int n4) in *.
  cbn [map] in Hhost |- *.
  assert (Forall (fun p => mem_char "." p = false) [h1; h2; h3; h4])
    as Hdots
      by (repeat constructor; apply str_of_int_free;
          (reflexivity || discriminate)).
  assert (split "." (fst (bound env)) = [h1; h2; h3; h4]) as Hquad
      by (rewrite Hhost; apply split_join; [discriminate|exact Hdots]).
  assert (forallb octet_ok [h1; h2; h3; h4] = true) as Hoct.
  { inversion Hrange as [|? ? R1 Hr1]; subst.
    inversion Hr1 as [|? ? R2 Hr2]; subst.
    inversion Hr2 as [|? ? R3 Hr3]; subst.
    inversion Hr3 as [|? ? R4 _]; subst.
    cbn [forallb]. unfold h1, h2, h3, h4.
    rewrite !octet_ok_number by assumption. reflexivity. }
  apply eqb_neq in Hany.
  exists (join "," [h1; h2; h3; h4; str_of_int (port / 256);
                    str_of_int (port mod 256)]).
  split; [reflexivity|]. split.
  - rewrite (step_pasv _ _ _ _ Hauth Hcmd). unfold do_pasv.
    rewrite Hany, Hquad. cbn [say written join]. fold port.
    repeat rewrite append_assoc. reflexivity.
  - intros svc' env' s' line' Hauth' Hcmd' Harg.
    rewrite (step_port_again _ _ _ _ Hauth' Hcmd'), Harg. unfold do_port.
    assert (split "," (join "," [h1; h2; h3; h4; str_of_int (port / 256);
                                 str_of_int (port mod 256)])
            = [h1; h2; h3; h4; str_of_int (port / 256);
               str_of_int (port mod 256)]) as ->.
    { apply split_join; [discriminate|].
      repeat constructor; apply str_of_int_free;
        (reflexivity || discriminate). }
    cbn [length Nat.eqb firstn nth].
    rewrite port_of_halves by lia.
    rewrite test_active_address_joined by reflexivity.
    rewrite Hoct.
    assert ((0 <? port) && (port <=? 65535) = true) as -> by lia.
    cbn [andb say next active_target].
    eexists; split; [reflexivity|]. cbn [active_target].
    rewrite <- Hquad, join_split. reflexivity.
Qed.

Lemma pasv_reply_feeds_port_witness :
  authed logged_in = true
  /\ command_upper ("PASV" +:+ crlf) = points "PASV"
  /\ fst (bound listening) = join "." (map str_of_int [192; 168; 1; 7])
  /\ Forall (fun n => 0 <= n <= 255) [192; 168; 1; 7]
  /\ fst (bound listening) <> "0.0.0.0"
  /\ 0 < snd (bound listening) <= 65535
  /\ exists numbers,
       numbers = "192,168,1,7,195,80"
       /\ written (step ftp_service listening logged_in ("PASV" +:+ crlf))
          = ["227 Entering Passive Mode (" +:+ numbers +:+ ")." +:+ crlf]
       /\ forall svc' env' s' line',
            authed s' = true -> command_upper line' = points "PORT" ->
            snd (command_arg (decode line')) = numbers ->
            exists s'',
              next (step svc' env' s' line') = Continue s''
              /\ active_target s'' = Some ("192.168.1.7", 50000).
Proof.
  assert (0 < snd (bound listening) <= 65535) as Hport by (cbn; lia).
  assert (Forall (fun n => 0 <= n <= 255) [192; 168; 1; 7]) as Hrange
      by (repeat constructor; lia).
  assert (fst (bound listening) <> "0.0.0.0") as Hany by discriminate.
  split; [reflexivity|]. split; [reflexivity|]. split; [reflexivity|].
  split; [exact Hrange|]. split; [exact Hany|]. split; [exact Hport|].
  exact (pasv_reply_feeds_port ftp_service listening logged_in
           ("PASV" +:+ crlf) 192 168 1 7
           eq_refl eq_refl eq_refl Hrange Hany Hport).
Defined.

End Extra_ftp_data.

(** ** Further properties of mysql.py *)

Module Extra_mysql.
Import PyStr PyStrFacts Log Mysql TreeFacts Claims_mysql.
Export MysqlKeys.

Lemma lowered_from_untouched items : forall (m : gmap string string) key,
  ~ In key (map lower_key items) ->
  fold_left (fun m kv => <[lower (fst kv) := snd kv]> m) items m !! key
  = m !! key.
Proof.
  induction items as [|[k v] items IH]; intros m key Hnot; [reflexivity|].
  cbn [fold_left]. rewrite IH.
  - apply lookup_insert_ne. intros Heq. apply Hnot. left. exact Heq.
  - intros Hin. apply Hnot. right. exact Hin.
Qed.

Lemma lowered_from_found items : forall (m : gmap string string) k v,
  NoDup (map lower_key items) -> In (k, v) items ->
  fold_left (fun m kv => <[lower (fst kv) := snd kv]> m) items m !! lower k
  = Some v.
Proof.
  induction items as [|[k1 v1] items IH]; intros m k v Hnodup Hin;
    [contradiction|].
  cbn [map] in Hnodup. apply NoDup_cons in Hnodup as [Hfresh Hnodup].
  cbn [fold_left]. destruct Hin as [Heq|Hin].
  - inversion Heq; subst. rewrite lowered_from_untouched.
    + apply lookup_insert_eq.
    + intros Hin. apply Hfresh. apply list_elem_of_In. exact Hin.
  - apply IH; assumption.
Qed.

Example canned_any_case :
  written (turn plain_config "peer" (" Show DATABASES; " +:+ nl))
  = ["mysql> "; "Database" +:+ nl].
Proof. vm_compute. reflexivity. Qed.

(** X14: a configured command is answered with its response whatever the
    letter case of the key in the configuration and of the received line:
    when the keys of [command_responses] stay distinct once lowered, a
    non-empty line that equals a key after stripping and lowering both is
    answered with the value of that key, and the session goes on. *)
Theorem canned_response_any_case (c : Config) (peer data k v : string) :
  NoDup (map lower_key (command_responses c)) ->
  In (k, v) (command_responses c) ->
  lower (strip data) = lower k -> nonempty (strip data) = true ->
  turn c peer data
  = {| written := [default "mysql> " (prompt c); v +:+ nl];
       logged := [command_event peer (strip data) (first_chars 160 v)];
       next := Continue |}.
Proof.
  intros Hnodup Hin Hkey Hcmd. unfold turn.
  rewrite (strip_nonempty _ Hcmd), Hcmd. cbn [negb].
  unfold lowered. rewrite Hkey.
  rewrite (lowered_from_found _ _ _ _ Hnodup Hin). reflexivity.
Qed.

Lemma canned_response_any_case_witness :
  NoDup (map lower_key (command_responses plain_config))
  /\ In ("show databases;", "Database") (command_responses plain_config)
  /\ lower (strip ("SHOW Databases;" +:+ nl)) = lower "show databases;"
  /\ nonempty (strip ("SHOW Databases;" +:+ nl)) = true
  /\ turn plain_config "peer" ("SHOW Databases;" +:+ nl)
     = {| written := ["mysql> "; "Database" +:+ nl];
          logged := [command_event "peer" "SHOW Databases;" "Database"];
          next := Continue |}.
Proof.
  assert (NoDup (map lower_key (command_responses plain_config))) as Hnodup.
  { apply NoDup_cons. split; [apply not_elem_of_nil|apply NoDup_nil_2]. }
  split; [exact Hnodup|]. split; [left; reflexivity|].
  split; [reflexivity|]. split; [reflexivity|].
  exact (canned_response_any_case plain_config "peer"
           ("SHOW Databases;" +:+ nl) "show databases;" "Database"
           Hnodup (or_introl eq_refl) eq_refl eq_refl).
Defined.

(** X15: every non-empty line is logged as exactly one [command] event
    that carries the stripped line and a response text of at most 160
    characters; an empty line, or the end of the stream, is not logged. *)
Theorem mysql_logs_each_command (c : Config) (peer data : string) :
  (nonempty (strip data) = true ->
   exists response,
     logged (turn c peer data) = [command_event peer (strip data) response]
     /\ (len response <= 160)%nat)
  /\ (nonempty (strip data) = false -> logged (turn c peer data) = []).
Proof.
  unfold turn. split; intros Hcmd.
  - rewrite (strip_nonempty _ Hcmd), Hcmd. cbn [negb].
    destruct (lowered c !! lower (strip data)) as [response|].
    + eexists; split; [reflexivity|]. apply substring_length_le.
    + destruct (existsb _ _).
      * eexists; split; [reflexivity|]. cbn. lia.
      * eexists; split; [reflexivity|]. apply substring_length_le.
  - destruct (nonempty data); cbn [negb]; [rewrite Hcmd|]; reflexivity.
Qed.

End Extra_mysql.

(** ** Further properties of http.py *)

Module HttpFacts.
Import PyStr PyStrFacts Log FsTree Http HttpServer DictFacts.
Export HttpSpec2.

Lemma dict_get_absent {V} k (d : list (string * V)) :
  ~ In k (map fst d) -> dict_get k d = None.
Proof.
  induction d as [|[k' v'] d IH]; simpl; intros H; [reflexivity|].
  destruct (eqb k' k) eqn:E.
  - apply eqb_eq in E. exfalso. apply H. left. exact E.
  - apply IH. intros Hin. apply H. right. exact Hin.
Qed.

(** Looking a key up after [{**d, **extra}]: [extra] wins. *)
Lemma dict_get_update {V} k (extra : list (string * V)) : forall d,
  NoDup (map fst extra) ->
  dict_get k (dict_update d extra)
  = match dict_get k extra with Some v => Some v | None => dict_get k d end.
Proof.
  unfold dict_update.
  induction extra as [|[k1 v1] extra IH]; intros d Hnodup; [reflexivity|].
  cbn [map fst] in Hnodup. apply NoDup_cons in Hnodup as [Hfresh Hnodup].
  cbn [fold_left fst snd]. rewrite (IH _ Hnodup). cbn [dict_get].
  destruct (eqb k1 k) eqn:E.
  - apply eqb_eq in E. subst k1.
    rewrite dict_get_absent
      by (intros Hin; apply Hfresh, list_elem_of_In, Hin).
    apply dict_get_set_eq.
  - destruct (dict_get k extra); [reflexivity|].
    apply dict_get_set_ne. apply eqb_neq in E. congruence.
Qed.

Lemma dict_get_setdefault k k' v d :
  dict_get k (setdefault k' v d)
  = match dict_get k d with
    | Some x => Some x
    | None => if eqb k k' then Some v else None
    end.
Proof.
  unfold setdefault, dict_has.
  destruct (String.eqb_spec k k') as [->|Hne].
  - rewrite (proj2 (eqb_eq k' k') eq_refl).
    destruct (dict_get k' d) eqn:E; [rewrite E; reflexivity|].
    apply dict_get_set_eq.
  - rewrite (proj2 (eqb_neq k k') Hne).
    destruct (dict_get k' d) eqn:E.
    + destruct (dict_get k d); reflexivity.
    + rewrite dict_get_set_ne by assumption.
      destruct (dict_get k d); reflexivity.
Qed.

(** What [resolve_body] returns: a body with its length in bytes. *)
Lemma resolve_body_length files r b n :
  resolve_body files r = Some (b, n) -> n = utf8_len b.
Proof.
  unfold resolve_body.
  destruct (r_body r); [intros H; inversion H; reflexivity|].
  destruct (r_body_file r); [|intros H; inversion H; reflexivity].
  destruct (files _); intros H; inversion H; reflexivity.
Qed.

(** The three sources of a response agree on the length of the body. *)
Lemma source_length files c route status b n h :
  match route with
  | Some r => if route_truthy r then route_source files c r
              else fallback_source files c
  | None => fallback_source files c
  end = Some (status, (b, n), h) ->
  n = utf8_len b.
Proof.
  assert (forall x, fallback_source files c = Some (status, (b, n), x) ->
                    n = utf8_len b) as Hfall.
  { unfold fallback_source. intros x.
    destruct (not_found c) as [nf|].
    - destruct (route_truthy nf).
      + destruct (resolve_body files nf) as [[b' n']|] eqn:E; [|discriminate].
        intros H. inversion H; subst. eapply resolve_body_length, E.
      + intros H. inversion H; reflexivity.
    - intros H. inversion H; reflexivity. }
  destruct route as [r|]; [|apply Hfall].
  destruct (route_truthy r); [|apply Hfall].
  unfold route_source.
  destruct (resolve_body files r) as [[b' n']|] eqn:E; [|discriminate].
  intros H. inversion H; subst. eapply resolve_body_length, E.
Qed.

Lemma fold_tls_min_le rest : forall v,
  tls_le (fold_left tls_min rest v) v
  /\ Forall (tls_le (fold_left tls_min rest v)) rest
  /\ In (fold_left tls_min rest v) (v :: rest).
Proof.
  induction rest as [|w rest IH]; intros v.
  - split; [unfold tls_le; cbn; lia|split; [constructor|left; reflexivity]].
  - cbn [fold_left]. destruct (IH (tls_min v w)) as (Hle & Hall & Hin).
    assert (tls_le (tls_min v w) v /\ tls_le (tls_min v w) w
            /\ (tls_min v w = v \/ tls_min v w = w)) as (Hv & Hw & Hor).
    { unfold tls_min, tls_le.
      destruct (Z.ltb_spec (tls_number w) (tls_number v));
        (split; [lia|split; [lia|auto]]). }
    unfold tls_le in *. split; [|split].
    + lia.
    + constructor; [lia|exact Hall].
    + destruct Hin as [Hin|Hin].
      * rewrite <- Hin. destruct Hor as [->| ->]; [left|right; left]; reflexivity.
      * right. right. exact Hin.
Qed.

Lemma fold_tls_max_ge rest : forall v,
  tls_le v (fold_left tls_max rest v)
  /\ Forall (fun w => tls_le w (fold_left tls_max rest v)) rest
  /\ In (fold_left tls_max rest v) (v :: rest).
Proof.
  induction rest as [|w rest IH]; intros v.
  - split; [unfold tls_le; cbn; lia|split; [constructor|left; reflexivity]].
  - cbn [fold_left]. destruct (IH (tls_max v w)) as (Hle & Hall & Hin).
    assert (tls_le v (tls_max v w) /\ tls_le w (tls_max v w)
            /\ (tls_max v w = v \/ tls_max v w = w)) as (Hv & Hw & Hor).
    { unfold tls_max, tls_le.
      destruct (Z.ltb_spec (tls_number v) (tls_number w));
        (split; [lia|split; [lia|auto]]). }
    unfold tls_le in *. split; [|split].
    + lia.
    + constructor; [lia|exact Hall].
    + destruct Hin as [Hin|Hin].
      * rewrite <- Hin. destruct Hor as [->| ->]; [left|right; left]; reflexivity.
      * right. right. exact Hin.
Qed.

End HttpFacts.

Module Extra_http.
Import PyStr PyStrFacts Log FsTree Http HttpServer DictFacts RouteFacts
  HttpFacts Claims_http.

(** X16: whatever the configuration and the route put into the headers, a
    response carries [Server] with the configured server header, [Date]
    with the current date and [Content-Length] with the length in bytes of
    the body it sends. *)
Theorem mandatory_headers (files : string -> option string) (c : Config)
    (route : option Route) (version date : string) (r : Response) :
  build_parts files c route version date = Some r ->
  dict_get "Server" (headers r) = Some (server_header_of c)
  /\ dict_get "Date" (headers r) = Some date
  /\ dict_get "Content-Length" (headers r)
     = Some (str_of_int (utf8_len (body r))).
Proof.
  unfold build_parts.
  destruct (match route with
            | Some r0 => if route_truthy r0 then route_source files c r0
                         else fallback_source files c
            | None => fallback_source files c
            end) as [[[status [b n]] h]|] eqn:Hsrc; [|discriminate].
  pose proof (source_length _ _ _ _ _ _ _ Hsrc) as Hn.
  intros H. inversion H; subst r. cbn [headers body]. subst n.
  split; [|split].
  - rewrite dict_get_set_ne by discriminate.
    rewrite dict_get_set_ne by discriminate. apply dict_get_set_eq.
  - rewrite dict_get_set_ne by discriminate. apply dict_get_set_eq.
  - apply dict_get_set_eq.
Qed.

Lemma mandatory_headers_witness :
  exists r,
    build_parts no_files site (match_route site "GET" "/") "HTTP/1.1" "now"
    = Some r
    /\ dict_get "Server" (headers r) = Some (server_header_of site)
    /\ dict_get "Date" (headers r) = Some "now"
    /\ dict_get "Content-Length" (headers r)
       = Some (str_of_int (utf8_len (body r))).
Proof.
  eexists. split; [reflexivity|].
  exact (mandatory_headers no_files site (match_route site "GET" "/")
           "HTTP/1.1" "now" _ eq_refl).
Defined.

(** X17: for every header other than [Server], [Date] and
    [Content-Length], the value in the response of a matched route is the
    one of the route's [response_headers] if it has one, else the one of
    [default_headers], else the built-in default ([Content-Type] and
    [Connection] have one). *)
Theorem header_precedence (files : string -> option string) (c : Config)
    (route : Route) (version date k : string) (r : Response) :
  route_truthy route = true ->
  NoDup (map fst (default [] (r_response_headers route))) ->
  mandatory k = false ->
  build_parts files c (Some route) version date = Some r ->
  dict_get k (headers r)
  = match dict_get k (default [] (r_response_headers route)) with
    | Some v => Some v
    | None => match dict_get k (default_headers c) with
              | Some v => Some v
              | None => builtin_header k
              end
    end.
Proof.
  intros Htruthy Hnodup Hk. unfold build_parts. rewrite Htruthy.
  unfold route_source.
  destruct (resolve_body files route) as [[b n]|]; [|discriminate].
  intros H. inversion H; subst r. cbn [headers].
  unfold mandatory in Hk. cbn [existsb] in Hk.
  apply orb_false_iff in Hk as [Hs Hk]. apply orb_false_iff in Hk as [Hd Hk].
  apply orb_false_iff in Hk as [Hl _]. apply eqb_neq in Hs, Hd, Hl.
  rewrite !dict_get_set_ne by assumption.
  rewrite !dict_get_setdefault, (dict_get_update k _ _ Hnodup).
  unfold builtin_header.
  destruct (dict_get k (default [] (r_response_headers route)));
    [reflexivity|].
  destruct (dict_get k (default_headers c)); [reflexivity|].
  destruct (eqb k "Content-Type"); reflexivity.
Qed.

Lemma header_precedence_witness :
  exists r,
    route_truthy (hd {| r_method := None; r_path := None; r_status := None;
                        r_body := None; r_body_file := None;
                        r_response_headers := None |} (routes site)) = true
    /\ mandatory "X-Powered-By" = false
    /\ build_parts no_files site (match_route site "GET" "/") "HTTP/1.1" "now"
       = Some r
    /\ dict_get "X-Powered-By" (headers r) = Some "PHP/7.4".
Proof.
  eexists. split; [reflexivity|]. split; [reflexivity|].
  split; [reflexivity|].
  exact (header_precedence no_files site
           {| r_method := Some "get"; r_path := Some "/";
              r_status := Some 200; r_body := Some "X";
              r_body_file := None; r_response_headers := None |}
           "HTTP/1.1" "now" "X-Powered-By" _ eq_refl NoDup_nil_2
           eq_refl eq_refl).
Defined.

(** X18: when a route with a literal [body] is declared for the request
    and no route before it is, the answer is the status line with the
    status of the route (or the default status), one line [key: value] for
    each header, an empty line and that exact body; among the headers is
    [Content-Length] with the length of the body in bytes, and no header
    is sent twice when [default_headers] names none twice. *)
Theorem route_body_served (files : string -> option string) (c : Config)
    (method path version date : string) (before after : list Route)
    (route : Route) (b : string) :
  routes c = before ++ route :: after ->
  Forall (fun r => ~ declared_for method path r) before ->
  declared_for method path route ->
  r_body route = Some b ->
  exists hs : list (string * string),
    respond files c method path version date
    = Some (version +:+ " "
            +:+ str_of_int (default (default_status_of c) (r_status route))
            +:+ " "
            +:+ status_text (default (default_status_of c) (r_status route))
            +:+ crlf
            +:+ String.concat ""
                  (map (fun kv => fst kv +:+ ": " +:+ snd kv +:+ crlf) hs)
            +:+ crlf +:+ b)
    /\ In ("Content-Length", str_of_int (utf8_len b)) hs
    /\ (List.NoDup (map fst (default_headers c)) ->
        List.NoDup (map fst hs)).
Proof.
  intros Hroutes Hbefore Hroute Hbody.
  assert (match_route c method path = Some route) as Hmatch
      by (apply match_route_first; eauto).
  unfold respond, build_response, build_parts. rewrite Hmatch.
  assert (route_truthy route = true) as ->
    by (destruct route as [[] [] [] [] [] []]; simpl in *;
        solve [reflexivity | discriminate]).
  unfold route_source, resolve_body. rewrite Hbody.
  cbn [fmap option_fmap option_map].
  eexists. split; [|split].
  - unfold render. cbn [status_line headers body].
    rewrite header_blob_lines, !append_assoc3. reflexivity.
  - apply In_dict_set.
  - intros Hkeys. apply sent_headers_keys, NoDup_dict_update, Hkeys.
Qed.

Lemma route_body_served_witness :
  routes shop
  = [{| r_method := Some "POST"; r_path := Some "/a";
        r_status := Some 201; r_body := Some "made";
        r_body_file := None; r_response_headers := None |}]
    ++ {| r_method := None; r_path := Some "/a";
          r_status := None; r_body := Some "first";
          r_body_file := None;
          r_response_headers := Some [("X-Route", "1")] |}
       :: [{| r_method := Some "GET"; r_path := Some "/a";
              r_status := Some 200; r_body := Some "second";
              r_body_file := None; r_response_headers := None |}]
  /\ exists hs,
       respond no_files shop "get" "/a" "HTTP/1.1" "now"
       = Some ("HTTP/1.1" +:+ " " +:+ str_of_int 404 +:+ " "
               +:+ status_text 404 +:+ crlf
               +:+ String.concat ""
                     (map (fun kv => fst kv +:+ ": " +:+ snd kv +:+ crlf)
                        hs)
               +:+ crlf +:+ "first")
       /\ In ("Content-Length", str_of_int (utf8_len "first")) hs
       /\ (List.NoDup (map fst (default_headers shop)) ->
           List.NoDup (map fst hs)).
Proof.
  split; [reflexivity|].
  exact (route_body_served no_files shop "get" "/a" "HTTP/1.1" "now"
           [{| r_method := Some "POST"; r_path := Some "/a";
               r_status := Some 201; r_body := Some "made";
               r_body_file := None; r_response_headers := None |}]
           [{| r_method := Some "GET"; r_path := Some "/a";
               r_status := Some 200; r_body := Some "second";
               r_body_file := None; r_response_headers := None |}]
           {| r_method := None; r_path := Some "/a";
              r_status := None; r_body := Some "first";
              r_body_file := None;
              r_response_headers := Some [("X-Route", "1")] |}
           "first" eq_refl
           ltac:(repeat constructor; intros [_ Hm]; discriminate Hm)
           ltac:(split; reflexivity) eq_refl).
Defined.

Example second_route_served :
  respond no_files shop "get" "/a" "HTTP/1.1" "now"
  = Some ("HTTP/1.1 404 Not Found" +:+ crlf
          +:+ "X-Route: 1" +:+ crlf
          +:+ "Content-Type: text/html; charset=utf-8" +:+ crlf
          +:+ "Connection: close" +:+ crlf
          +:+ "Server: Apache/2.4.52 (Ubuntu)" +:+ crlf
          +:+ "Date: now" +:+ crlf
          +:+ "Content-Length: 5" +:+ crlf +:+ crlf +:+ "first").
Proof. vm_compute. reflexivity. Qed.

(** X19: [match_route] returns the first route that is declared for the
    request, the methods compared in upper case and [GET] standing for a
    route that names none: a route that is declared for the request, with
    none so declared before it, is the one returned whatever follows it,
    the route returned is always of this kind, and no route is returned
    exactly when none is declared for the request. *)
Theorem first_route_wins (c : Config) (method path : string) :
  (forall before route after,
      routes c = before ++ route :: after ->
      Forall (fun r => ~ declared_for method path r) before ->
      declared_for method path route ->
      match_route c method path = Some route)
  /\ (forall route,
         match_route c method path = Some route ->
         exists before after,
           routes c = before ++ route :: after
           /\ declared_for method path route
           /\ Forall (fun r => ~ declared_for method path r) before)
  /\ (match_route c method path = None
      <-> Forall (fun r => ~ declared_for method path r) (routes c)).
Proof.
  split; [|split].
  - intros before route after Hroutes Hbefore Hroute.
    apply match_route_first. eauto.
  - intros route. apply match_route_first.
  - apply match_route_none.
Qed.

Lemma first_route_wins_witness :
  match_route shop "get" "/a"
  = Some {| r_method := None; r_path := Some "/a";
            r_status := None; r_body := Some "first";
            r_body_file := None;
            r_response_headers := Some [("X-Route", "1")] |}.
Proof.
  exact (proj1 (first_route_wins shop "get" "/a")
           [{| r_method := Some "POST"; r_path := Some "/a";
               r_status := Some 201; r_body := Some "made";
               r_body_file := None; r_response_headers := None |}]
           _
           [{| r_method := Some "GET"; r_path := Some "/a";
               r_status := Some 200; r_body := Some "second";
               r_body_file := None; r_response_headers := None |}]
           eq_refl
           ltac:(repeat constructor; intros [_ Hm]; discriminate Hm)
           ltac:(split; reflexivity)).
Defined.

Example bad_request_line :
  handle_client no_files id site "peer" ("GET /" +:+ crlf) [] "" "now" ""
  = {| response :=
         Some ("HTTP/1.0 400 Bad Request" +:+ crlf
               +:+ "Content-Type: text/plain; charset=utf-8" +:+ crlf
               +:+ "Content-Length: 17" +:+ crlf
               +:+ "Connection: close" +:+ crlf
               +:+ "Server: nginx/1.18.0" +:+ crlf
               +:+ "Date: now" +:+ crlf +:+ crlf
               +:+ "400 Bad Request" +:+ crlf);
       events := [] |}.
Proof. vm_compute. reflexivity. Qed.

(** X20: a request line that has not exactly three whitespace-separated
    tokens is answered with [HTTP/1.0 400 Bad Request], a plain-text body
    [400 Bad Request] of 17 characters, and is not logged; the headers that
    follow are not read. *)
Theorem malformed_request_line (files : string -> option string)
    (decode_body : string -> string)
    (c : Config) (peer request_line : string) (lines : list string)
    (stream date exc_text : string) :
  nonempty request_line = true ->
  (forall m p v, split_ws (strip request_line) <> [m; p; v]) ->
  handle_client files decode_body c peer request_line lines stream date
    exc_text
  = {| response :=
         Some (("HTTP/1.0 400 Bad Request" +:+ crlf)
               +:+ header_blob
                     [("Content-Type", "text/plain; charset=utf-8");
                      ("Content-Length", "17");
                      ("Connection", "close");
                      ("Server", server_header_of c);
                      ("Date", date)]
               +:+ crlf +:+ "400 Bad Request" +:+ crlf);
       events := [] |}.
Proof.
  intros Hne Hbad. unfold handle_client. rewrite Hne. cbn [negb].
  destruct (split_ws (strip request_line)) as [|m [|p [|v [|x rest]]]] eqn:E;
    try reflexivity.
  exfalso. exact (Hbad m p v eq_refl).
Qed.

Lemma malformed_request_line_witness :
  nonempty ("GET /" +:+ crlf) = true
  /\ (forall m p v, split_ws (strip ("GET /" +:+ crlf)) <> [m; p; v])
  /\ response (handle_client no_files id site "peer" ("GET /" +:+ crlf) []
                 "" "now" "")
     = Some (("HTTP/1.0 400 Bad Request" +:+ crlf)
             +:+ header_blob
                   [("Content-Type", "text/plain; charset=utf-8");
                    ("Content-Length", "17");
                    ("Connection", "close");
                    ("Server", server_header_of site);
                    ("Date", "now")]
             +:+ crlf +:+ "400 Bad Request" +:+ crlf).
Proof.
  assert (forall m p v, split_ws (strip ("GET /" +:+ crlf)) <> [m; p; v])
    as Hbad by (intros m p v; vm_compute; discriminate).
  split; [reflexivity|]. split; [exact Hbad|].
  exact (f_equal response
           (malformed_request_line no_files id site "peer"
              ("GET /" +:+ crlf) [] "" "now" "" eq_refl Hbad)).
Defined.

Example default_tls_bounds : tls_bounds None = Some (TLSv1_2, TLSv1_3).
Proof. reflexivity. Qed.

Example gap_tls_bounds :
  tls_bounds (Some ["TLSv1.3"; "SSLv3"; "TLSv1.0"]) = Some (TLSv1, TLSv1_3).
Proof. reflexivity. Qed.

(** X21: the bounds that [build_ssl_context] sets are versions of the list
    and enclose every version of the list that it knows; names it does not
    know are skipped, and without any known name no bound is set. *)
Theorem tls_bounds_enclose (tls_versions : option (list string)) :
  match tls_bounds tls_versions with
  | Some (lowest, highest) =>
      In lowest (allowed_versions tls_versions)
      /\ In highest (allowed_versions tls_versions)
      /\ Forall (fun v => tls_le lowest v /\ tls_le v highest)
           (allowed_versions tls_versions)
  | None => allowed_versions tls_versions = []
  end.
Proof.
  unfold tls_bounds.
  destruct (allowed_versions tls_versions) as [|v rest]; [reflexivity|].
  destruct (fold_tls_min_le rest v) as (Hlo & Hlos & Hlo_in).
  destruct (fold_tls_max_ge rest v) as (Hhi & His & Hhi_in).
  split; [exact Hlo_in|]. split; [exact Hhi_in|].
  constructor; [split; assumption|].
  apply Forall_forall. intros w Hw.
  rewrite Forall_forall in Hlos, His. split; auto.
Qed.

End Extra_http.

Module RuntimeFacts.
Import PyStr FsTree Runtime.

Lemma filter_nil_forall {A} (f : A -> bool) (l : list A) :
  List.filter (fun x => negb (f x)) l = [] -> Forall (fun x => f x = true) l.
Proof.
  induction l as [|x l IH]; cbn [List.filter]; intros H; [constructor|].
  destruct (f x) eqn:Hx; cbn [negb] in H; [|discriminate H].
  constructor; auto.
Qed.

Lemma filter_forall {A} (f : A -> bool) (l : list A) :
  Forall (fun x => f x = true) (List.filter f l).
Proof.
  induction l as [|x l IH]; cbn [List.filter]; [constructor|].
  destruct (f x) eqn:Hx; [constructor|]; auto.
Qed.

Lemma filter_sub {A} (P : A -> Prop) (f : A -> bool) (l : list A) :
  Forall P l -> Forall P (List.filter f l).
Proof.
  induction 1 as [|x l Hx Hl IH]; cbn [List.filter]; [constructor|].
  destruct (f x); [constructor|]; auto.
Qed.

Lemma determined_names_known disk requested names :
  determine_service_names disk requested = inr names ->
  Forall (fun name => known SERVICE_MAP name = true) names.
Proof.
  unfold determine_service_names.
  assert (Forall (fun name => known SERVICE_MAP name = true) SERVICE_MAP)
    as Hmap by (repeat constructor).
  pose proof (filter_sub _ (fun name => file_exists disk (config_file name))
                _ Hmap) as Hauto.
  set (discovered := List.filter _ SERVICE_MAP) in *. clearbody discovered.
  destruct requested as [[|first others]|].
  - intros H. congruence.
  - destruct (List.filter _ _) eqn:Hf; intros H; [|discriminate H].
    apply (filter_nil_forall (known SERVICE_MAP)) in Hf. congruence.
  - intros H. congruence.
Qed.

Lemma build_names disk filesystem names services :
  build disk filesystem names = inr services ->
  map service_name services = names
  /\ Forall (fun s =>
       file_exists disk (config_file (service_name s)) = true
       /\ constructs disk (service_name s) = true
       /\ service_filesystem s
          = if known FILESYSTEM_SERVICES (service_name s) then filesystem
            else None) services.
Proof.
  revert services.
  induction names as [|name rest IH]; cbn [build]; intros services H.
  - inversion H; subst. split; constructor.
  - destruct (file_exists disk (config_file name)) eqn:He; cbn [negb] in H;
      [|discriminate H].
    destruct (constructs disk name) eqn:Hc; cbn [negb] in H;
      [|discriminate H].
    destruct (build disk filesystem rest) as [e|built]; [discriminate H|].
    inversion H; subst. destruct (IH built eq_refl) as [Hn Hall].
    split; [cbn; congruence|]. constructor; [|exact Hall]. cbn. auto.
Qed.

End RuntimeFacts.

Module Extra_runtime.
Import PyStr FsTree Runtime RuntimeFacts.
Export RuntimeFixtures.

(** X22: when [load_services] returns, the services it built are the names
    that [determine_service_names] gave, in that order; each is a key of
    SERVICE_MAP whose configuration file exists, and a service holds the
    filesystem exactly when it is one of ssh, telnet and ftp. *)
Theorem loaded_services_sound (disk : Disk)
    (requested : option (list string)) (services : list Loaded) :
  load_services disk requested = inr services ->
  determine_service_names disk requested
  = inr (map service_name services)
  /\ Forall (fun s =>
       known SERVICE_MAP (service_name s) = true
       /\ file_exists disk (config_file (service_name s)) = true
       /\ (service_filesystem s <> None
           <-> known FILESYSTEM_SERVICES (service_name s) = true))
       services.
Proof.
  unfold load_services.
  destruct (determine_service_names disk requested) as [e|names] eqn:Hd;
    [discriminate|].
  pose proof (determined_names_known _ _ _ Hd) as Hknown.
  assert (forall filesystem,
             (forall name, In name names ->
                known FILESYSTEM_SERVICES name = true ->
                filesystem <> None) ->
             (filesystem <> None ->
              existsb (known FILESYSTEM_SERVICES) names = true) ->
             build disk filesystem names = inr services ->
             inr (A := Failure) names = inr (map service_name services)
             /\ Forall (fun s =>
                  known SERVICE_MAP (service_name s) = true
                  /\ file_exists disk (config_file (service_name s)) = true
                  /\ (service_filesystem s <> None
                      <-> known FILESYSTEM_SERVICES (service_name s) = true))
                  services) as Hbuild.
  { intros filesystem Hsome Hany Hb.
    destruct (build_names _ _ _ _ Hb) as [Hn Hall]. subst names.
    split; [reflexivity|].
    rewrite List.Forall_forall in Hknown, Hall |- *. intros s Hs.
    destruct (Hall s Hs) as (He & _ & Hf).
    split; [apply Hknown, in_map, Hs|]. split; [exact He|].
    rewrite Hf.
    destruct (known FILESYSTEM_SERVICES (service_name s)) eqn:Hk.
    - split; [reflexivity|]. intros _.
      apply (Hsome (service_name s)); [apply in_map, Hs | exact Hk].
    - split; [congruence | discriminate]. }
  destruct (existsb (known FILESYSTEM_SERVICES) names) eqn:Hex.
  - destruct (file_exists disk "filesystem.json"); cbn [negb];
      [|discriminate].
    destruct (filesystem_json disk) as [fs|]; [|discriminate].
    apply Hbuild; [discriminate | reflexivity].
  - apply Hbuild; [|congruence].
    intros name Hin Hk. exfalso.
    assert (existsb (known FILESYSTEM_SERVICES) names = true) as Ht
        by (apply List.existsb_exists; eauto).
    congruence.
Qed.

Lemma loaded_services_sound_witness :
  load_services two_services (parse_services_argument "SSH, http")
  = inr [ {| service_name := "ssh";
             service_filesystem := Some ShellFixtures.small_fs |};
          {| service_name := "http"; service_filesystem := None |} ]
  /\ determine_service_names two_services
       (parse_services_argument "SSH, http")
     = inr ["ssh"; "http"].
Proof.
  split; [reflexivity|].
  exact (proj1 (loaded_services_sound two_services
                  (parse_services_argument "SSH, http") _ eq_refl)).
Defined.

End Extra_runtime.

Module ShellFacts.
Import PyStr PyStrFacts Filesystem FsTree Log NormalizeFacts PathFacts
  TreeFacts Claims_home SessionFacts.

(** The [except] clauses of [execute_filesystem_command] catch everything
    that the commands raise. *)
Lemma execute_returns shell_name fs command cwd home username :
  exists response cwd',
    Shell.execute_filesystem_command shell_name fs command cwd home username
    = Ok (response, cwd')
    /\ (is_directory_at fs cwd = true -> is_directory_at fs cwd' = true).
Proof.
  assert (forall response,
             exists r c,
               Ok (A := option string * string) (response, cwd) = Ok (r, c)
               /\ (is_directory_at fs cwd = true ->
                   is_directory_at fs c = true)) as Hsame.
  { intros response. exists response, cwd. auto. }
  unfold Shell.execute_filesystem_command.
  destruct (split_ws command) as [|cmd args]; [apply Hsame|].
  unfold Shell.try_block.
  destruct (eqb cmd "pwd"); [apply Hsame|].
  destruct (eqb cmd "whoami"); [apply Hsame|].
  destruct (eqb cmd "cd").
  - set (target := match args with a :: _ => a | [] => home end).
    destruct (resolve fs (normalize target cwd) "/") as [l|e] eqn:Hres;
      cbn [bind is_FilesystemError]; [|apply Hsame].
    destruct (is_dir (node l)) eqn:Hdir; cbn [negb]; [|apply Hsame].
    exists (Some ""), (normalize target cwd).
    pose proof (resolved_directory _ _ _ Hres Hdir) as Hd. auto.
  - destruct (eqb cmd "ls").
    + destruct (format_ls fs _ cwd _ _); cbn [bind is_FilesystemError];
        apply Hsame.
    + destruct (eqb cmd "cat" && _).
      * destruct (read_file fs _ cwd); cbn [bind is_FilesystemError];
          apply Hsame.
      * apply Hsame.
Qed.

End ShellFacts.

Module TelnetFacts.
Import PyStr PyStrFacts Filesystem FsTree Log Prompt TelnetSession
  SessionSpec ShellFacts.

Lemma login_loop_fails svc peer attempts :
  forall inputs,
    Forall (fun pair =>
              Shell.credentials_ok (users (config svc)) (strip (fst pair))
                (strip (snd pair)) = false)
      (read_pairs attempts inputs) ->
    login_loop svc peer attempts inputs
    = {| written :=
           flat_map (fun _ =>
               [default "login: " (login_prompt (config svc));
                default "Password: " (password_prompt (config svc));
                crlf;
                default "Login incorrect" (failure_message (config svc))
                +:+ crlf])
             (read_pairs attempts inputs)
           ++ ["Connection closed by foreign host." +:+ crlf];
         logged :=
           map (fun pair =>
                  fst (Telnet.login_attempt (users (config svc)) peer
                         (fst pair) (snd pair)))
             (read_pairs attempts inputs);
         raised := None |}.
Proof.
  induction attempts as [|attempts IH]; intros inputs Hfail.
  - reflexivity.
  - cbn [login_loop read_pairs] in *.
    destruct (readline inputs) as [username_line inputs1].
    destruct (readline inputs1) as [password_line inputs2].
    inversion Hfail as [|pair pairs Hhere Hrest]; subst.
    cbn [fst snd] in Hhere.
    rewrite (IH inputs2 Hrest).
    unfold Telnet.login_attempt, emit.
    destruct (users (config svc) !! strip username_line);
      cbn [written logged raised flat_map map fst snd app];
      rewrite ?Hhere; reflexivity.
Qed.

End TelnetFacts.

Module Extra_telnet.
Import PyStr PyStrFacts Filesystem FsTree Log Prompt TelnetSession
  SessionSpec ShellFacts TelnetFacts.
Export TelnetFixtures.

(** X23: when every pair of lines that the login loop reads is refused,
    the telnet connection carries the banner, then for each of the
    [max_attempts] turns the two prompts, a line break and the failure
    message, then [Connection closed by foreign host.]; one login_attempt
    event with [success] false is logged for each turn and nothing else.
    With [max_attempts] of zero or less no line is read. *)
Theorem telnet_lockout (svc : Service) (peer : string)
    (inputs : list string) :
  Forall (fun pair =>
            Shell.credentials_ok (users (config svc)) (strip (fst pair))
              (strip (snd pair)) = false)
    (read_pairs (Z.to_nat (default 3 (max_attempts (config svc)))) inputs) ->
  written (handle_client svc peer inputs)
  = match banner (config svc) with
    | Some b => if nonempty b then [b +:+ crlf] else []
    | None => []
    end
    ++ flat_map (fun _ =>
           [default "login: " (login_prompt (config svc));
            default "Password: " (password_prompt (config svc));
            crlf;
            default "Login incorrect" (failure_message (config svc))
            +:+ crlf])
         (read_pairs (Z.to_nat (default 3 (max_attempts (config svc))))
            inputs)
    ++ ["Connection closed by foreign host." +:+ crlf]
  /\ logged (handle_client svc peer inputs)
     = map (fun pair =>
              fst (Telnet.login_attempt (users (config svc)) peer
                     (fst pair) (snd pair)))
         (read_pairs (Z.to_nat (default 3 (max_attempts (config svc))))
            inputs)
  /\ Forall (fun e => event e = "login_attempt"
                      /\ event_field "success" e = Some (JBool false))
       (logged (handle_client svc peer inputs)).
Proof.
  intros Hfail. unfold handle_client.
  rewrite (login_loop_fails _ _ _ _ Hfail).
  unfold emit. cbn [written logged raised app].
  split; [reflexivity|]. split; [reflexivity|].
  induction Hfail as [|pair pairs Hhere Hrest IH]; cbn [map];
    constructor; [|exact IH].
  unfold Telnet.login_attempt, event_field. cbn. rewrite Hhere. auto.
Qed.

Lemma telnet_lockout_witness :
  Forall (fun pair =>
            Shell.credentials_ok (users telnet_config) (strip (fst pair))
              (strip (snd pair)) = false)
    (read_pairs 2 wrong_logins)
  /\ written (handle_client telnet_service "peer" wrong_logins)
     = ["Welcome" +:+ crlf;
        "login: "; "Password: "; crlf; "Login incorrect" +:+ crlf;
        "login: "; "Password: "; crlf; "Login incorrect" +:+ crlf;
        "Connection closed by foreign host." +:+ crlf].
Proof.
  assert (Forall (fun pair =>
            Shell.credentials_ok (users telnet_config) (strip (fst pair))
              (strip (snd pair)) = false)
            (read_pairs 2 wrong_logins)) as Hfail
      by (repeat constructor).
  split; [exact Hfail|].
  exact (proj1 (telnet_lockout telnet_service "peer" wrong_logins Hfail)).
Defined.

(** X24: a telnet shell session is never ended by an exception of the
    filesystem, and its command events are, in order, the stripped
    non-blank lines that arrive before the end of the input and before the
    first line that is [exit], [quit] or [logout] in any letter case; every
    event carries the user name of the session. *)
Theorem telnet_logs_live_commands svc prompt username home :
  forall inputs cwd,
    let t := shell_session svc prompt username home cwd inputs in
    raised t = None
    /\ map (event_field "command") (logged t)
       = map (fun c => Some (JStr c))
           (List.filter (fun c => negb (eqb c ""))
              (map strip (live inputs)))
    /\ Forall (fun e => event e = "command"
                        /\ event_field "username" e = Some (JStr username))
         (logged t).
Proof.
  induction inputs as [|data rest IH]; intros cwd; cbn zeta.
  - cbn. auto.
  - cbn [shell_session live].
    destruct (negb (nonempty data)); [cbn; auto|].
    destruct (existsb _ _); [cbn; auto|].
    cbn [map List.filter].
    destruct (eqb (strip data) "") eqn:Hblank; cbn [negb].
    + destruct (IH cwd) as (Hr & Hc & He). cbn. auto.
    + assert (forall response cwd',
                 let t := emit
                   (prompt_label prompt cwd home
                    :: (if nonempty response then [response +:+ crlf]
                        else []))
                   [command_event username (strip data) response]
                   (shell_session svc prompt username home cwd' rest) in
                 raised t = None
                 /\ map (event_field "command") (logged t)
                    = map (fun c => Some (JStr c))
                        (strip data
                         :: List.filter (fun c => negb (eqb c ""))
                              (map strip (live rest)))
                 /\ Forall (fun e => event e = "command"
                                     /\ event_field "username" e
                                        = Some (JStr username))
                      (logged t)) as Hstep.
      { intros response cwd'. destruct (IH cwd') as (Hr & Hc & He).
        cbn zeta. cbn [emit raised logged app map].
        split; [exact Hr|]. split.
        - f_equal. exact Hc.
        - constructor; [split; reflexivity | exact He]. }
      destruct (fake_commands (config svc) !! strip data) as [canned|].
      * apply Hstep.
      * destruct (filesystem svc) as [fs|].
        -- unfold Telnet.execute_filesystem_command.
           destruct (execute_returns "" fs (strip data) cwd home username)
             as (r & c & -> & _).
           destruct r; apply Hstep.
        -- apply Hstep.
Qed.

End Extra_telnet.

Module SshFacts.
Import PyStr PyStrFacts Filesystem FsTree Log Prompt SshSession
  SessionSpec HomeSpec ShellFacts.

Lemma split_once_found sep b :
  mem_char sep b = true ->
  exists line rest,
    split_once sep b = Some (line, rest)
    /\ (String.length rest < String.length b)%nat
    /\ mem_char sep line = false
    /\ b = line +:+ String sep rest.
Proof.
  induction b as [|c b IH]; cbn [mem_char split_once]; [discriminate|].
  destruct (ascii_eqb c sep) eqn:Hc.
  - intros _. exists "", b. apply Ascii.eqb_eq in Hc. subst c.
    cbn. repeat split; auto.
  - cbn [orb]. intros Hm. destruct (IH Hm) as (line & rest & -> & Hl & Hn & ->).
    exists (String c line), rest. cbn [mem_char]. rewrite Hc, Hn.
    repeat split; auto. cbn [String.length]. lia.
Qed.

Lemma handle_command_frame svc s command :
  buffer (fst (handle_command svc s command)) = buffer s
  /\ home (fst (handle_command svc s command)) = home s
  /\ username (fst (handle_command svc s command)) = username s
  /\ Forall orderly (snd (handle_command svc s command))
  /\ (forall fs, filesystem svc = Some fs ->
        is_directory_at fs (cwd s) = true ->
        is_directory_at fs (cwd (fst (handle_command svc s command)))
        = true).
Proof.
  unfold handle_command.
  destruct (existsb _ _).
  { cbn. repeat split; auto. repeat constructor. }
  destruct (eqb (strip command) "").
  { cbn. repeat split; auto. repeat constructor. }
  assert (forall response cwd',
             (forall fs, filesystem svc = Some fs ->
                is_directory_at fs (cwd s) = true ->
                is_directory_at fs cwd' = true) ->
             let r := (set_cwd s cwd',
                       (if nonempty response then [Write (response +:+ crlf)]
                        else [])
                       ++ [Logged (command_event (username s)
                                     (strip command) response)]
                       ++ write_prompt svc (set_cwd s cwd')) in
             buffer (fst r) = buffer s
             /\ home (fst r) = home s
             /\ username (fst r) = username s
             /\ Forall orderly (snd r)
             /\ (forall fs, filesystem svc = Some fs ->
                   is_directory_at fs (cwd s) = true ->
                   is_directory_at fs (cwd (fst r)) = true)) as Hstep.
  { intros response cwd' Hdir. cbn zeta. cbn [fst snd set_cwd buffer home
      username cwd]. repeat split; auto.
    destruct (nonempty response); repeat constructor. }
  destruct (fake_commands (config svc) !! strip command) as [canned|].
  - apply Hstep. auto.
  - destruct (filesystem svc) as [fs|] eqn:Hfs.
    + unfold Ssh.execute_filesystem_command.
      destruct (execute_returns "bash: " fs (strip command) (cwd s) (home s)
                  (username s)) as (r & c & -> & Hdir).
      destruct r; apply Hstep; intros fs' [= <-]; exact Hdir.
    + apply Hstep. intros fs' Hfs'. discriminate Hfs'.
Qed.

Lemma handle_command_buffer svc s b command :
  handle_command svc (set_buffer s b) command
  = (set_buffer (fst (handle_command svc s command)) b,
     snd (handle_command svc s command)).
Proof.
  unfold handle_command.
  destruct (existsb _ _); [reflexivity|].
  destruct (eqb (strip command) ""); [reflexivity|].
  cbn [set_buffer cwd home username].
  destruct (fake_commands (config svc) !! strip command) as [canned|];
    [reflexivity|].
  destruct (filesystem svc) as [fs|]; [|reflexivity].
  destruct (Ssh.execute_filesystem_command _ _ _ _ _) as [[r c]|e];
    reflexivity.
Qed.

Lemma no_break_empty : no_line_break "".
Proof. split; reflexivity. Qed.

Lemma drain_frame svc turns :
  forall s,
    (String.length (buffer s) <= turns)%nat ->
    no_line_break (buffer (fst (drain svc turns s)))
    /\ home (fst (drain svc turns s)) = home s
    /\ username (fst (drain svc turns s)) = username s
    /\ Forall orderly (snd (drain svc turns s))
    /\ (forall fs, filesystem svc = Some fs ->
          is_directory_at fs (cwd s) = true ->
          is_directory_at fs (cwd (fst (drain svc turns s))) = true).
Proof.
  induction turns as [|turns IH]; intros s Hlen.
  - cbn [drain fst snd]. destruct (buffer s) as [|c b] eqn:Hb;
      [|cbn in Hlen; lia].
    repeat split; auto.
  - cbn [drain].
    destruct (mem_char cr (buffer s) || mem_char lf (buffer s)) eqn:Hany.
    + assert (mem_char (if mem_char lf (buffer s) then lf else cr)
                (buffer s) = true) as Hsep.
      { destruct (mem_char lf (buffer s)) eqn:Hlf; [exact Hlf|].
        rewrite orb_false_r in Hany. exact Hany. }
      destruct (split_once_found _ _ Hsep)
        as (line & rest & -> & Hshort & _ & _).
      pose proof (handle_command_frame svc (set_buffer s rest)
                    (rstrip_chars (String cr "") line))
        as (Hb & Hh & Hu & Ho & Hd).
      destruct (handle_command svc (set_buffer s rest) _) as [s' out].
      cbn [fst snd] in *. cbn [set_buffer buffer home username cwd] in *.
      assert (String.length (buffer s') <= turns)%nat as Hlen'
          by (rewrite Hb; lia).
      pose proof (IH s' Hlen') as (Hb' & Hh' & Hu' & Ho' & Hd').
      destruct (drain svc turns s') as [s'' out']. cbn [fst snd] in *.
      repeat split; try apply Hb'; try congruence.
      * apply Forall_app. auto.
      * intros fs Hfs Hdir. eauto.
    + cbn [fst snd]. apply orb_false_iff in Hany as [Hcr Hlf].
      repeat split; auto.
Qed.

End SshFacts.

Module ChunkFacts.
Import PyStr PyStrFacts Filesystem FsTree Log Prompt SshSession
  SessionSpec HomeSpec NormalizeFacts ListingFacts PortFacts NumberFacts
  ShellFacts SshFacts.
Export SshFixtures.

Lemma append_length (a b : string) :
  String.length (a +:+ b) = (String.length a + String.length b)%nat.
Proof.
  induction a as [|c a IH]; [reflexivity|].
  change (String c a +:+ b) with (String c (a +:+ b)).
  cbn [String.length]. rewrite IH. reflexivity.
Qed.

Lemma split_once_app sep b d line rest :
  split_once sep b = Some (line, rest) ->
  split_once sep (b +:+ d) = Some (line, rest +:+ d).
Proof.
  revert line. induction b as [|c b IH]; intros line; [discriminate|].
  change (String c b +:+ d) with (String c (b +:+ d)).
  cbn [split_once]. destruct (ascii_eqb c sep).
  - intros [= <- <-]. reflexivity.
  - destruct (split_once sep b) as [[h t]|]; [|discriminate].
    intros [= <- <-]. rewrite (IH h eq_refl). reflexivity.
Qed.

Lemma pending_free b : mem_char lf b = false -> pending b = b.
Proof. intros H. unfold pending. rewrite (split_free _ _ H). reflexivity. Qed.

Lemma pending_after line rest :
  mem_char lf line = false ->
  pending (line +:+ String lf rest) = pending rest.
Proof.
  intros H. unfold pending. rewrite (split_app_free _ _ _ H).
  pose proof (split_nonnil lf rest) as Hne.
  destruct (split lf rest) as [|h t]; [congruence|reflexivity].
Qed.

Lemma drain_idle svc turns s :
  buffer s = "" -> drain svc turns s = (s, []).
Proof. intros Hb. destruct turns; cbn [drain]; rewrite ?Hb; reflexivity. Qed.

Lemma length_zero (b : string) : (String.length b <= 0)%nat -> b = "".
Proof. destruct b; cbn; [reflexivity|lia]. Qed.

Lemma drain_enough svc t1 :
  forall t2 s,
    (String.length (buffer s) <= t1)%nat ->
    (String.length (buffer s) <= t2)%nat ->
    drain svc t1 s = drain svc t2 s.
Proof.
  induction t1 as [|t1 IH]; intros t2 s H1 H2.
  - rewrite !drain_idle; auto using length_zero.
  - destruct t2 as [|t2];
      [rewrite !drain_idle; auto using length_zero|].
    cbn [drain].
    destruct (mem_char cr (buffer s) || mem_char lf (buffer s)) eqn:Hany;
      [|reflexivity].
    assert (mem_char (if mem_char lf (buffer s) then lf else cr)
              (buffer s) = true) as Hsep.
    { destruct (mem_char lf (buffer s)) eqn:Hlf; [exact Hlf|].
      rewrite orb_false_r in Hany. exact Hany. }
    destruct (split_once_found _ _ Hsep)
      as (line & rest & -> & Hshort & _ & _).
    pose proof (handle_command_frame svc (set_buffer s rest)
                  (rstrip_chars (String cr "") line)) as (Hb & _).
    destruct (handle_command svc (set_buffer s rest) _) as [s' out].
    cbn [fst set_buffer buffer] in Hb.
    rewrite (IH t2 s') by (rewrite Hb; lia). reflexivity.
Qed.

Lemma drain_append svc turns :
  forall s d,
    (String.length (buffer s) <= turns)%nat ->
    mem_char cr (pending (buffer s)) = false ->
    drain svc (turns + String.length d) (set_buffer s (buffer s +:+ d))
    = (let (s1, out1) := drain svc turns s in
       let (s2, out2) :=
         drain svc (String.length (buffer s1 +:+ d))
           (set_buffer s1 (buffer s1 +:+ d)) in
       (s2, out1 ++ out2)).
Proof.
  induction turns as [|turns IH]; intros s d Hlen Hcr.
  - apply length_zero in Hlen. cbn [drain Nat.add]. rewrite Hlen.
    change ("" +:+ d) with d.
    destruct (drain svc (String.length d) (set_buffer s d)); reflexivity.
  - destruct (mem_char lf (buffer s)) eqn:Hlf.
    + destruct (split_once_found _ _ Hlf)
        as (line & rest & Hsplit & Hshort & Hfree & Hb).
      cbn [drain Nat.add set_buffer buffer].
      rewrite !mem_char_app, Hlf, !orb_true_r. cbn [orb].
      rewrite (split_once_app _ _ d _ _ Hsplit), Hsplit.
      change {| username := username s; buffer := rest +:+ d;
                cwd := cwd s; home := home s |}
        with (set_buffer s (rest +:+ d)).
      change {| username := username s; buffer := rest;
                cwd := cwd s; home := home s |}
        with (set_buffer s rest).
      rewrite !handle_command_buffer.
      pose proof (handle_command_frame svc s
                    (rstrip_chars (String cr "") line)) as (Hbuf & _).
      destruct (handle_command svc s _) as [s' out]. cbn [fst snd] in *.
      assert (mem_char cr (pending rest) = false) as Hcr'.
      { rewrite Hb, pending_after in Hcr; assumption. }
      assert (drain svc (turns + String.length d)
                (set_buffer s' (rest +:+ d))
              = (let (s1, out1) := drain svc turns (set_buffer s' rest) in
                 let (s2, out2) :=
                   drain svc (String.length (buffer s1 +:+ d))
                     (set_buffer s1 (buffer s1 +:+ d)) in
                 (s2, out1 ++ out2))) as Hnext.
      { apply (IH (set_buffer s' rest) d); [cbn; lia | exact Hcr']. }
      change (set_buffer (set_buffer s' (buffer s +:+ d)) (rest +:+ d))
        with (set_buffer s' (rest +:+ d)).
      rewrite Hnext.
      destruct (drain svc turns (set_buffer s' rest)) as [s1 out1].
      destruct (drain svc _ (set_buffer s1 _)) as [s2 out2].
      rewrite app_assoc. reflexivity.
    + rewrite (pending_free _ Hlf) in Hcr.
      cbn [drain]. rewrite Hcr, Hlf. cbn [orb app].
      rewrite (drain_enough svc (S turns + String.length d)
                 (String.length (buffer s +:+ d)));
        cbn [set_buffer buffer]; rewrite ?append_length; try lia.
      destruct (drain svc _ _); reflexivity.
Qed.

End ChunkFacts.

Module Extra_ssh.
Import PyStr PyStrFacts Filesystem FsTree Log Prompt SshSession
  SessionSpec HomeSpec NormalizeFacts ListingFacts PortFacts NumberFacts
  Claims_home SessionFacts ShellFacts SshFacts ChunkFacts.

(** X25: when [data_received] returns, the buffer of the session holds
    neither a carriage return nor a line feed: the loop ends because no
    separator is left, every line that was complete has been handed to
    [_handle_command], and the number of turns is bounded by the length of
    the buffer. *)
Theorem ssh_buffer_drained (svc : Service) (s : Session) (data : string) :
  no_line_break (buffer (fst (data_received svc s data))).
Proof.
  unfold data_received. cbn zeta.
  apply (drain_frame svc _ (set_buffer s (buffer s +:+ data))).
  reflexivity.
Qed.

Example split_after_carriage_return :
  snd (data_received ssh_service opened ("ls" +:+ crlf))
  <> (let (s1, out1) := data_received ssh_service opened
                          ("ls" +:+ String cr "") in
      out1 ++ snd (data_received ssh_service s1 (String lf ""))).
Proof. vm_compute. discriminate. Qed.

(** X26: delivering a text to the ssh session in two pieces gives the
    same session and the same writes and events as delivering it at once,
    provided that what is pending after the first piece, the text behind
    its last line feed, holds no carriage return. *)
Theorem ssh_chunking (svc : Service) (s : Session) (d1 d2 : string) :
  mem_char cr (pending (buffer s +:+ d1)) = false ->
  data_received svc s (d1 +:+ d2)
  = (let (s1, out1) := data_received svc s d1 in
     let (s2, out2) := data_received svc s1 d2 in
     (s2, out1 ++ out2)).
Proof.
  intros Hcr. unfold data_received. cbn zeta.
  change (buffer (set_buffer s (buffer s +:+ (d1 +:+ d2))))
    with (buffer s +:+ (d1 +:+ d2)).
  rewrite <- append_assoc, append_length.
  change (set_buffer s ((buffer s +:+ d1) +:+ d2))
    with (set_buffer (set_buffer s (buffer s +:+ d1))
            (buffer (set_buffer s (buffer s +:+ d1)) +:+ d2)).
  rewrite (drain_append svc (String.length (buffer s +:+ d1))
             (set_buffer s (buffer s +:+ d1)) d2);
    [reflexivity | reflexivity | exact Hcr].
Qed.

Lemma ssh_chunking_witness :
  mem_char cr (pending (buffer opened +:+ ("ls" +:+ crlf))) = false
  /\ data_received ssh_service opened (("ls" +:+ crlf) +:+ ("pw" +:+ "d"))
     = (let (s1, out1) := data_received ssh_service opened ("ls" +:+ crlf) in
        let (s2, out2) := data_received ssh_service s1 ("pw" +:+ "d") in
        (s2, out1 ++ out2)).
Proof.
  split; [reflexivity|].
  exact (ssh_chunking ssh_service opened ("ls" +:+ crlf) ("pw" +:+ "d")
           eq_refl).
Defined.

(** X27: with the filesystem attached and a directory at its root, the
    working directory of an ssh session names an existing directory after
    [connection_made], where it is also the home, and after every
    [data_received]; the home and the user name never change, and the
    session logs command events only: no exception of the filesystem
    reaches the [except] branch of [_handle_command]. *)
Theorem ssh_cwd_is_directory (svc : Service) (fs : FakeFilesystem)
    (name : string) :
  filesystem svc = Some fs ->
  is_dir (root fs) = true ->
  is_directory_at fs (cwd (fst (connection_made svc name))) = true
  /\ home (fst (connection_made svc name))
     = cwd (fst (connection_made svc name))
  /\ forall s data,
       is_directory_at fs (cwd s) = true ->
       is_directory_at fs (cwd (fst (data_received svc s data))) = true
       /\ home (fst (data_received svc s data)) = home s
       /\ username (fst (data_received svc s data)) = username s
       /\ Forall orderly (snd (data_received svc s data)).
Proof.
  intros Hfs Hroot. split; [|split].
  - cbn [connection_made fst cwd]. unfold Ssh.session_cwd, Ssh.resolve_home.
    rewrite Hfs, resolve_home_attached.
    apply expected_home_directory, Hroot.
  - reflexivity.
  - intros s data Hdir. unfold data_received. cbn zeta.
    pose proof (drain_frame svc
                  (String.length (buffer (set_buffer s (buffer s +:+ data))))
                  (set_buffer s (buffer s +:+ data)) (le_n _))
      as (_ & Hh & Hu & Ho & Hd).
    split; [exact (Hd fs Hfs Hdir)|]. auto.
Qed.

Lemma ssh_cwd_is_directory_witness :
  filesystem ssh_service = Some ShellFixtures.small_fs
  /\ is_dir (root ShellFixtures.small_fs) = true
  /\ cwd opened = "/etc"
  /\ is_directory_at ShellFixtures.small_fs (cwd opened) = true.
Proof.
  split; [reflexivity|]. split; [reflexivity|]. split; [reflexivity|].
  exact (proj1 (ssh_cwd_is_directory ssh_service ShellFixtures.small_fs
                  "root" eq_refl eq_refl)).
Defined.

End Extra_ssh.
